(** * Heart-rate effort and workout-quality scoring (HeartRateService.ts)

    A shallow embedding of [calculateHeartRateZones], [getEffortLevel] and
    [calculateWorkoutQuality], followed by the properties of the scoring
    engine.

    JavaScript numbers are modelled as exact rationals extended with
    [+Infinity], [-Infinity] and [NaN].  Division by zero, the absorbing
    behaviour of [NaN] and the truthiness of numbers follow ECMAScript.
    Two things are abstracted: the rounding of finite intermediate results
    to binary64, and the sign of zero (observable only by dividing by a zero
    that [Math.round] produced from a value in [-1/2, 0), which needs a
    maxHeartRate in [-1, 0)).  The general properties below rest on the
    order of the comparisons and on the monotonicity of the arithmetic, not
    on exact values; every concrete value stated for a scenario is either
    exact in binary64 or at least 1/6 away from a rounding tie. *)

From Stdlib Require Import QArith Qround Lqa ZArith Lia.
From stdpp Require Import gmap strings list.

(** ** JavaScript numbers *)

Module JsNumber.

Inductive num : Type :=
| Fin (q : Q)
| PInf
| NInf
| NaN.

Definition of_Z (z : Z) : num := Fin (inject_Z z).
Definition of_nat (n : nat) : num := of_Z (Z.of_nat n).

Definition Qpos_b (q : Q) : bool := negb (Qle_bool q 0).
Definition Qzero_b (q : Q) : bool := Qeq_bool q 0.

(** Infinity of the sign of a non-zero finite factor. *)
Definition inf_signed (positive : bool) : num :=
  if positive then PInf else NInf.

Definition neg (a : num) : num :=
  match a with
  | Fin q => Fin (- q)
  | PInf => NInf
  | NInf => PInf
  | NaN => NaN
  end.

Definition add (a b : num) : num :=
  match a, b with
  | NaN, _ | _, NaN => NaN
  | Fin x, Fin y => Fin (x + y)
  | PInf, NInf | NInf, PInf => NaN
  | PInf, _ | _, PInf => PInf
  | NInf, _ | _, NInf => NInf
  end.

Definition sub (a b : num) : num := add a (neg b).

Definition mul (a b : num) : num :=
  match a, b with
  | NaN, _ | _, NaN => NaN
  | Fin x, Fin y => Fin (x * y)
  | Fin x, PInf | PInf, Fin x =>
      if Qzero_b x then NaN else inf_signed (Qpos_b x)
  | Fin x, NInf | NInf, Fin x =>
      if Qzero_b x then NaN else inf_signed (negb (Qpos_b x))
  | PInf, PInf | NInf, NInf => PInf
  | PInf, NInf | NInf, PInf => NInf
  end.

Definition div (a b : num) : num :=
  match a, b with
  | NaN, _ | _, NaN => NaN
  | Fin x, Fin y =>
      if Qzero_b y
      then (if Qzero_b x then NaN else inf_signed (Qpos_b x))
      else Fin (x / y)
  | Fin _, PInf | Fin _, NInf => Fin 0
  | PInf, Fin y => inf_signed (Qle_bool 0 y)
  | NInf, Fin y => inf_signed (negb (Qle_bool 0 y))
  | _, _ => NaN
  end.

(** [a <= b]; every comparison with [NaN] is false. *)
Definition leb (a b : num) : bool :=
  match a, b with
  | NaN, _ | _, NaN => false
  | Fin x, Fin y => Qle_bool x y
  | NInf, _ => true
  | _, PInf => true
  | _, _ => false
  end.

(** [a < b]. *)
Definition ltb (a b : num) : bool :=
  match a, b with
  | NaN, _ | _, NaN => false
  | Fin x, Fin y => negb (Qle_bool y x)
  | PInf, _ => false
  | _, NInf => false
  | _, _ => true
  end.

Definition geb (a b : num) : bool := leb b a.
Definition gtb (a b : num) : bool := ltb b a.

(** ToBoolean on a number: [0] and [NaN] are falsy. *)
Definition truthy (a : num) : bool :=
  match a with
  | Fin q => negb (Qzero_b q)
  | NaN => false
  | _ => true
  end.

(** [Math.round]: nearest integer, ties towards [+Infinity]. *)
Definition round_half_up (q : Q) : Z := Qfloor (q + 0.5).

Definition Math_round (a : num) : num :=
  match a with
  | Fin q => of_Z (round_half_up q)
  | _ => a
  end.

Definition Math_min (a b : num) : num :=
  match a, b with
  | NaN, _ | _, NaN => NaN
  | _, _ => if leb a b then a else b
  end.

Definition Math_max (a b : num) : num :=
  match a, b with
  | NaN, _ | _, NaN => NaN
  | _, _ => if leb a b then b else a
  end.

(** [Math.max(...xs)]: [-Infinity] for no argument. *)
Definition Math_max_spread (xs : list num) : num :=
  foldr Math_max NInf xs.

(** [Math.pow(x, 2)]. *)
Definition Math_pow2 (a : num) : num := mul a a.

(** [Math.round(Math.sqrt(a))].  A square root is in general irrational, so
    the only use the program makes of it, rounded to the nearest integer,
    is modelled as one step: the result is the integer [k >= 0] with
    [k - 1/2 <= sqrt a < k + 1/2] (lemma [Math_round_sqrt_spec]). *)
Definition Math_round_sqrt (a : num) : num :=
  match a with
  | Fin q =>
      if Qle_bool 0 q
      then of_Z ((Z.sqrt (Qfloor (4 * q)) + 1) / 2)
      else NaN
  | PInf => PInf
  | _ => NaN
  end.

Declare Scope num_scope.
Delimit Scope num_scope with num.
Bind Scope num_scope with num.
Infix "+" := add : num_scope.
Infix "-" := sub : num_scope.
Infix "*" := mul : num_scope.
Infix "/" := div : num_scope.
Infix "<=?" := leb : num_scope.
Infix "<?" := ltb : num_scope.
Infix ">=?" := geb (at level 70) : num_scope.
Infix ">?" := gtb (at level 70) : num_scope.

End JsNumber.

(** ** HeartRateService.ts *)

Module HeartRateService.
Import JsNumber.
Local Open Scope num_scope.

Record HeartRateData : Type := {
  heartRate : option num;   (* number | null *)
  timestamp : num
}.

Module Band.
Record t : Type := { min : num; max : num }.
End Band.

Record Zones : Type := {
  recovery : Band.t;
  fatBurn : Band.t;
  aerobic : Band.t;
  anaerobic : Band.t;
  max : Band.t
}.

(** Lines 104-112. *)
Definition calculateHeartRateZones (maxHeartRate : num) : Zones :=
  {| recovery := {| Band.min := Fin 0;
                    Band.max := Math_round (maxHeartRate * Fin 0.5) |};
     fatBurn := {| Band.min := Math_round (maxHeartRate * Fin 0.5);
                   Band.max := Math_round (maxHeartRate * Fin 0.6) |};
     aerobic := {| Band.min := Math_round (maxHeartRate * Fin 0.6);
                   Band.max := Math_round (maxHeartRate * Fin 0.7) |};
     anaerobic := {| Band.min := Math_round (maxHeartRate * Fin 0.7);
                     Band.max := Math_round (maxHeartRate * Fin 0.85) |};
     max := {| Band.min := Math_round (maxHeartRate * Fin 0.85);
               Band.max := maxHeartRate |} |}.

Record EffortLevel : Type := {
  zone : string;
  intensity : num;   (* 0-100 *)
  description : string
}.

(** Lines 115-153. *)
Definition getEffortLevel (heartRate maxHeartRate : num) : EffortLevel :=
  let zones := calculateHeartRateZones maxHeartRate in
  if heartRate <=? Band.max (recovery zones) then
    {| zone := "Recovery";
       intensity := Math_round ((heartRate / Band.max (recovery zones)) * Fin 20);
       description := "Very Light" |}
  else if heartRate <=? Band.max (fatBurn zones) then
    {| zone := "Fat Burn";
       intensity :=
         Math_round (Fin 20 + ((heartRate - Band.min (fatBurn zones))
                               / (Band.max (fatBurn zones) - Band.min (fatBurn zones)))
                              * Fin 20);
       description := "Light" |}
  else if heartRate <=? Band.max (aerobic zones) then
    {| zone := "Aerobic";
       intensity :=
         Math_round (Fin 40 + ((heartRate - Band.min (aerobic zones))
                               / (Band.max (aerobic zones) - Band.min (aerobic zones)))
                              * Fin 20);
       description := "Moderate" |}
  else if heartRate <=? Band.max (anaerobic zones) then
    {| zone := "Anaerobic";
       intensity :=
         Math_round (Fin 60 + ((heartRate - Band.min (anaerobic zones))
                               / (Band.max (anaerobic zones) - Band.min (anaerobic zones)))
                              * Fin 20);
       description := "Hard" |}
  else
    {| zone := "Max";
       intensity :=
         Math_round (Fin 80 + ((heartRate - Band.min (max zones))
                               / (Band.max (max zones) - Band.min (max zones)))
                              * Fin 20);
       description := "Maximum" |}.

(** ToBoolean on [number | null] and [number | undefined]. *)
Definition truthy_opt (v : option num) : bool :=
  match v with
  | Some n => truthy n
  | None => false
  end.

(** [v ? k(v) : otherwise], where [k] sees the value narrowed to a number. *)
Definition if_truthy {A : Type} (v : option num) (k : num -> A) (otherwise : A) : A :=
  match v with
  | Some n => if truthy n then k n else otherwise
  | None => otherwise
  end.

(** An absent property read in an arithmetic position: [undefined] becomes
    [NaN]. *)
Definition to_number (v : option num) : num :=
  match v with
  | Some n => n
  | None => NaN
  end.

Inductive WorkoutType : Type :=
| Weightlifting | Cardio | HIIT | CrossFit | Running | Cycling | Yoga | Other.

Inductive Quality : Type := Excellent | Good | Fair | Poor.

Record WorkoutSpecific : Type := {
  hrVariability : option num;
  peakSpikes : option num;
  recoveryEfficiency : option num;
  sustainedAerobic : option num;
  zoneTransitions : option num
}.

Record WorkoutQuality : Type := {
  averageIntensity : num;
  maxIntensity : num;
  timeInZones : gmap string num;
  quality : Quality;
  score : num;   (* 0-100 *)
  workoutSpecific : option WorkoutSpecific
}.

(** [heartRateData.map(data => ...)], lines 188-191. *)
Definition intensities (heartRateData : list HeartRateData) (maxHeartRate : num)
  : list num :=
  (fun data =>
     if_truthy (heartRate data)
       (fun hr => intensity (getEffortLevel hr maxHeartRate))
       (Fin 0)) <$> heartRateData.

(** [xs.reduce((sum, x) => sum + x, 0)]. *)
Definition sum (xs : list num) : num := foldl add (Fin 0) xs.

(** [o[key] += 1]. *)
Definition increment (key : string) (o : gmap string num) : gmap string num :=
  <[key := to_number (o !! key) + Fin 1]> o.

(** Body of the first [forEach], lines 206-213. *)
Definition countZone (zones : Zones) (timeInZones : gmap string num)
    (data : HeartRateData) : gmap string num :=
  if_truthy (heartRate data)
    (fun hr =>
       if hr <=? Band.max (recovery zones) then increment "recovery" timeInZones
       else if hr <=? Band.max (fatBurn zones) then increment "fatBurn" timeInZones
       else if hr <=? Band.max (aerobic zones) then increment "aerobic" timeInZones
       else if hr <=? Band.max (anaerobic zones) then increment "anaerobic" timeInZones
       else increment "max" timeInZones)
    timeInZones.

Definition zoneCounts (heartRateData : list HeartRateData) (zones : Zones)
  : gmap string num :=
  foldl (countZone zones)
    (<["recovery" := Fin 0]> (<["fatBurn" := Fin 0]> (<["aerobic" := Fin 0]>
       (<["anaerobic" := Fin 0]> (<["max" := Fin 0]> ∅)))))
    heartRateData.

(** [Object.keys(timeInZones).forEach(...)], lines 216-219. *)
Definition toPercentages (total : num) (timeInZones : gmap string num)
  : gmap string num :=
  (fun count => Math_round ((count / total) * Fin 100)) <$> timeInZones.

(** [heartRateData.filter(d => d.heartRate !== null).map(d => d.heartRate!)]. *)
Definition validHRs (heartRateData : list HeartRateData) : list num :=
  omap heartRate heartRateData.

(** Lines 232-236; [None] is the property left unset. *)
Definition hrVariabilityOf (validHRs : list num) : option num :=
  if (1 <? length validHRs)%nat then
    let mean := sum validHRs / of_nat (length validHRs) in
    let variance :=
      foldl (fun sum hr => sum + Math_pow2 (hr - mean)) (Fin 0) validHRs
      / of_nat (length validHRs) in
    Some (Math_round_sqrt variance)
  else None.

(** Lines 239-240. *)
Definition peakSpikesOf (heartRateData : list HeartRateData) (maxHeartRate : num)
  : num :=
  let anaerobicThreshold := Math_round (maxHeartRate * Fin 0.85) in
  of_nat (length (List.filter
    (fun d => if_truthy (heartRate d) (fun hr => hr >? anaerobicThreshold) false)
    heartRateData)).

(** Body of the second [forEach], lines 247-254, on the pair
    [(maxSustainedAerobic, currentSustained)]. *)
Definition sustainedStep (aerobicMin aerobicMax : num) (st : num * num)
    (data : HeartRateData) : num * num :=
  let '(maxSustainedAerobic, currentSustained) := st in
  if if_truthy (heartRate data)
       (fun hr => (hr >=? aerobicMin) && (hr <=? aerobicMax)) false
  then
    let currentSustained := currentSustained + Fin 1 in
    (Math_max maxSustainedAerobic currentSustained, currentSustained)
  else (maxSustainedAerobic, Fin 0).

Definition sustainedAerobicOf (heartRateData : list HeartRateData)
    (maxHeartRate : num) : num :=
  let aerobicMin := Math_round (maxHeartRate * Fin 0.6) in
  let aerobicMax := Math_round (maxHeartRate * Fin 0.7) in
  let maxSustainedAerobic :=
    fst (foldl (sustainedStep aerobicMin aerobicMax) (Fin 0, Fin 0) heartRateData) in
  Math_round ((maxSustainedAerobic / of_nat (length heartRateData)) * Fin 100).

(** Lines 262-267: the zone key of a truthy heart rate. *)
Definition currentZoneOf (zones : Zones) (hr : num) : string :=
  if hr <=? Band.max (recovery zones) then "recovery"
  else if hr <=? Band.max (fatBurn zones) then "fatBurn"
  else if hr <=? Band.max (aerobic zones) then "aerobic"
  else if hr <=? Band.max (anaerobic zones) then "anaerobic"
  else "max".

(** Body of the third [forEach], lines 260-273, on the pair
    [(zoneTransitions, previousZone)]. *)
Definition transitionStep (zones : Zones) (st : num * string)
    (data : HeartRateData) : num * string :=
  let '(zoneTransitions, previousZone) := st in
  if_truthy (heartRate data)
    (fun hr =>
       let currentZone := currentZoneOf zones hr in
       (if negb (String.eqb previousZone "")
           && negb (String.eqb previousZone currentZone)
        then zoneTransitions + Fin 1 else zoneTransitions,
        currentZone))
    st.

Definition zoneTransitionsOf (heartRateData : list HeartRateData) (zones : Zones)
  : num :=
  fst (foldl (transitionStep zones) (Fin 0, "") heartRateData).

(** [Math.min(duration / 3600 * 100, 100)]. *)
Definition durationScoreOf (duration : num) : num :=
  Math_min (duration / Fin 3600 * Fin 100) (Fin 100).

(** The [switch] of lines 281-331. *)
Definition scoreOf (workoutType : WorkoutType) (sampleCount : nat)
    (averageIntensity maxIntensity : num) (timeInZones : gmap string num)
    (workoutSpecific : WorkoutSpecific) (duration : num) : num :=
  let timeInHighIntensity :=
    to_number (timeInZones !! "anaerobic") + to_number (timeInZones !! "max") in
  let durationScore := durationScoreOf duration in
  match workoutType with
  | Weightlifting =>
      let variabilityScore :=
        if_truthy (hrVariability workoutSpecific)
          (fun v => Math_min ((v / Fin 30) * Fin 100) (Fin 100))
          (Fin 50) in
      let spikesScore :=
        Math_min ((to_number (peakSpikes workoutSpecific)
                   / Math_max (of_nat sampleCount / Fin 10) (Fin 1)) * Fin 100)
                 (Fin 100) in
      Math_round (maxIntensity * Fin 0.30
                  + spikesScore * Fin 0.25
                  + variabilityScore * Fin 0.25
                  + durationScore * Fin 0.10
                  + averageIntensity * Fin 0.10)
  | Cardio | Running | Cycling =>
      Math_round (if_truthy (sustainedAerobic workoutSpecific) (fun v => v) (Fin 0)
                    * Fin 0.35
                  + averageIntensity * Fin 0.30
                  + durationScore * Fin 0.20
                  + to_number (timeInZones !! "aerobic") * Fin 0.15)
  | HIIT | CrossFit =>
      let transitionsScore :=
        Math_min ((to_number (zoneTransitions workoutSpecific)
                   / Math_max (of_nat sampleCount / Fin 5) (Fin 1)) * Fin 100)
                 (Fin 100) in
      Math_round (timeInHighIntensity * Fin 0.30
                  + transitionsScore * Fin 0.25
                  + maxIntensity * Fin 0.25
                  + averageIntensity * Fin 0.20)
  | Yoga | Other =>
      Math_round (averageIntensity * Fin 0.35
                  + maxIntensity * Fin 0.30
                  + timeInHighIntensity * Fin 0.20
                  + durationScore * Fin 0.15)
  end.

(** Lines 333-337. *)
Definition qualityOf (score : num) : Quality :=
  if score >=? Fin 80 then Excellent
  else if score >=? Fin 60 then Good
  else if score >=? Fin 40 then Fair
  else Poor.

(** Lines 159-347.  The default ['Other'] of [workoutType] is the caller's
    to pass. *)
Definition calculateWorkoutQuality (heartRateData : list HeartRateData)
    (maxHeartRate duration : num) (workoutType : WorkoutType) : WorkoutQuality :=
  if (length heartRateData =? 0)%nat then
    {| averageIntensity := Fin 0;
       maxIntensity := Fin 0;
       timeInZones := ∅;
       quality := Poor;
       score := Fin 0;
       workoutSpecific := None |}
  else
    let intensities := intensities heartRateData maxHeartRate in
    let averageIntensity := sum intensities / of_nat (length intensities) in
    let maxIntensity := Math_max_spread intensities in
    let zones := calculateHeartRateZones maxHeartRate in
    let timeInZones :=
      toPercentages (of_nat (length heartRateData)) (zoneCounts heartRateData zones) in
    let validHRs := validHRs heartRateData in
    let workoutSpecific :=
      {| hrVariability := hrVariabilityOf validHRs;
         peakSpikes := Some (peakSpikesOf heartRateData maxHeartRate);
         recoveryEfficiency := None;
         sustainedAerobic := Some (sustainedAerobicOf heartRateData maxHeartRate);
         zoneTransitions := Some (zoneTransitionsOf heartRateData zones) |} in
    let score :=
      scoreOf workoutType (length heartRateData) averageIntensity maxIntensity
        timeInZones workoutSpecific duration in
    {| averageIntensity := Math_round averageIntensity;
       maxIntensity := maxIntensity;
       timeInZones := timeInZones;
       quality := qualityOf score;
       score := score;
       workoutSpecific := Some workoutSpecific |}.

End HeartRateService.

(** ** Scenarios and reference definitions *)

Import JsNumber HeartRateService.
Local Open Scope num_scope.

Definition sample (hr : Z) : HeartRateData :=
  {| heartRate := Some (of_Z hr); timestamp := Fin 0 |}.

Definition nullSample : HeartRateData :=
  {| heartRate := None; timestamp := Fin 0 |}.

(** The five keys of [timeInZones] with the given percentages. *)
Definition zoneTable (recovery fatBurn aerobic anaerobic max : Z)
  : gmap string num :=
  <["recovery" := of_Z recovery]> (<["fatBurn" := of_Z fatBurn]>
    (<["aerobic" := of_Z aerobic]> (<["anaerobic" := of_Z anaerobic]>
      (<["max" := of_Z max]> ∅)))).

(** Scenario A: one sample of 100 bpm, maxHeartRate 200, 60 s, 'Other'. *)
Definition scenarioA : WorkoutQuality :=
  calculateWorkoutQuality [sample 100] (Fin 200) (Fin 60) Other.

(** Scenario B: ten samples alternating 60 and 190 bpm, maxHeartRate 200,
    'HIIT'; the duration does not enter the HIIT formula. *)
Definition alternating (first second : Z) : list HeartRateData :=
  [sample first; sample second; sample first; sample second; sample first;
   sample second; sample first; sample second; sample first; sample second].

Definition scenarioB (first second : Z) (duration : num) : WorkoutQuality :=
  calculateWorkoutQuality (alternating first second) (Fin 200) duration HIIT.

(** *** Reference definitions for the classifier *)

Local Open Scope Q_scope.

(** Rounded band edge [Math.round(maxHeartRate * factor)]. *)
Definition edge (M factor : Q) : Q := inject_Z (round_half_up (M * factor)).

(** Position of [hr] inside a band, on the band's 20-point scale. *)
Definition bandScale (base : Z) (lo hi hr : Q) : Z :=
  round_half_up (inject_Z base + (hr - lo) / (hi - lo) * 20).

Local Close Scope Q_scope.

(** The claim on one shared boundary [hr]: the classifier names the lower
    zone and the aggregator's occupancy count goes to the lower zone's key. *)
Definition inLowerZone (M : Q) (hr : num) (name key : string) : Prop :=
  zone (getEffortLevel hr (Fin M)) = name
  /\ forall (tz : gmap string num) (ts : num),
       countZone (calculateHeartRateZones (Fin M)) tz
         {| heartRate := Some hr; timestamp := ts |}
       = increment key tz.

(** *** Reference definitions for the aggregator *)

(** The zone key under which the aggregator counts a sample, if any. *)
Definition bucketOf (zones : Zones) (data : HeartRateData) : option string :=
  if_truthy (heartRate data) (fun hr => Some (currentZoneOf zones hr)) None.

(** Number of samples counted under [key]. *)
Definition samplesIn (zones : Zones) (key : string) (data : list HeartRateData)
  : nat :=
  length (List.filter (fun d => bool_decide (bucketOf zones d = Some key)) data).

(** [Math.round((count / total) * 100)]. *)
Definition percentage (count total : nat) : num :=
  Math_round ((of_nat count / of_nat total) * Fin 100).

Definition zoneKeys : list string :=
  ["recovery"; "fatBurn"; "aerobic"; "anaerobic"; "max"].

(** Heart rates of the samples the loops do not skip: neither [null] nor
    falsy ([0], [NaN]). *)
Definition countedHRs (data : list HeartRateData) : list num :=
  omap (fun d => if_truthy (heartRate d) Some None) data.

(** Number of adjacent pairs of a zone sequence that differ. *)
Fixpoint zoneChanges (zs : list string) : nat :=
  match zs with
  | [] => 0
  | z1 :: rest =>
      match rest with
      | [] => 0
      | z2 :: _ => (if String.eqb z1 z2 then 0 else 1) + zoneChanges rest
      end
  end.

(** A sample reading exactly 0 turned into a missing reading. *)
Definition zeroAsNull (d : HeartRateData) : HeartRateData :=
  match heartRate d with
  | Some (Fin q) =>
      if Qzero_b q then {| heartRate := None; timestamp := timestamp d |} else d
  | _ => d
  end.

(** The count the claim speaks of: the readings of a list that the zone
    table puts under [key]. *)
Definition classifiedIn (zones : Zones) (key : string) (hrs : list num) : nat :=
  length (List.filter (fun hr => bool_decide (currentZoneOf zones hr = key)) hrs).

(** A sample with a finite, positive reading. *)
Definition positiveReading (d : HeartRateData) : Prop :=
  exists q : Q, heartRate d = Some (Fin q) /\ (0 < q)%Q.

(** Scenario C: nine readings of 150 bpm and one missing reading at
    position [k], maxHeartRate 200. *)
Definition scenarioC (k : nat) (duration : num) (workoutType : WorkoutType)
  : WorkoutQuality :=
  calculateWorkoutQuality
    (replicate k (sample 150) ++ nullSample :: replicate (9 - k) (sample 150))
    (Fin 200) duration workoutType.

(** ** More of the JavaScript library *)

Module JsMath.

(** [Math.floor]. *)
Definition Math_floor (a : num) : num :=
  match a with
  | Fin q => of_Z (Qfloor q)
  | _ => a
  end.

(** [Math.min(...xs)]: [+Infinity] for no argument. *)
Definition Math_min_spread (xs : list num) : num := foldr Math_min PInf xs.

(** [isNaN] on a number. *)
Definition isNaN (a : num) : bool :=
  match a with
  | NaN => true
  | _ => false
  end.

(** ToBoolean on a string: only the empty string is falsy. *)
Definition truthy_string (s : string) : bool := negb (String.eqb s "").

End JsMath.

(** ** The class HeartRateMonitor of HeartRateService.ts, lines 8-101

    [C] is the type of the update callbacks.  A method that may call the
    registered callback returns the call it makes, if any: the callback and
    its argument.  [Date.now()] is the argument [now]. *)

Module HeartRateMonitor.
Import JsMath.

Section Monitor.
Context {C : Type}.

Record t : Type := {
  intervalId : option nat;        (* NodeJS.Timeout | null *)
  onHeartRateUpdate : option C;   (* callback | null *)
  manualMode : bool
}.

(** Field initialisers of a new object. *)
Definition create : t :=
  {| intervalId := None; onHeartRateUpdate := None; manualMode := false |}.

(** Lines 13-25: both paths return [false]. *)
Definition isAvailable (self : t) : bool := false.

(** Lines 27-59: the result and the object after the call. *)
Definition startMonitoring (onUpdate : C) (self : t) : bool * t :=
  let available := isAvailable self in
  if negb available then
    (true, {| intervalId := intervalId self;
              onHeartRateUpdate := Some onUpdate;
              manualMode := true |})
  else (true, self).

(** Lines 62-69. *)
Definition addManualReading (heartRate now : num) (self : t)
  : option (C * HeartRateData) :=
  match onHeartRateUpdate self with
  | Some callback =>
      if manualMode self
      then Some (callback,
                 {| HeartRateService.heartRate := Some (Math_round heartRate);
                    timestamp := now |})
      else None
  | None => None
  end.

(** Lines 89-96. *)
Definition stopMonitoring (self : t) : t :=
  {| intervalId := match intervalId self with
                   | Some _ => None
                   | None => intervalId self
                   end;
     onHeartRateUpdate := None;
     manualMode := false |}.

(** Lines 98-100. *)
Definition isManualMode (self : t) : bool := manualMode self.

(** A call of one of the three state-changing methods. *)
Inductive Call : Type :=
| StartMonitoring (onUpdate : C)
| AddManualReading (heartRate now : num)
| StopMonitoring.

(** The object and the callback calls made so far, after one more call.
    Calls come one after the other: the promise of [startMonitoring] is
    awaited before the next call is made. *)
Definition perform (st : t * list (C * HeartRateData)) (call : Call)
  : t * list (C * HeartRateData) :=
  match call with
  | StartMonitoring onUpdate => (snd (startMonitoring onUpdate (fst st)), snd st)
  | AddManualReading heartRate now =>
      (fst st,
       match addManualReading heartRate now (fst st) with
       | Some called => snd st ++ [called]
       | None => snd st
       end)
  | StopMonitoring => (stopMonitoring (fst st), snd st)
  end.

Definition run (calls : list Call) : t * list (C * HeartRateData) :=
  foldl perform (create, []) calls.

(** The deliveries one expects: a reading reaches the callback of the
    latest start, rounded, when no stop came after that start. *)
Fixpoint deliveries (current : option C) (calls : list Call)
  : list (C * HeartRateData) :=
  match calls with
  | [] => []
  | StartMonitoring onUpdate :: rest => deliveries (Some onUpdate) rest
  | StopMonitoring :: rest => deliveries None rest
  | AddManualReading heartRate now :: rest =>
      match current with
      | Some callback =>
          (callback, {| HeartRateService.heartRate := Some (Math_round heartRate);
                        timestamp := now |})
          :: deliveries current rest
      | None => deliveries None rest
      end
  end.

End Monitor.
Arguments t C : clear implicits.
Arguments Call C : clear implicits.

End HeartRateMonitor.

(** ** StartWorkoutScreen.tsx: the start button's handler *)

Module StartWorkoutScreen.
Import JsMath.

Definition MAX_HEART_RATE_KEY : string := "@hundred_max_heart_rate".
Definition AGE_KEY : string := "@hundred_age".

(** Lines 64-67. *)
Definition calculateMaxHeartRate (ageValue : num) : num :=
  Math_round (Fin 220 - ageValue).

(** Parameters of the route to the workout screen. *)
Record RouteParams : Type := {
  age : option num;        (* number | undefined *)
  maxHeartRate : num;
  workoutType : WorkoutType
}.

(** What a press of the button ends in: an alert, or the settings written
    and the navigation to 'ActiveWorkout'. *)
Inductive Outcome : Type :=
| Alert (title message : string)
| Navigate (settings : list (string * string)) (params : RouteParams).

Section Handler.

(** The global [parseInt] on the text of a field: an integer or [NaN]. *)
Variable parseInt : string -> num.

(** Whether [AsyncStorage.setItem] on a key fails. *)
Variable setItemFails : string -> bool.

(** Lines 110-116: the [setItem] calls made; a failure ends the [try]
    block and is caught. *)
Definition saveSettings (age maxHeartRate : string) : list (string * string) :=
  let second :=
    if truthy_string maxHeartRate
    then [(MAX_HEART_RATE_KEY, maxHeartRate)] else [] in
  if truthy_string age then
    (AGE_KEY, age) :: (if setItemFails AGE_KEY then [] else second)
  else second.

(** Lines 85-122, on the state [age], [maxHeartRate] (the texts of the two
    fields) and [workoutType]. *)
Definition handleStartWorkout (age maxHeartRate : string)
    (workoutType : WorkoutType) : Outcome :=
  if truthy_string maxHeartRate then
    let hr := parseInt maxHeartRate in
    if isNaN hr || (hr <? Fin 100) || (hr >? Fin 220) then
      Alert "Invalid Input" "Max heart rate must be between 100 and 220 bpm"
    else
      Navigate (saveSettings age maxHeartRate)
        {| StartWorkoutScreen.age := None;
           StartWorkoutScreen.maxHeartRate := hr;
           StartWorkoutScreen.workoutType := workoutType |}
  else if truthy_string age then
    let ageValue := parseInt age in
    if isNaN ageValue || (ageValue <? Fin 10) || (ageValue >? Fin 120) then
      Alert "Invalid Input" "Age must be between 10 and 120"
    else
      Navigate (saveSettings age maxHeartRate)
        {| StartWorkoutScreen.age := Some ageValue;
           StartWorkoutScreen.maxHeartRate := calculateMaxHeartRate ageValue;
           StartWorkoutScreen.workoutType := workoutType |}
  else
    Alert "Missing Information" "Please enter either your age or max heart rate".

End Handler.

End StartWorkoutScreen.

(** ** WorkoutStorage.ts (in App.tsx): the stored record *)

Module WorkoutStorage.

(** The interface [Workout], App.tsx lines 106-134; an optional property
    is an [option]. *)
Record Workout : Type := {
  id : string;
  workoutType : WorkoutType;
  startTime : num;
  endTime : option num;
  duration : option num;
  heartRateData : list HeartRateData;
  averageHeartRate : option num;
  maxHeartRate : option num;
  minHeartRate : option num;
  effortLevel : option WorkoutQuality;
  notes : option string
}.

End WorkoutStorage.

(** ** ActiveWorkoutScreen.tsx: the end of a workout *)

Module ActiveWorkoutScreen.
Import JsMath.

(** Lines 106-135 of [handleEndWorkout]: the workout object built from the
    screen's state ([workoutId], [startTime], [heartRateHistory]), the route
    parameters ([maxHeartRate], [workoutType]) and [Date.now()], which is
    [endTime]; the object is then handed to [WorkoutStorage.saveWorkout].
    [heartRates] maps the filtered samples to their reading, none of which
    is [null]. *)
Definition handleEndWorkout (workoutId : string) (workoutType : WorkoutType)
    (maxHeartRate startTime : num) (heartRateHistory : list HeartRateData)
    (endTime : num) : WorkoutStorage.Workout :=
  let finalDuration := Math_floor ((endTime - startTime) / Fin 1000) in
  let validHRData :=
    List.filter (fun d => match heartRate d with
                          | Some _ => true
                          | None => false
                          end) heartRateHistory in
  let heartRates := omap heartRate validHRData in
  let averageHR :=
    if (0 <? length heartRates)%nat
    then Some (Math_round (foldl (fun sum hr => sum + hr) (Fin 0) heartRates
                           / of_nat (length heartRates)))
    else None in
  let maxHR :=
    if (0 <? length heartRates)%nat
    then Some (Math_max_spread heartRates) else None in
  let minHR :=
    if (0 <? length heartRates)%nat
    then Some (Math_min_spread heartRates) else None in
  let effortLevel :=
    if (0 <? length validHRData)%nat
    then Some (calculateWorkoutQuality validHRData maxHeartRate
                 finalDuration workoutType)
    else None in
  {| WorkoutStorage.id := workoutId;
     WorkoutStorage.workoutType := workoutType;
     WorkoutStorage.startTime := startTime;
     WorkoutStorage.endTime := Some endTime;
     WorkoutStorage.duration := Some finalDuration;
     WorkoutStorage.heartRateData := heartRateHistory;
     WorkoutStorage.averageHeartRate := averageHR;
     WorkoutStorage.maxHeartRate := maxHR;
     WorkoutStorage.minHeartRate := minHR;
     WorkoutStorage.effortLevel := effortLevel;
     WorkoutStorage.notes := None |}.

End ActiveWorkoutScreen.

(** ** ActiveWorkoutScreen.tsx: the component's state and its handlers

    The component's [useState] cells and [monitorRef] form the state; a
    handler is a function on it.  The monitor's callback is the one closure
    of [startWorkout], so the monitor is instantiated at [unit]. *)

Module ActiveWorkoutState.
Import JsMath.

(** Lines 18-27. *)
Record State : Type := {
  heartRate : option num;
  heartRateHistory : list HeartRateData;
  isMonitoring : bool;
  isManualMode : bool;
  showManualEntry : bool;
  manualHRInput : string;
  startTime : num;
  duration : num;
  workoutId : string;
  monitorRef : option (HeartRateMonitor.t unit);
  alerts : list string
}.

(** The state setters; [alert] records [Alert.alert]. *)
Definition setHeartRate (v : option num) (s : State) : State :=
  {| heartRate := v;
     heartRateHistory := heartRateHistory s;
     isMonitoring := isMonitoring s;
     isManualMode := isManualMode s;
     showManualEntry := showManualEntry s;
     manualHRInput := manualHRInput s;
     startTime := startTime s;
     duration := duration s;
     workoutId := workoutId s;
     monitorRef := monitorRef s;
     alerts := alerts s |}.

Definition setHeartRateHistory (v : list HeartRateData) (s : State) : State :=
  {| heartRate := heartRate s;
     heartRateHistory := v;
     isMonitoring := isMonitoring s;
     isManualMode := isManualMode s;
     showManualEntry := showManualEntry s;
     manualHRInput := manualHRInput s;
     startTime := startTime s;
     duration := duration s;
     workoutId := workoutId s;
     monitorRef := monitorRef s;
     alerts := alerts s |}.

Definition setIsMonitoring (v : bool) (s : State) : State :=
  {| heartRate := heartRate s;
     heartRateHistory := heartRateHistory s;
     isMonitoring := v;
     isManualMode := isManualMode s;
     showManualEntry := showManualEntry s;
     manualHRInput := manualHRInput s;
     startTime := startTime s;
     duration := duration s;
     workoutId := workoutId s;
     monitorRef := monitorRef s;
     alerts := alerts s |}.

Definition setIsManualMode (v : bool) (s : State) : State :=
  {| heartRate := heartRate s;
     heartRateHistory := heartRateHistory s;
     isMonitoring := isMonitoring s;
     isManualMode := v;
     showManualEntry := showManualEntry s;
     manualHRInput := manualHRInput s;
     startTime := startTime s;
     duration := duration s;
     workoutId := workoutId s;
     monitorRef := monitorRef s;
     alerts := alerts s |}.

Definition setShowManualEntry (v : bool) (s : State) : State :=
  {| heartRate := heartRate s;
     heartRateHistory := heartRateHistory s;
     isMonitoring := isMonitoring s;
     isManualMode := isManualMode s;
     showManualEntry := v;
     manualHRInput := manualHRInput s;
     startTime := startTime s;
     duration := duration s;
     workoutId := workoutId s;
     monitorRef := monitorRef s;
     alerts := alerts s |}.

Definition setManualHRInput (v : string) (s : State) : State :=
  {| heartRate := heartRate s;
     heartRateHistory := heartRateHistory s;
     isMonitoring := isMonitoring s;
     isManualMode := isManualMode s;
     showManualEntry := showManualEntry s;
     manualHRInput := v;
     startTime := startTime s;
     duration := duration s;
     workoutId := workoutId s;
     monitorRef := monitorRef s;
     alerts := alerts s |}.

Definition setStartTime (v : num) (s : State) : State :=
  {| heartRate := heartRate s;
     heartRateHistory := heartRateHistory s;
     isMonitoring := isMonitoring s;
     isManualMode := isManualMode s;
     showManualEntry := showManualEntry s;
     manualHRInput := manualHRInput s;
     startTime := v;
     duration := duration s;
     workoutId := workoutId s;
     monitorRef := monitorRef s;
     alerts := alerts s |}.

Definition setDuration (v : num) (s : State) : State :=
  {| heartRate := heartRate s;
     heartRateHistory := heartRateHistory s;
     isMonitoring := isMonitoring s;
     isManualMode := isManualMode s;
     showManualEntry := showManualEntry s;
     manualHRInput := manualHRInput s;
     startTime := startTime s;
     duration := v;
     workoutId := workoutId s;
     monitorRef := monitorRef s;
     alerts := alerts s |}.

Definition setWorkoutId (v : string) (s : State) : State :=
  {| heartRate := heartRate s;
     heartRateHistory := heartRateHistory s;
     isMonitoring := isMonitoring s;
     isManualMode := isManualMode s;
     showManualEntry := showManualEntry s;
     manualHRInput := manualHRInput s;
     startTime := startTime s;
     duration := duration s;
     workoutId := v;
     monitorRef := monitorRef s;
     alerts := alerts s |}.

Definition setMonitorRef (v : option (HeartRateMonitor.t unit)) (s : State) : State :=
  {| heartRate := heartRate s;
     heartRateHistory := heartRateHistory s;
     isMonitoring := isMonitoring s;
     isManualMode := isManualMode s;
     showManualEntry := showManualEntry s;
     manualHRInput := manualHRInput s;
     startTime := startTime s;
     duration := duration s;
     workoutId := workoutId s;
     monitorRef := v;
     alerts := alerts s |}.

Definition alert (title : string) (s : State) : State :=
  {| heartRate := heartRate s;
     heartRateHistory := heartRateHistory s;
     isMonitoring := isMonitoring s;
     isManualMode := isManualMode s;
     showManualEntry := showManualEntry s;
     manualHRInput := manualHRInput s;
     startTime := startTime s;
     duration := duration s;
     workoutId := workoutId s;
     monitorRef := monitorRef s;
     alerts := alerts s ++ [title] |}.

(** The values of the first render; [now] is [Date.now()] of line 24. *)
Definition initial (now : num) : State :=
  {| heartRate := None;
     heartRateHistory := [];
     isMonitoring := false;
     isManualMode := false;
     showManualEntry := false;
     manualHRInput := "";
     startTime := now;
     duration := Fin 0;
     workoutId := "";
     monitorRef := None;
     alerts := [] |}.

(** The callback handed to the monitor, lines 72-75. *)
Definition onUpdate (data : HeartRateData) (s : State) : State :=
  let s := setHeartRate (HeartRateService.heartRate data) s in
  setHeartRateHistory (heartRateHistory s ++ [data]) s.

Section Handlers.

(** The global [parseInt], and the conversion of a number to a string in a
    template literal. *)
Variable parseInt : string -> num.
Variable toString : num -> string.

(** Lines 53-90; [now1] and [now2] are the two readings of [Date.now()]. *)
Definition startWorkout (now1 now2 : num) (s : State) : State :=
  let id := String.append "workout_" (toString now1) in
  let s := setWorkoutId id s in
  let s := setStartTime now2 s in
  let monitor := HeartRateMonitor.create in
  let s := setMonitorRef (Some monitor) s in
  let available := HeartRateMonitor.isAvailable monitor in
  if negb available then
    let s := alert "Heart Rate Sensor Not Available" s in
    setIsMonitoring false s
  else
    let started := fst (HeartRateMonitor.startMonitoring tt monitor) in
    let monitor := snd (HeartRateMonitor.startMonitoring tt monitor) in
    let s := setMonitorRef (Some monitor) s in
    if started then
      let s := setIsMonitoring true s in
      if HeartRateMonitor.isManualMode monitor
      then setIsManualMode true s
      else s
    else
      let s := alert "Monitoring Failed" s in
      setIsManualMode true s.

(** Lines 92-98. *)
Definition stopMonitoring (s : State) : State :=
  let s :=
    match monitorRef s with
    | Some monitor => setMonitorRef None s
    | None => s
    end in
  setIsMonitoring false s.

(** The interval's callback, lines 42-44. *)
Definition tick (now : num) (s : State) : State :=
  setDuration (Math_floor ((now - startTime s) / Fin 1000)) s.

(** The Save button of the manual-entry modal, lines 290-306; [now1] is
    [Date.now()] inside [addManualReading], [now2] the one of line 299. *)
Definition saveManualEntry (now1 now2 : num) (s : State) : State :=
  let hr := parseInt (manualHRInput s) in
  if negb (isNaN hr) && (hr >? Fin 40) && (hr <? Fin 250) then
    let s :=
      match monitorRef s with
      | Some monitor =>
          match HeartRateMonitor.addManualReading hr now1 monitor with
          | Some called => onUpdate (snd called) s
          | None => s
          end
      | None => s
      end in
    let s := setHeartRate (Some hr) s in
    let s := setHeartRateHistory
               (heartRateHistory s
                ++ [{| HeartRateService.heartRate := Some hr;
                       timestamp := now2 |}]) s in
    let s := setShowManualEntry false s in
    setManualHRInput "" s
  else alert "Invalid Input" s.

(** What can happen to the mounted screen before the workout is ended. *)
Inductive Event : Type :=
| Tick (now : num)
| PressAddReading                 (* lines 245-252 *)
| RequestClose                    (* line 260 *)
| ChangeText (text : string)      (* line 271 *)
| PressCancel                     (* lines 281-284 *)
| PressSave (now1 now2 : num).    (* lines 290-306 *)

(** Whether the rendered tree offers the event: the button 'Add Heart Rate
    Reading' is rendered while [isManualMode], the modal is visible while
    [showManualEntry]. *)
Definition offered (s : State) (e : Event) : bool :=
  match e with
  | Tick _ => true
  | PressAddReading => isManualMode s
  | RequestClose | ChangeText _ | PressCancel | PressSave _ _ =>
      showManualEntry s
  end.

Definition handle (e : Event) (s : State) : State :=
  match e with
  | Tick now => tick now s
  | PressAddReading => setShowManualEntry true s
  | RequestClose => setShowManualEntry false s
  | ChangeText text => setManualHRInput text s
  | PressCancel => setManualHRInput "" (setShowManualEntry false s)
  | PressSave now1 now2 => saveManualEntry now1 now2 s
  end.

Definition react (s : State) (e : Event) : State :=
  if offered s e then handle e s else s.

(** The screen after its mount effect and a sequence of events. *)
Definition mounted (now0 now1 now2 : num) (events : list Event) : State :=
  foldl react (startWorkout now1 now2 (initial now0)) events.

(** The press of 'End Workout': the workout object of [handleEndWorkout],
    built from the state of the render that shows the button. *)
Definition endWorkout (maxHeartRate : num) (workoutType : WorkoutType)
    (now : num) (s : State) : WorkoutStorage.Workout :=
  ActiveWorkoutScreen.handleEndWorkout (workoutId s) workoutType maxHeartRate
    (startTime s) (heartRateHistory s) now.

End Handlers.

End ActiveWorkoutState.

(** *** Reference definitions for the further properties *)

(** A sample with its timestamp erased. *)
Definition withoutTime (d : HeartRateData) : HeartRateData :=
  {| heartRate := heartRate d; timestamp := Fin 0 |}.

(** A reading the engine is meant for: missing, or a finite heart rate
    between 0 and maxHeartRate. *)
Definition validReading (M : Q) (d : HeartRateData) : Prop :=
  heartRate d = None
  \/ exists q : Q, heartRate d = Some (Fin q) /\ (0 <= q)%Q /\ (q <= M)%Q.

(** Sum of a list of integers. *)
Definition sumZ (zs : list Z) : Z := foldr Z.add 0%Z zs.

(** The test of the sustained-aerobic loop, line 248. *)
Definition inAerobicWindow (maxHeartRate : num) (d : HeartRateData) : bool :=
  if_truthy (heartRate d)
    (fun hr => (hr >=? Math_round (maxHeartRate * Fin 0.6))
               && (hr <=? Math_round (maxHeartRate * Fin 0.7)))
    false.

(** [run] is the length of a longest block of consecutive elements of [l]
    that all satisfy [p]. *)
Definition longestRun {A : Type} (p : A -> bool) (l : list A) (run : nat) : Prop :=
  (exists l1 block l2 : list A,
      l = l1 ++ block ++ l2 /\ length block = run
      /\ Forall (fun a => p a = true) block)
  /\ (forall l1 block l2 : list A,
        l = l1 ++ block ++ l2 -> Forall (fun a => p a = true) block ->
        (length block <= run)%nat).

(** The loop on natural-number counters. *)
Definition runStep {A : Type} (p : A -> bool) (st : nat * nat) (a : A)
  : nat * nat :=
  if p a then (Nat.max (fst st) (S (snd st)), S (snd st)) else (fst st, 0%nat).

(** Invariant of the loop after the prefix [pre]: [cur] is the length of
    the longest suffix satisfying [p], [mx] that of the longest block. *)
Definition runInvariant {A : Type} (p : A -> bool) (pre : list A)
    (st : nat * nat) : Prop :=
  longestRun p pre (fst st)
  /\ (exists l1 b, pre = l1 ++ b /\ length b = snd st
                   /\ Forall (fun a => p a = true) b)
  /\ (forall l1 b, pre = l1 ++ b -> Forall (fun a => p a = true) b ->
                   (length b <= snd st)%nat)
  /\ (snd st <= fst st)%nat.

(** Sum, and population variance, of a list of rationals. *)
Definition Qsum (qs : list Q) : Q := foldr Qplus 0%Q qs.

Definition popVariance (qs : list Q) : Q :=
  let n := inject_Z (Z.of_nat (length qs)) in
  let mean := (Qsum qs / n)%Q in
  (Qsum ((fun x => (x - mean) * (x - mean))%Q <$> qs) / n)%Q.

(** A finite number between two bounds. *)
Definition finiteIn (lo hi : Q) (x : num) : Prop :=
  exists q : Q, x = Fin q /\ (lo <= q)%Q /\ (q <= hi)%Q.

(** A number as [Math.round] returns it: an integer, an infinity or NaN. *)
Inductive integral : num -> Prop :=
| integral_Z (z : Z) : integral (of_Z z)
| integral_PInf : integral PInf
| integral_NInf : integral NInf
| integral_NaN : integral NaN.

(** The five rows of the classifier: zone, description and the zone's
    20-point stretch of the intensity scale. *)
Definition effortRows : list (string * string * Z * Z) :=
  [("Recovery", "Very Light", 0, 20); ("Fat Burn", "Light", 20, 40);
   ("Aerobic", "Moderate", 40, 60); ("Anaerobic", "Hard", 60, 80);
   ("Max", "Maximum", 80, 100)]%Z.

(** The two fields of a monitor move together: [manualMode] is set exactly
    while a callback is registered, and [intervalId] stays [null]. *)
Definition monitorHolds {C : Type} (current : option C)
    (m : HeartRateMonitor.t C) : Prop :=
  HeartRateMonitor.onHeartRateUpdate m = current
  /\ HeartRateMonitor.manualMode m = bool_decide (is_Some current)
  /\ HeartRateMonitor.intervalId m = None.

(** The five bands of a zone table, in order. *)
Definition bandsOf (zones : Zones) : list Band.t :=
  [recovery zones; fatBurn zones; aerobic zones; anaerobic zones;
   HeartRateService.max zones].

(** The samples of a history that carry a reading. *)
Definition withReading (history : list HeartRateData) : list HeartRateData :=
  List.filter (fun d => match heartRate d with
                        | Some _ => true
                        | None => false
                        end) history.

(** A screen that has recorded nothing and offers no manual entry. *)
Definition quiet (s : ActiveWorkoutState.State) : Prop :=
  ActiveWorkoutState.heartRateHistory s = []
  /\ ActiveWorkoutState.heartRate s = None
  /\ ActiveWorkoutState.isManualMode s = false
  /\ ActiveWorkoutState.showManualEntry s = false
  /\ ActiveWorkoutState.alerts s = ["Heart Rate Sensor Not Available"].

(** ** Facts about numbers *)

Section NumberFacts.
Local Open Scope Q_scope.

Lemma Qfloor_unique (x : Q) (k : Z) :
  inject_Z k <= x -> x < inject_Z (k + 1) -> Qfloor x = k.
Proof.
  intros Hlo Hhi.
  pose proof (Qfloor_le x) as Hfl.
  pose proof (Qlt_floor x) as Hfu.
  assert (H1 : (k < Qfloor x + 1)%Z).
  { rewrite Zlt_Qlt. eapply Qle_lt_trans; eassumption. }
  assert (H2 : (Qfloor x < k + 1)%Z).
  { rewrite Zlt_Qlt. eapply Qle_lt_trans; eassumption. }
  lia.
Qed.

Lemma round_half_up_mono (x y : Q) :
  x <= y -> (round_half_up x <= round_half_up y)%Z.
Proof.
  intros H. unfold round_half_up. apply Qfloor_resp_le. lra.
Qed.

Lemma round_half_up_Z (z : Z) : round_half_up (inject_Z z) = z.
Proof.
  unfold round_half_up. apply Qfloor_unique.
  - lra.
  - rewrite inject_Z_plus. change (inject_Z 1) with 1. lra.
Qed.

Lemma round_half_up_between (x : Q) (lo hi : Z) :
  inject_Z lo <= x -> x <= inject_Z hi ->
  (lo <= round_half_up x <= hi)%Z.
Proof.
  intros Hlo Hhi. split.
  - rewrite <- (round_half_up_Z lo). now apply round_half_up_mono.
  - rewrite <- (round_half_up_Z hi). now apply round_half_up_mono.
Qed.

Lemma round_half_up_add_Z (x : Q) (z : Z) :
  round_half_up (x + inject_Z z) = (round_half_up x + z)%Z.
Proof.
  unfold round_half_up.
  pose proof (Qfloor_le (x + 0.5)) as Hfl.
  pose proof (Qlt_floor (x + 0.5)) as Hfu.
  rewrite inject_Z_plus in Hfu. change (inject_Z 1) with 1 in Hfu.
  apply Qfloor_unique.
  - rewrite inject_Z_plus. lra.
  - rewrite !inject_Z_plus. change (inject_Z 1) with 1. lra.
Qed.

Lemma add_of_Z (a b : Z) : (of_Z a + of_Z b)%num = of_Z (a + b).
Proof.
  unfold of_Z, add, inject_Z, Qplus. cbn [Qnum Qden].
  f_equal. f_equal. lia.
Qed.

Lemma leb_Fin_true (x y : Q) : (Fin x <=? Fin y)%num = true <-> x <= y.
Proof. cbn [leb]. apply Qle_bool_iff. Qed.

Lemma leb_Fin_false (x y : Q) : (Fin x <=? Fin y)%num = false <-> y < x.
Proof.
  cbn [leb]. rewrite <- not_true_iff_false, Qle_bool_iff. split.
  - apply Qnot_le_lt.
  - apply Qlt_not_le.
Qed.

Lemma Qzero_b_false (q : Q) : ~ q == 0 -> Qzero_b q = false.
Proof.
  intros H. unfold Qzero_b. apply not_true_iff_false.
  rewrite Qeq_bool_iff. exact H.
Qed.

Lemma Qzero_b_true (q : Q) : q == 0 -> Qzero_b q = true.
Proof. intros H. unfold Qzero_b. now apply Qeq_bool_iff. Qed.

Lemma div_Fin (x y : Q) : ~ y == 0 -> (Fin x / Fin y)%num = Fin (x / y).
Proof. intros H. cbn [div]. now rewrite Qzero_b_false. Qed.

(** [Math_round_sqrt] is the rounding of the square root: its value [k]
    satisfies [k - 1/2 <= sqrt q < k + 1/2], stated on the squares. *)
Lemma Math_round_sqrt_spec (q : Q) :
  0 <= q ->
  exists k : Z,
    Math_round_sqrt (Fin q) = of_Z k
    /\ (0 <= k)%Z
    /\ (k = 0%Z \/ inject_Z ((2 * k - 1) * (2 * k - 1)) <= 4 * q)
    /\ 4 * q < inject_Z ((2 * k + 1) * (2 * k + 1)).
Proof.
  intros Hq. cbn [Math_round_sqrt].
  assert (Hb : Qle_bool 0 q = true) by now apply Qle_bool_iff.
  rewrite Hb.
  set (n := Qfloor (4 * q)).
  assert (Hn0 : (0 <= n)%Z).
  { subst n. rewrite <- (Qfloor_Z 0). apply Qfloor_resp_le.
    change (inject_Z 0) with 0. lra. }
  pose proof (Qfloor_le (4 * q)) as Hfl. fold n in Hfl.
  pose proof (Qlt_floor (4 * q)) as Hfu. fold n in Hfu.
  pose proof (Z.sqrt_spec n Hn0) as Hs. cbv zeta in Hs.
  pose proof (Z.sqrt_nonneg n) as Hs0.
  set (s := Z.sqrt n) in *.
  exists ((s + 1) / 2)%Z.
  pose proof (Z.div_mod (s + 1) 2 ltac:(lia)) as Hdm.
  pose proof (Z.mod_pos_bound (s + 1) 2 ltac:(lia)) as Hmod.
  set (k := ((s + 1) / 2)%Z) in *.
  split; [reflexivity |].
  split; [lia |].
  split.
  - destruct (Z.eq_dec k 0%Z) as [Hk | Hk]; [now left | right].
    eapply Qle_trans; [| exact Hfl]. rewrite <- Zle_Qle. nia.
  - eapply Qlt_le_trans; [exact Hfu |]. rewrite <- Zle_Qle. nia.
Qed.

End NumberFacts.

(** ** Facts about the classifier *)

Section ClassifierFacts.
Local Open Scope Q_scope.

Lemma ratio_bounds (a d : Q) : 0 <= a -> a <= d -> 0 < d -> 0 <= a / d <= 1.
Proof.
  intros Ha Had Hd. split.
  - apply Qle_shift_div_l; [exact Hd | lra].
  - apply Qle_shift_div_r; [exact Hd | lra].
Qed.

Lemma ratio_mono (a1 a2 d : Q) : a1 <= a2 -> 0 < d -> a1 / d <= a2 / d.
Proof.
  intros Ha Hd. unfold Qdiv. apply Qmult_le_compat_r; [exact Ha |].
  apply Qinv_le_0_compat. lra.
Qed.

Lemma band_intensity (base : Z) (lo hi hr : Q) :
  lo < hi ->
  Math_round (of_Z base + ((Fin hr - Fin lo) / (Fin hi - Fin lo)) * Fin 20)%num
  = of_Z (bandScale base lo hi hr).
Proof.
  intros Hlt.
  change (Fin hr - Fin lo)%num with (Fin (hr - lo)).
  change (Fin hi - Fin lo)%num with (Fin (hi - lo)).
  rewrite div_Fin by lra. reflexivity.
Qed.

Lemma bandScale_range (base : Z) (lo hi hr : Q) :
  lo <= hr -> hr <= hi -> lo < hi ->
  (base <= bandScale base lo hi hr <= base + 20)%Z.
Proof.
  intros H1 H2 H3. unfold bandScale.
  destruct (ratio_bounds (hr - lo) (hi - lo)) as [Ht0 Ht1]; try lra.
  apply round_half_up_between.
  - lra.
  - rewrite inject_Z_plus. change (inject_Z 20) with 20. lra.
Qed.

Lemma bandScale_mono (base : Z) (lo hi hr1 hr2 : Q) :
  hr1 <= hr2 -> lo < hi ->
  (bandScale base lo hi hr1 <= bandScale base lo hi hr2)%Z.
Proof.
  intros H1 H2. unfold bandScale. apply round_half_up_mono.
  assert ((hr1 - lo) / (hi - lo) <= (hr2 - lo) / (hi - lo))
    by (apply ratio_mono; lra).
  lra.
Qed.

(** The recovery band divides by its upper edge alone. *)
Lemma recovery_intensity (hi hr : Q) :
  0 < hi ->
  Math_round ((Fin hr / Fin hi) * Fin 20)%num = of_Z (round_half_up (hr / hi * 20)).
Proof. intros H. rewrite div_Fin by lra. reflexivity. Qed.

Lemma recovery_range (hi hr : Q) :
  0 <= hr -> hr <= hi -> 0 < hi -> (0 <= round_half_up (hr / hi * 20) <= 20)%Z.
Proof.
  intros H1 H2 H3.
  destruct (ratio_bounds hr hi) as [Ht0 Ht1]; try lra.
  apply round_half_up_between.
  - change (inject_Z 0) with 0. lra.
  - change (inject_Z 20) with 20. lra.
Qed.

Lemma recovery_mono (hi hr1 hr2 : Q) :
  hr1 <= hr2 -> 0 < hi ->
  (round_half_up (hr1 / hi * 20) <= round_half_up (hr2 / hi * 20))%Z.
Proof.
  intros H1 H2. apply round_half_up_mono.
  assert (hr1 / hi <= hr2 / hi) by (apply ratio_mono; lra).
  lra.
Qed.

(** The rounded band edge of a maxHeartRate of at least 1 is at least 1. *)
Lemma recovery_edge_positive (M : Q) : 1 <= M -> (1 <= round_half_up (M * 0.5))%Z.
Proof.
  intros H. unfold round_half_up.
  rewrite <- (Qfloor_Z 1). apply Qfloor_resp_le.
  change (inject_Z 1) with 1. lra.
Qed.

Lemma edge_half_positive (M : Q) : 1 <= M -> 0 < edge M 0.5.
Proof.
  intros H. unfold edge. pose proof (recovery_edge_positive M H) as Hp.
  rewrite Zle_Qle in Hp. change (inject_Z 1) with 1 in Hp. lra.
Qed.

(** The aggregator's first loop makes the same tests as [currentZoneOf]. *)
Lemma countZone_currentZoneOf (zones : Zones) (tz : gmap string num)
    (data : HeartRateData) :
  countZone zones tz data
  = if_truthy (heartRate data)
      (fun hr => increment (currentZoneOf zones hr) tz) tz.
Proof.
  unfold countZone, currentZoneOf, if_truthy.
  destruct (heartRate data) as [hr |]; [| reflexivity].
  destruct (truthy hr); [| reflexivity].
  repeat match goal with
         | |- context [if ?b then _ else _] => destruct b
         end; reflexivity.
Qed.

Lemma truthy_Fin (q : Q) : ~ q == 0 -> truthy (Fin q) = true.
Proof. intros H. cbn [truthy]. now rewrite Qzero_b_false. Qed.

Lemma ltb_Fin_true (x y : Q) : (Fin x <? Fin y)%num = true <-> x < y.
Proof.
  cbn [ltb]. rewrite negb_true_iff. apply (leb_Fin_false y x).
Qed.

(** The if-chains of [getEffortLevel] and of the aggregator on finite
    arguments: the zone found, the tests that failed before it, and the
    intensity in closed form. *)
Lemma classification_finite (M hr : Q) :
  1 <= M ->
  let r := getEffortLevel (Fin hr) (Fin M) in
  let key := currentZoneOf (calculateHeartRateZones (Fin M)) (Fin hr) in
  (hr <= edge M 0.5
   /\ (zone r = "Recovery" /\ key = "recovery")
   /\ intensity r = of_Z (round_half_up (hr / edge M 0.5 * 20)))
  \/ (edge M 0.5 < hr /\ hr <= edge M 0.6
      /\ (zone r = "Fat Burn" /\ key = "fatBurn")
      /\ intensity r = of_Z (bandScale 20 (edge M 0.5) (edge M 0.6) hr))
  \/ (edge M 0.5 < hr /\ edge M 0.6 < hr /\ hr <= edge M 0.7
      /\ (zone r = "Aerobic" /\ key = "aerobic")
      /\ intensity r = of_Z (bandScale 40 (edge M 0.6) (edge M 0.7) hr))
  \/ (edge M 0.5 < hr /\ edge M 0.6 < hr /\ edge M 0.7 < hr /\ hr <= edge M 0.85
      /\ (zone r = "Anaerobic" /\ key = "anaerobic")
      /\ intensity r = of_Z (bandScale 60 (edge M 0.7) (edge M 0.85) hr))
  \/ (edge M 0.5 < hr /\ edge M 0.6 < hr /\ edge M 0.7 < hr /\ edge M 0.85 < hr
      /\ (zone r = "Max" /\ key = "max")
      /\ (hr <= M -> intensity r = of_Z (bandScale 80 (edge M 0.85) M hr))).
Proof.
  intros HM r key. subst r key.
  pose proof (edge_half_positive M HM) as Hpos.
  unfold getEffortLevel, currentZoneOf.
  cbn [calculateHeartRateZones recovery fatBurn aerobic anaerobic max
       Band.min Band.max mul Math_round].
  change (of_Z (round_half_up (M * 0.5))) with (Fin (edge M 0.5)).
  change (of_Z (round_half_up (M * 0.6))) with (Fin (edge M 0.6)).
  change (of_Z (round_half_up (M * 0.7))) with (Fin (edge M 0.7)).
  change (of_Z (round_half_up (M * 0.85))) with (Fin (edge M 0.85)).
  destruct (Fin hr <=? Fin (edge M 0.5))%num eqn:E1.
  { apply leb_Fin_true in E1. left. cbn [zone intensity].
    rewrite recovery_intensity by exact Hpos. auto. }
  apply leb_Fin_false in E1. right.
  destruct (Fin hr <=? Fin (edge M 0.6))%num eqn:E2.
  { apply leb_Fin_true in E2. left. cbn [zone intensity].
    rewrite (band_intensity 20) by lra. auto. }
  apply leb_Fin_false in E2. right.
  destruct (Fin hr <=? Fin (edge M 0.7))%num eqn:E3.
  { apply leb_Fin_true in E3. left. cbn [zone intensity].
    rewrite (band_intensity 40) by lra. auto 7. }
  apply leb_Fin_false in E3. right.
  destruct (Fin hr <=? Fin (edge M 0.85))%num eqn:E4.
  { apply leb_Fin_true in E4. left. cbn [zone intensity].
    rewrite (band_intensity 60) by lra. auto 8. }
  apply leb_Fin_false in E4. right. cbn [zone intensity].
  repeat (split; [assumption || reflexivity |]).
  split; [split; reflexivity |].
  intros HhrM. rewrite (band_intensity 80) by lra. reflexivity.
Qed.

Lemma edges_ordered (M : Q) :
  0 <= M -> edge M 0.5 <= edge M 0.6 /\ edge M 0.6 <= edge M 0.7
            /\ edge M 0.7 <= edge M 0.85.
Proof.
  intros HM. unfold edge. rewrite <- !Zle_Qle.
  repeat split; apply round_half_up_mono; lra.
Qed.

(** From maxHeartRate 10 on, consecutive rounded edges differ by at least
    one: no band is empty. *)
Lemma edges_strict (M : Q) :
  10 <= M -> edge M 0.5 < edge M 0.6 /\ edge M 0.6 < edge M 0.7
             /\ edge M 0.7 < edge M 0.85.
Proof.
  intros HM. unfold edge. rewrite <- !Zlt_Qlt.
  assert (Hstep : forall x y : Q, x + 1 <= y ->
                    (round_half_up x < round_half_up y)%Z).
  { intros x y Hxy.
    pose proof (round_half_up_add_Z x 1) as Hadd.
    pose proof (round_half_up_mono (x + inject_Z 1) y) as Hmono.
    change (inject_Z 1) with 1 in Hmono. specialize (Hmono Hxy).
    change (inject_Z 1) with 1 in Hadd. lia. }
  repeat split; apply Hstep; lra.
Qed.

Lemma inLowerZone_intro (M hr : Q) (name key : string) :
  0 < hr ->
  zone (getEffortLevel (Fin hr) (Fin M)) = name ->
  currentZoneOf (calculateHeartRateZones (Fin M)) (Fin hr) = key ->
  inLowerZone M (Fin hr) name key.
Proof.
  intros Hpos Hzone Hkey. split; [exact Hzone |].
  intros tz ts. rewrite countZone_currentZoneOf.
  cbn [heartRate if_truthy]. rewrite truthy_Fin by lra.
  now rewrite Hkey.
Qed.

(** Where [hr] lies in a band, its intensity lies on the band's scale. *)
Ltac band_ranges M hr Hpos :=
  try pose proof (recovery_range (edge M 0.5) hr
                    ltac:(lra) ltac:(lra) Hpos);
  try pose proof (bandScale_range 20 (edge M 0.5) (edge M 0.6) hr
                    ltac:(lra) ltac:(lra) ltac:(lra));
  try pose proof (bandScale_range 40 (edge M 0.6) (edge M 0.7) hr
                    ltac:(lra) ltac:(lra) ltac:(lra));
  try pose proof (bandScale_range 60 (edge M 0.7) (edge M 0.85) hr
                    ltac:(lra) ltac:(lra) ltac:(lra));
  try pose proof (bandScale_range 80 (edge M 0.85) M hr
                    ltac:(lra) ltac:(lra) ltac:(lra)).

(** Inside one band the intensity follows the order of the heart rates. *)
Ltac band_order M hr1 hr2 H12 Hpos :=
  try pose proof (recovery_mono (edge M 0.5) hr1 hr2 H12 Hpos);
  try pose proof (bandScale_mono 20 (edge M 0.5) (edge M 0.6) hr1 hr2 H12
                    ltac:(lra));
  try pose proof (bandScale_mono 40 (edge M 0.6) (edge M 0.7) hr1 hr2 H12
                    ltac:(lra));
  try pose proof (bandScale_mono 60 (edge M 0.7) (edge M 0.85) hr1 hr2 H12
                    ltac:(lra));
  try pose proof (bandScale_mono 80 (edge M 0.85) M hr1 hr2 H12
                    ltac:(lra)).

(** Range and monotonicity of the intensity for a rational maxHeartRate of
    at least 1. *)
Lemma intensity_monotone_rational (M hr1 hr2 : Q) :
  1 <= M -> 0 <= hr1 -> hr1 <= hr2 -> hr2 <= M ->
  exists i1 i2 : Z,
    intensity (getEffortLevel (Fin hr1) (Fin M)) = of_Z i1
    /\ intensity (getEffortLevel (Fin hr2) (Fin M)) = of_Z i2
    /\ (0 <= i1 <= 100)%Z /\ (0 <= i2 <= 100)%Z /\ (i1 <= i2)%Z.
Proof.
  intros HM H0 H12 H2M.
  pose proof (edge_half_positive M HM) as Hpos.
  destruct (classification_finite M hr1 HM)
    as [(A1 & _ & I1) | [(A1 & A2 & _ & I1) | [(A1 & A2 & A3 & _ & I1)
       | [(A1 & A2 & A3 & A4 & _ & I1) | (A1 & A2 & A3 & A4 & _ & I1)]]]];
  destruct (classification_finite M hr2 HM)
    as [(B1 & _ & I2) | [(B1 & B2 & _ & I2) | [(B1 & B2 & B3 & _ & I2)
       | [(B1 & B2 & B3 & B4 & _ & I2) | (B1 & B2 & B3 & B4 & _ & I2)]]]];
  try (exfalso; lra);
  try (specialize (I1 ltac:(lra)));
  try (specialize (I2 ltac:(lra)));
  rewrite I1, I2; eexists _, _; (split; [reflexivity |]); (split; [reflexivity |]).
  all: band_ranges M hr1 Hpos; band_ranges M hr2 Hpos.
  all: band_order M hr1 hr2 H12 Hpos.
  all: lia.
Qed.

End ClassifierFacts.

(** ** Facts about the aggregator *)

Section AggregatorFacts.

Lemma samplesIn_cons (zones : Zones) (key : string) (d : HeartRateData)
    (data : list HeartRateData) :
  samplesIn zones key (d :: data)
  = ((if bool_decide (bucketOf zones d = Some key) then 1 else 0)
     + samplesIn zones key data)%nat.
Proof.
  unfold samplesIn. cbn [List.filter].
  destruct (bool_decide (bucketOf zones d = Some key)); reflexivity.
Qed.

Lemma countZone_lookup (zones : Zones) (tz : gmap string num)
    (d : HeartRateData) (key : string) (c : Z) :
  tz !! key = Some (of_Z c) ->
  countZone zones tz d !! key
  = Some (of_Z (c + (if bool_decide (bucketOf zones d = Some key) then 1 else 0))).
Proof.
  intros Hkey. rewrite countZone_currentZoneOf. unfold bucketOf, if_truthy.
  destruct (heartRate d) as [hr |].
  - destruct (truthy hr).
    + unfold increment. case_bool_decide as Hb.
      * injection Hb as ->. rewrite lookup_insert_eq, Hkey.
        cbn [to_number].
        change (Fin 1) with (of_Z 1). now rewrite add_of_Z.
      * rewrite lookup_insert_ne by congruence.
        now rewrite Z.add_0_r.
    + rewrite bool_decide_eq_false_2 by discriminate. now rewrite Z.add_0_r.
  - rewrite bool_decide_eq_false_2 by discriminate. now rewrite Z.add_0_r.
Qed.

Lemma foldl_countZone_lookup (zones : Zones) (data : list HeartRateData) :
  forall (tz : gmap string num) (key : string) (c : Z),
    tz !! key = Some (of_Z c) ->
    foldl (countZone zones) tz data !! key
    = Some (of_Z (c + Z.of_nat (samplesIn zones key data))).
Proof.
  induction data as [| d data IH]; intros tz key c Hkey.
  - cbn [foldl]. unfold samplesIn. cbn. now rewrite Z.add_0_r.
  - cbn [foldl].
    rewrite (IH _ key _ (countZone_lookup zones tz d key c Hkey)).
    rewrite samplesIn_cons. do 2 f_equal.
    destruct (bool_decide (bucketOf zones d = Some key)); lia.
Qed.

Lemma zoneCounts_lookup (zones : Zones) (data : list HeartRateData)
    (key : string) :
  key ∈ zoneKeys ->
  zoneCounts data zones !! key = Some (of_nat (samplesIn zones key data)).
Proof.
  intros Hin. unfold zoneCounts, of_nat.
  rewrite (foldl_countZone_lookup zones data _ key 0).
  - reflexivity.
  - unfold zoneKeys in Hin.
    repeat (apply elem_of_cons in Hin as [-> | Hin]; [reflexivity |]).
    now apply elem_of_nil in Hin.
Qed.

Lemma nonempty_length_eqb {A : Type} (l : list A) :
  l <> [] -> (length l =? 0)%nat = false.
Proof. destruct l; [congruence | reflexivity]. Qed.

(** *** The zone-transition scan *)

Lemma currentZoneOf_nonempty (zones : Zones) (hr : num) :
  String.eqb (currentZoneOf zones hr) "" = false.
Proof.
  unfold currentZoneOf.
  repeat match goal with
         | |- context [if ?b then _ else _] => destruct b
         end; reflexivity.
Qed.

Lemma transitionStep_skip (zones : Zones) (st : num * string)
    (d : HeartRateData) :
  truthy_opt (heartRate d) = false -> transitionStep zones st d = st.
Proof.
  intros H. destruct st as [n p]. unfold transitionStep, if_truthy.
  destruct (heartRate d) as [hr |]; [| reflexivity].
  cbn [truthy_opt] in H. now rewrite H.
Qed.

Lemma transitionStep_counted (zones : Zones) (n : Z) (p : string)
    (d : HeartRateData) (hr : num) :
  heartRate d = Some hr -> truthy hr = true ->
  transitionStep zones (of_Z n, p) d
  = (of_Z (n + (if negb (String.eqb p "")
                    && negb (String.eqb p (currentZoneOf zones hr))
                then 1 else 0)),
     currentZoneOf zones hr).
Proof.
  intros Hhr Ht. unfold transitionStep, if_truthy. rewrite Hhr, Ht.
  destruct (negb (String.eqb p "")
            && negb (String.eqb p (currentZoneOf zones hr))).
  - change (Fin 1) with (of_Z 1). now rewrite add_of_Z.
  - now rewrite Z.add_0_r.
Qed.

Lemma countedHRs_cons_counted (d : HeartRateData) (data : list HeartRateData)
    (hr : num) :
  heartRate d = Some hr -> truthy hr = true ->
  countedHRs (d :: data) = hr :: countedHRs data.
Proof.
  intros Hhr Ht. unfold countedHRs. cbn [omap list_omap if_truthy].
  unfold if_truthy. now rewrite Hhr, Ht.
Qed.

Lemma countedHRs_cons_skip (d : HeartRateData) (data : list HeartRateData) :
  truthy_opt (heartRate d) = false -> countedHRs (d :: data) = countedHRs data.
Proof.
  intros H. unfold countedHRs. cbn [omap list_omap]. unfold if_truthy.
  destruct (heartRate d) as [hr |]; [| reflexivity].
  cbn [truthy_opt] in H. now rewrite H.
Qed.

(** Every sample is either counted, with a truthy heart rate, or skipped. *)
Lemma sample_counted_or_skipped (d : HeartRateData) :
  (exists hr, heartRate d = Some hr /\ truthy hr = true)
  \/ truthy_opt (heartRate d) = false.
Proof.
  destruct (heartRate d) as [hr |] eqn:Hhr; [| now right].
  destruct (truthy hr) eqn:Ht; [left; eauto | now right].
Qed.

(** Once a previous zone is set, the scan counts the changes of the zone
    sequence that starts with it. *)
Lemma foldl_transitionStep_from (zones : Zones) (data : list HeartRateData) :
  forall (n : Z) (p : string),
    String.eqb p "" = false ->
    fst (foldl (transitionStep zones) (of_Z n, p) data)
    = of_Z (n + Z.of_nat (zoneChanges
                            (p :: (currentZoneOf zones <$> countedHRs data)))).
Proof.
  induction data as [| d data IH]; intros n p Hp.
  - cbn. now rewrite Z.add_0_r.
  - cbn [foldl].
    destruct (sample_counted_or_skipped d) as [(hr & Hhr & Ht) | Hskip].
    + rewrite (transitionStep_counted zones n p d hr Hhr Ht).
      rewrite IH by apply currentZoneOf_nonempty.
      rewrite (countedHRs_cons_counted d data hr Hhr Ht).
      rewrite Hp. cbn [negb andb fmap list_fmap zoneChanges].
      f_equal.
      destruct (String.eqb p (currentZoneOf zones hr)); cbn [negb]; lia.
    + rewrite transitionStep_skip by exact Hskip.
      rewrite countedHRs_cons_skip by exact Hskip. now apply IH.
Qed.

Lemma zoneTransitionsOf_zoneChanges (zones : Zones) (data : list HeartRateData) :
  zoneTransitionsOf data zones
  = of_nat (zoneChanges (currentZoneOf zones <$> countedHRs data)).
Proof.
  unfold zoneTransitionsOf. change (Fin 0) with (of_Z 0).
  induction data as [| d data IH].
  - reflexivity.
  - cbn [foldl].
    destruct (sample_counted_or_skipped d) as [(hr & Hhr & Ht) | Hskip].
    + rewrite (transitionStep_counted zones 0 "" d hr Hhr Ht).
      cbn [String.eqb negb andb].
      rewrite foldl_transitionStep_from by apply currentZoneOf_nonempty.
      rewrite (countedHRs_cons_counted d data hr Hhr Ht).
      reflexivity.
    + rewrite transitionStep_skip by exact Hskip.
      rewrite countedHRs_cons_skip by exact Hskip. exact IH.
Qed.

(** *** A reading of 0 against a missing reading *)

Lemma if_truthy_zeroAsNull {A : Type} (d : HeartRateData) (k : num -> A)
    (otherwise : A) :
  if_truthy (heartRate (zeroAsNull d)) k otherwise
  = if_truthy (heartRate d) k otherwise.
Proof.
  unfold zeroAsNull.
  destruct (heartRate d) as [[q | | |] |] eqn:Hhr; try now rewrite Hhr.
  destruct (Qzero_b q) eqn:Hq.
  - cbn [heartRate if_truthy truthy]. now rewrite Hq.
  - now rewrite Hhr.
Qed.

Lemma foldl_zeroAsNull {S : Type} (step : S -> HeartRateData -> S)
    (data : list HeartRateData) :
  (forall st d, step st (zeroAsNull d) = step st d) ->
  forall st, foldl step st (zeroAsNull <$> data) = foldl step st data.
Proof.
  intros Hstep. induction data as [| d data IH]; intros st; [reflexivity |].
  cbn [fmap list_fmap foldl]. rewrite Hstep. apply IH.
Qed.

Lemma filter_length_zeroAsNull (p : HeartRateData -> bool)
    (data : list HeartRateData) :
  (forall d, p (zeroAsNull d) = p d) ->
  length (List.filter p (zeroAsNull <$> data)) = length (List.filter p data).
Proof.
  intros Hp. induction data as [| d data IH]; [reflexivity |].
  cbn [fmap list_fmap List.filter]. rewrite Hp.
  destruct (p d); cbn [length]; now rewrite IH.
Qed.

Lemma intensities_zeroAsNull (data : list HeartRateData) (M : num) :
  intensities (zeroAsNull <$> data) M = intensities data M.
Proof.
  unfold intensities. rewrite <- list_fmap_compose.
  apply list_fmap_ext. intros _ d _. apply if_truthy_zeroAsNull.
Qed.

Lemma zoneCounts_zeroAsNull (data : list HeartRateData) (zones : Zones) :
  zoneCounts (zeroAsNull <$> data) zones = zoneCounts data zones.
Proof.
  unfold zoneCounts. apply foldl_zeroAsNull. intros tz d.
  unfold countZone. apply if_truthy_zeroAsNull.
Qed.

Lemma peakSpikesOf_zeroAsNull (data : list HeartRateData) (M : num) :
  peakSpikesOf (zeroAsNull <$> data) M = peakSpikesOf data M.
Proof.
  unfold peakSpikesOf. cbv zeta. f_equal.
  apply filter_length_zeroAsNull. intros d. apply if_truthy_zeroAsNull.
Qed.

Lemma sustainedAerobicOf_zeroAsNull (data : list HeartRateData) (M : num) :
  sustainedAerobicOf (zeroAsNull <$> data) M = sustainedAerobicOf data M.
Proof.
  unfold sustainedAerobicOf. cbv zeta. rewrite length_fmap.
  rewrite foldl_zeroAsNull; [reflexivity |].
  intros [mx cur] d. unfold sustainedStep. now rewrite if_truthy_zeroAsNull.
Qed.

Lemma zoneTransitionsOf_zeroAsNull (data : list HeartRateData) (zones : Zones) :
  zoneTransitionsOf (zeroAsNull <$> data) zones = zoneTransitionsOf data zones.
Proof.
  unfold zoneTransitionsOf. rewrite foldl_zeroAsNull; [reflexivity |].
  intros [n p] d. unfold transitionStep. apply if_truthy_zeroAsNull.
Qed.

Lemma validHRs_keeps (data : list HeartRateData) (d : HeartRateData) (hr : num) :
  d ∈ data -> heartRate d = Some hr -> hr ∈ validHRs data.
Proof.
  intros Hin Hhr. unfold validHRs. apply list_elem_of_omap. eauto.
Qed.

End AggregatorFacts.

(** ** Further facts about the aggregator *)

Section EngineFacts.

Lemma foldl_fmap_same {S A : Type} (step : S -> A -> S) (g : A -> A)
    (l : list A) :
  (forall st a, step st (g a) = step st a) ->
  forall st, foldl step st (g <$> l) = foldl step st l.
Proof.
  intros Hstep. induction l as [| a l IH]; intros st; [reflexivity |].
  cbn [fmap list_fmap foldl]. rewrite Hstep. apply IH.
Qed.

Lemma filter_length_fmap_same {A : Type} (p : A -> bool) (g : A -> A)
    (l : list A) :
  (forall a, p (g a) = p a) ->
  length (List.filter p (g <$> l)) = length (List.filter p l).
Proof.
  intros Hp. induction l as [| a l IH]; [reflexivity |].
  cbn [fmap list_fmap List.filter]. rewrite Hp.
  destruct (p a); cbn [length]; now rewrite IH.
Qed.

Lemma validHRs_withoutTime (data : list HeartRateData) :
  validHRs (withoutTime <$> data) = validHRs data.
Proof.
  unfold validHRs. induction data as [| d data IH]; [reflexivity |].
  cbn [fmap list_fmap omap list_omap withoutTime heartRate].
  destruct (heartRate d); now rewrite IH.
Qed.

Lemma calculateWorkoutQuality_withoutTime (data : list HeartRateData)
    (M D : num) (T : WorkoutType) :
  calculateWorkoutQuality (withoutTime <$> data) M D T
  = calculateWorkoutQuality data M D T.
Proof.
  unfold calculateWorkoutQuality. rewrite length_fmap.
  destruct (length data =? 0)%nat; [reflexivity |].
  assert (Hint : intensities (withoutTime <$> data) M = intensities data M).
  { unfold intensities. rewrite <- list_fmap_compose.
    apply list_fmap_ext. intros _ d _. reflexivity. }
  assert (Hcnt : forall zones,
             zoneCounts (withoutTime <$> data) zones = zoneCounts data zones).
  { intros zones. unfold zoneCounts. apply foldl_fmap_same.
    intros st d. reflexivity. }
  pose proof (validHRs_withoutTime data) as Hval.
  assert (Hpk : peakSpikesOf (withoutTime <$> data) M = peakSpikesOf data M).
  { unfold peakSpikesOf. cbv zeta. f_equal.
    apply filter_length_fmap_same. intros d. reflexivity. }
  assert (Hsus : sustainedAerobicOf (withoutTime <$> data) M
                 = sustainedAerobicOf data M).
  { unfold sustainedAerobicOf. cbv zeta. rewrite length_fmap.
    rewrite foldl_fmap_same; [reflexivity |].
    intros [mx cur] d. reflexivity. }
  assert (Htr : forall zones,
             zoneTransitionsOf (withoutTime <$> data) zones
             = zoneTransitionsOf data zones).
  { intros zones. unfold zoneTransitionsOf.
    rewrite foldl_fmap_same; [reflexivity |].
    intros [n p] d. reflexivity. }
  now rewrite Hint, Hcnt, Hval, Hpk, Hsus, Htr.
Qed.

End EngineFacts.

Section EngineFacts2.

Lemma inject_Z_of_nat_pos (n : nat) : (0 < n)%nat -> (0 < inject_Z (Z.of_nat n))%Q.
Proof.
  intros H. change 0%Q with (inject_Z 0). rewrite <- Zlt_Qlt. lia.
Qed.

Lemma round_half_up_le_below (x : Q) (k : Z) :
  (x + 0.5 < inject_Z (k + 1))%Q -> (round_half_up x <= k)%Z.
Proof.
  intros H. unfold round_half_up.
  pose proof (Qfloor_le (x + 0.5)) as Hfl.
  assert (Hlt : (Qfloor (x + 0.5) < k + 1)%Z).
  { rewrite Zlt_Qlt. eapply Qle_lt_trans; eassumption. }
  lia.
Qed.

(** [Math.round((count / total) * 100)] of a part of a non-empty whole. *)
Lemma percentage_range (c n : nat) :
  (c <= n)%nat -> (0 < n)%nat ->
  exists p : Z,
    percentage c n = of_Z p /\ (0 <= p <= 100)%Z
    /\ (inject_Z p <= inject_Z (Z.of_nat c) / inject_Z (Z.of_nat n) * 100 + 0.5)%Q
    /\ (inject_Z (Z.of_nat c) / inject_Z (Z.of_nat n) * 100 - 0.5 < inject_Z p)%Q.
Proof.
  intros Hc Hn. unfold percentage, of_nat, of_Z.
  pose proof (inject_Z_of_nat_pos n Hn) as Hnq.
  rewrite div_Fin by lra. cbn [mul Math_round].
  eexists. split; [reflexivity |].
  assert (H0c : (0 <= inject_Z (Z.of_nat c))%Q).
  { change 0%Q with (inject_Z 0). rewrite <- Zle_Qle. lia. }
  assert (Hcn : (inject_Z (Z.of_nat c) <= inject_Z (Z.of_nat n))%Q).
  { rewrite <- Zle_Qle. lia. }
  destruct (ratio_bounds _ _ H0c Hcn Hnq) as [Hr0 Hr1].
  split.
  - apply round_half_up_between.
    + change (inject_Z 0) with 0%Q. lra.
    + change (inject_Z 100) with 100%Q. lra.
  - unfold round_half_up.
    pose proof (Qfloor_le (inject_Z (Z.of_nat c) / inject_Z (Z.of_nat n) * 100 + 0.5)) as Hfl.
    pose proof (Qlt_floor (inject_Z (Z.of_nat c) / inject_Z (Z.of_nat n) * 100 + 0.5)) as Hfu.
    rewrite inject_Z_plus in Hfu. change (inject_Z 1) with 1%Q in Hfu.
    split; lra.
Qed.

Lemma samplesIn_le (zones : Zones) (key : string) (data : list HeartRateData) :
  (samplesIn zones key data <= length data)%nat.
Proof. unfold samplesIn. apply List.filter_length_le. Qed.

Lemma currentZoneOf_in_zoneKeys (zones : Zones) (hr : num) :
  currentZoneOf zones hr ∈ zoneKeys.
Proof.
  unfold currentZoneOf, zoneKeys.
  repeat match goal with
         | |- context [if ?b then _ else _] => destruct b
         end; set_solver.
Qed.

Lemma countZone_lookup_other (zones : Zones) (tz : gmap string num)
    (d : HeartRateData) (key : string) :
  key ∉ zoneKeys -> countZone zones tz d !! key = tz !! key.
Proof.
  intros Hkey. rewrite countZone_currentZoneOf. unfold if_truthy.
  destruct (heartRate d) as [hr |]; [| reflexivity].
  destruct (truthy hr); [| reflexivity].
  unfold increment. apply lookup_insert_ne.
  intros <-. apply Hkey, currentZoneOf_in_zoneKeys.
Qed.

Lemma zoneCounts_lookup_other (zones : Zones) (data : list HeartRateData)
    (key : string) :
  key ∉ zoneKeys -> zoneCounts data zones !! key = None.
Proof.
  intros Hkey. unfold zoneCounts.
  assert (Hgen : forall tz, foldl (countZone zones) tz data !! key = tz !! key).
  { induction data as [| d data IH]; intros tz; [reflexivity |].
    cbn [foldl]. rewrite IH. now apply countZone_lookup_other. }
  rewrite Hgen. unfold zoneKeys in Hkey.
  repeat (rewrite lookup_insert_ne by set_solver).
  apply lookup_empty.
Qed.

Lemma timeInZones_lookup (data : list HeartRateData) (M D : num)
    (T : WorkoutType) (key : string) :
  data <> [] -> key ∈ zoneKeys ->
  timeInZones (calculateWorkoutQuality data M D T) !! key
  = Some (percentage (samplesIn (calculateHeartRateZones M) key data)
            (length data)).
Proof.
  intros Hne Hin. unfold calculateWorkoutQuality.
  rewrite nonempty_length_eqb by exact Hne.
  cbn [timeInZones]. unfold toPercentages.
  rewrite lookup_fmap, zoneCounts_lookup by exact Hin.
  reflexivity.
Qed.

Lemma timeInZones_lookup_other (data : list HeartRateData) (M D : num)
    (T : WorkoutType) (key : string) :
  data <> [] -> key ∉ zoneKeys ->
  timeInZones (calculateWorkoutQuality data M D T) !! key = None.
Proof.
  intros Hne Hout. unfold calculateWorkoutQuality.
  rewrite nonempty_length_eqb by exact Hne.
  cbn [timeInZones]. unfold toPercentages.
  now rewrite lookup_fmap, zoneCounts_lookup_other.
Qed.

Lemma nonempty_length_pos {A : Type} (l : list A) : l <> [] -> (0 < length l)%nat.
Proof. destruct l; [congruence | cbn; lia]. Qed.

End EngineFacts2.

Section EngineFacts3.

(** Every counted sample lands in exactly one of the five buckets. *)
Lemma samplesIn_total (zones : Zones) (data : list HeartRateData) :
  (samplesIn zones "recovery" data + samplesIn zones "fatBurn" data
   + samplesIn zones "aerobic" data + samplesIn zones "anaerobic" data
   + samplesIn zones "max" data)%nat
  = length (countedHRs data).
Proof.
  induction data as [| d data IH]; [reflexivity |].
  rewrite !samplesIn_cons.
  destruct (sample_counted_or_skipped d) as [(hr & Hhr & Ht) | Hskip].
  - rewrite (countedHRs_cons_counted d data hr Hhr Ht). cbn [length].
    rewrite <- IH. unfold bucketOf, if_truthy. rewrite Hhr, Ht.
    unfold currentZoneOf.
    repeat match goal with
           | |- context [if (?a <=? ?b)%num then _ else _] =>
               destruct (a <=? b)%num
           end;
      repeat case_bool_decide; try congruence; lia.
  - rewrite countedHRs_cons_skip by exact Hskip. rewrite <- IH.
    assert (Hb : bucketOf zones d = None).
    { unfold bucketOf, if_truthy. destruct (heartRate d) as [hr |]; [| reflexivity].
      cbn [truthy_opt] in Hskip. now rewrite Hskip. }
    rewrite Hb. repeat case_bool_decide; try congruence; lia.
Qed.

Lemma countedHRs_length_le (data : list HeartRateData) :
  (length (countedHRs data) <= length data)%nat.
Proof.
  induction data as [| d data IH]; [reflexivity |].
  destruct (sample_counted_or_skipped d) as [(hr & Hhr & Ht) | Hskip].
  - rewrite (countedHRs_cons_counted d data hr Hhr Ht). cbn [length]. lia.
  - rewrite countedHRs_cons_skip by exact Hskip. cbn [length]. lia.
Qed.

Lemma countedHRs_all (data : list HeartRateData) :
  Forall (fun d => truthy_opt (heartRate d) = true) data ->
  length (countedHRs data) = length data.
Proof.
  induction 1 as [| d data Hd _ IH]; [reflexivity |].
  destruct (sample_counted_or_skipped d) as [(hr & Hhr & Ht) | Hskip].
  - rewrite (countedHRs_cons_counted d data hr Hhr Ht). cbn [length]. lia.
  - congruence.
Qed.

End EngineFacts3.

Section EngineFacts4.

Lemma edge_top_le (M : Z) : (0 <= M)%Z -> (edge (inject_Z M) 0.85 <= inject_Z M)%Q.
Proof.
  intros HM. unfold edge. rewrite <- Zle_Qle.
  apply round_half_up_le_below. rewrite inject_Z_plus.
  change (inject_Z 1) with 1%Q.
  assert (0 <= inject_Z M)%Q by (change 0%Q with (inject_Z 0); now rewrite <- Zle_Qle).
  lra.
Qed.

Lemma edge_nonneg (M f : Q) : (0 <= M)%Q -> (0 <= f)%Q -> (0 <= edge M f)%Q.
Proof.
  intros HM Hf. unfold edge. change 0%Q with (inject_Z 0).
  rewrite <- Zle_Qle. rewrite <- (round_half_up_Z 0).
  apply round_half_up_mono. change (inject_Z 0) with 0%Q.
  apply Qmult_le_0_compat; assumption.
Qed.

Lemma zoneChanges_bound (zs : list string) :
  (zoneChanges zs <= length zs - 1)%nat.
Proof.
  induction zs as [| z1 [| z2 zs] IH]; [cbn; lia | cbn; lia |].
  change (zoneChanges (z1 :: z2 :: zs))
    with ((if String.eqb z1 z2 then 0 else 1) + zoneChanges (z2 :: zs))%nat.
  cbn [length] in *. destruct (String.eqb z1 z2); lia.
Qed.

Lemma zoneChanges_zero (zs : list string) :
  zoneChanges zs = 0%nat <-> forall z1 z2 : string, z1 ∈ zs -> z2 ∈ zs -> z1 = z2.
Proof.
  induction zs as [| z1 [| z2 zs] IH].
  - split; [intros _ a b Ha; now apply elem_of_nil in Ha | reflexivity].
  - split; [| reflexivity].
    intros _ a b Ha Hb. apply list_elem_of_singleton in Ha, Hb. congruence.
  - change (zoneChanges (z1 :: z2 :: zs))
      with ((if String.eqb z1 z2 then 0 else 1) + zoneChanges (z2 :: zs))%nat.
    split.
    + intros H. destruct (String.eqb z1 z2) eqn:E; [| lia].
      apply String.eqb_eq in E. subst z2.
      assert (Hrest : zoneChanges (z1 :: zs) = 0%nat) by lia.
      pose proof (proj1 IH Hrest) as Hsame. clear Hrest.
      rename Hsame into Hrest. intros a b Ha Hb.
      apply elem_of_cons in Ha as [-> | Ha]; apply elem_of_cons in Hb as [-> | Hb];
        try reflexivity.
      * apply Hrest; [left | exact Hb].
      * apply Hrest; [exact Ha | left].
      * now apply Hrest.
    + intros Hall.
      assert (E : z1 = z2) by (apply Hall; [left | right; left]).
      subst z2. rewrite String.eqb_refl.
      cbn [Nat.add]. apply (proj2 IH). intros a b Ha Hb.
      apply Hall; now right.
Qed.

(** With ordered finite edges, the last branch of the zone chain is the
    test against the anaerobic ceiling alone. *)
Lemma max_bucket_is_peak (M : Q) (d : HeartRateData) :
  (0 <= M)%Q ->
  if_truthy (heartRate d)
    (fun hr => hr >? Math_round (Fin M * Fin 0.85)) false
  = bool_decide (bucketOf (calculateHeartRateZones (Fin M)) d = Some "max").
Proof.
  intros HM. destruct (edges_ordered M HM) as (O1 & O2 & O3).
  unfold bucketOf, if_truthy, currentZoneOf.
  cbn [calculateHeartRateZones recovery fatBurn aerobic anaerobic
       Band.min Band.max mul Math_round].
  change (of_Z (round_half_up (M * 0.5))) with (Fin (edge M 0.5)).
  change (of_Z (round_half_up (M * 0.6))) with (Fin (edge M 0.6)).
  change (of_Z (round_half_up (M * 0.7))) with (Fin (edge M 0.7)).
  change (of_Z (round_half_up (M * 0.85))) with (Fin (edge M 0.85)).
  destruct (heartRate d) as [[q | | |] |];
    cbn [truthy gtb ltb leb];
    try (case_bool_decide; [congruence | reflexivity]);
    try (case_bool_decide; [reflexivity | congruence]).
  destruct (negb (Qzero_b q)); [| case_bool_decide; [congruence | reflexivity]].
  destruct (Qle_bool q (edge M 0.85)) eqn:E4.
  - cbn [negb]. case_bool_decide as Hb; [| reflexivity].
    destruct (Qle_bool q (edge M 0.5)); [discriminate |].
    destruct (Qle_bool q (edge M 0.6)); [discriminate |].
    destruct (Qle_bool q (edge M 0.7)); discriminate.
  - cbn [negb]. apply not_true_iff_false in E4.
    rewrite Qle_bool_iff in E4. apply Qnot_le_lt in E4.
    assert (F1 : Qle_bool q (edge M 0.5) = false)
      by (apply not_true_iff_false; rewrite Qle_bool_iff; lra).
    assert (F2 : Qle_bool q (edge M 0.6) = false)
      by (apply not_true_iff_false; rewrite Qle_bool_iff; lra).
    assert (F3 : Qle_bool q (edge M 0.7) = false)
      by (apply not_true_iff_false; rewrite Qle_bool_iff; lra).
    rewrite F1, F2, F3. case_bool_decide; [reflexivity | congruence].
Qed.

End EngineFacts4.

Section RangeFacts.

Lemma Math_max_of_Z (a b : Z) : Math_max (of_Z a) (of_Z b) = of_Z (Z.max a b).
Proof.
  unfold Math_max, of_Z. cbn [leb].
  destruct (Qle_bool (inject_Z a) (inject_Z b)) eqn:E.
  - apply Qle_bool_iff in E. rewrite <- Zle_Qle in E. now rewrite Z.max_r.
  - apply not_true_iff_false in E. rewrite Qle_bool_iff, <- Zle_Qle in E.
    rewrite Z.max_l by lia. reflexivity.
Qed.

Lemma foldl_add_of_Z (zs : list Z) (a : Z) :
  foldl add (of_Z a) (of_Z <$> zs) = of_Z (a + sumZ zs).
Proof.
  revert a. induction zs as [| z zs IH]; intros a.
  - cbn. now rewrite Z.add_0_r.
  - cbn [fmap list_fmap foldl]. rewrite add_of_Z, IH.
    f_equal. unfold sumZ. cbn [foldr]. lia.
Qed.

Lemma sum_of_Z (zs : list Z) : sum (of_Z <$> zs) = of_Z (sumZ zs).
Proof.
  unfold sum. change (Fin 0) with (of_Z 0). now rewrite foldl_add_of_Z.
Qed.

Lemma sumZ_bounds (zs : list Z) (lo hi : Z) :
  Forall (fun z => lo <= z <= hi)%Z zs ->
  (lo * Z.of_nat (length zs) <= sumZ zs <= hi * Z.of_nat (length zs))%Z.
Proof.
  induction 1 as [| z zs Hz _ IH]; [cbn; lia |].
  unfold sumZ in *. cbn [foldr length]. lia.
Qed.

Lemma Math_max_spread_of_Z (z : Z) (zs : list Z) :
  exists m : Z,
    Math_max_spread (of_Z <$> (z :: zs)) = of_Z m
    /\ m ∈ z :: zs
    /\ Forall (fun x => x <= m)%Z (z :: zs).
Proof.
  revert z. induction zs as [| y zs IH]; intros z.
  - exists z. split; [reflexivity |]. split; [left |].
    constructor; [lia | constructor].
  - destruct (IH y) as (m & Hm & Hin & Hall).
    change (Math_max_spread (of_Z <$> z :: y :: zs))
      with (Math_max (of_Z z) (Math_max_spread (of_Z <$> y :: zs))).
    rewrite Hm, Math_max_of_Z. exists (Z.max z m).
    split; [reflexivity |]. split.
    + destruct (Z.max_spec z m) as [[_ ->] | [_ ->]]; [now right | left].
    + constructor; [lia |].
      eapply Forall_impl; [exact Hall |]. cbn. intros; lia.
Qed.

Lemma intensity_of_valid (M : Q) (d : HeartRateData) :
  (1 <= M)%Q -> validReading M d ->
  exists i : Z,
    if_truthy (heartRate d)
      (fun hr => intensity (getEffortLevel hr (Fin M))) (Fin 0) = of_Z i
    /\ (0 <= i <= 100)%Z.
Proof.
  intros HM [Hnull | (q & Hq & Hq0 & HqM)].
  - rewrite Hnull. exists 0%Z. split; [reflexivity | lia].
  - rewrite Hq. cbn [if_truthy]. destruct (truthy (Fin q)).
    + destruct (intensity_monotone_rational M q q HM Hq0 ltac:(lra) HqM)
        as (i1 & _ & H1 & _ & R1 & _ & _).
      exists i1. split; assumption.
    + exists 0%Z. split; [reflexivity | lia].
Qed.

Lemma intensities_of_valid (M : Q) (data : list HeartRateData) :
  (1 <= M)%Q -> Forall (validReading M) data ->
  exists ints : list Z,
    intensities data (Fin M) = of_Z <$> ints
    /\ length ints = length data
    /\ Forall (fun i => 0 <= i <= 100)%Z ints.
Proof.
  intros HM. induction 1 as [| d data Hd _ (ints & His & Hlen & Hall)].
  - exists []. repeat split; constructor.
  - destruct (intensity_of_valid M d HM Hd) as (i & Hi & Hr).
    exists (i :: ints). unfold intensities in *.
    cbn [fmap list_fmap length]. rewrite Hi, His, Hlen.
    repeat split. now constructor.
Qed.

End RangeFacts.

(** *** The longest run of consecutive samples *)

Section RunFacts.
Context {A : Type} (p : A -> bool).

Lemma snoc_eq_app (pre l1 b : list A) (x : A) :
  pre ++ [x] = l1 ++ b ->
  b = [] \/ exists b', b = b' ++ [x] /\ pre = l1 ++ b'.
Proof.
  intros H. destruct b as [| y b' _] using rev_ind; [now left | right].
  rewrite app_assoc in H. apply app_inj_tail in H as [-> ->]. eauto.
Qed.

Lemma runInvariant_nil : runInvariant p [] (0%nat, 0%nat).
Proof.
  repeat split; cbn [fst snd].
  - exists [], [], []. repeat split. constructor.
  - intros l1 b l2 H _. symmetry in H.
    apply app_eq_nil in H as [_ H]. apply app_eq_nil in H as [-> _]. cbn; lia.
  - exists [], []. repeat split. constructor.
  - intros l1 b H _. symmetry in H. apply app_eq_nil in H as [_ ->]. cbn; lia.
  - lia.
Qed.

Lemma runInvariant_step (pre : list A) (st : nat * nat) (x : A) :
  runInvariant p pre st -> runInvariant p (pre ++ [x]) (runStep p st x).
Proof.
  destruct st as [mx cur].
  intros ([(m1 & mb & m2 & Hm & Hml & Hmp) Hmax]
          & (s1 & sb & Hs & Hsl & Hsp) & Hsuf & Hle).
  cbn [fst snd] in *. unfold runStep. cbn [fst snd].
  destruct (p x) eqn:Hpx; cbn [fst snd].
  - repeat split; cbn [fst snd].
    + destruct (Nat.max_spec mx (S cur)) as [[_ ->] | [_ ->]].
      * exists s1, (sb ++ [x]), []. rewrite app_nil_r.
        split; [rewrite Hs; now rewrite app_assoc |].
        split; [rewrite length_app; cbn; lia |].
        apply Forall_app. split; [exact Hsp | now constructor].
      * exists m1, mb, (m2 ++ [x]).
        split; [rewrite Hm; now rewrite <- !app_assoc |]. now split.
    + intros l1 b l2 H Hb.
      destruct l2 as [| y l2' _] using rev_ind.
      * rewrite app_nil_r in H.
        destruct (snoc_eq_app _ _ _ _ H) as [-> | (b' & -> & Hpre)];
          [cbn; lia |].
        apply Forall_app in Hb as [Hb' _].
        specialize (Hsuf l1 b' Hpre Hb').
        rewrite length_app. cbn [length]. lia.
      * rewrite !app_assoc in H. apply app_inj_tail in H as [H _].
        rewrite <- app_assoc in H. specialize (Hmax l1 b l2' H Hb). lia.
    + exists s1, (sb ++ [x]).
      split; [rewrite Hs; now rewrite app_assoc |].
      split; [rewrite length_app; cbn; lia |].
      apply Forall_app. split; [exact Hsp | now constructor].
    + intros l1 b H Hb.
      destruct (snoc_eq_app _ _ _ _ H) as [-> | (b' & -> & Hpre)];
        [cbn; lia |].
      apply Forall_app in Hb as [Hb' _].
      specialize (Hsuf l1 b' Hpre Hb').
      rewrite length_app. cbn [length]. lia.
    + lia.
  - repeat split; cbn [fst snd].
    + exists m1, mb, (m2 ++ [x]).
      split; [rewrite Hm; now rewrite <- !app_assoc |]. now split.
    + intros l1 b l2 H Hb.
      destruct l2 as [| y l2' _] using rev_ind.
      * rewrite app_nil_r in H.
        destruct (snoc_eq_app _ _ _ _ H) as [-> | (b' & -> & Hpre)];
          [cbn; lia |].
        apply Forall_app in Hb as [_ Hx]. inversion Hx; congruence.
      * rewrite !app_assoc in H. apply app_inj_tail in H as [H _].
        rewrite <- app_assoc in H. exact (Hmax l1 b l2' H Hb).
    + exists (pre ++ [x]), []. rewrite app_nil_r. repeat split. constructor.
    + intros l1 b H Hb.
      destruct (snoc_eq_app _ _ _ _ H) as [-> | (b' & -> & Hpre)];
        [cbn; lia |].
      apply Forall_app in Hb as [_ Hx]. inversion Hx; congruence.
    + lia.
Qed.

Lemma runInvariant_foldl (l : list A) :
  forall (pre : list A) (st : nat * nat),
    runInvariant p pre st ->
    runInvariant p (pre ++ l) (foldl (runStep p) st l).
Proof.
  induction l as [| x l IH]; intros pre st Hinv.
  - now rewrite app_nil_r.
  - cbn [foldl]. replace (pre ++ x :: l) with ((pre ++ [x]) ++ l)
      by (now rewrite <- app_assoc).
    apply IH. now apply runInvariant_step.
Qed.

Lemma foldl_runStep_longestRun (l : list A) :
  longestRun p l (fst (foldl (runStep p) (0%nat, 0%nat) l))
  /\ (fst (foldl (runStep p) (0%nat, 0%nat) l) <= length l)%nat.
Proof.
  pose proof (runInvariant_foldl l [] _ runInvariant_nil) as (Hrun & _).
  cbn [app] in Hrun. split; [exact Hrun |].
  destruct Hrun as [(l1 & b & l2 & -> & <- & _) _].
  rewrite !length_app. lia.
Qed.

End RunFacts.

Section SustainedFacts.

Lemma of_nat_succ (n : nat) : of_nat n + Fin 1 = of_nat (S n).
Proof.
  unfold of_nat. change (Fin 1) with (of_Z 1). rewrite add_of_Z.
  f_equal. lia.
Qed.

Lemma Math_max_of_nat (a b : nat) :
  Math_max (of_nat a) (of_nat b) = of_nat (Nat.max a b).
Proof. unfold of_nat. rewrite Math_max_of_Z. f_equal. lia. Qed.

Lemma sustainedStep_runStep (M : num) (st : nat * nat) (d : HeartRateData) :
  sustainedStep (Math_round (M * Fin 0.6)) (Math_round (M * Fin 0.7))
    (of_nat (fst st), of_nat (snd st)) d
  = (of_nat (fst (runStep (inAerobicWindow M) st d)),
     of_nat (snd (runStep (inAerobicWindow M) st d))).
Proof.
  destruct st as [mx cur]. unfold sustainedStep, runStep, inAerobicWindow.
  cbn [fst snd].
  destruct (if_truthy (heartRate d) _ false); cbn [fst snd].
  - now rewrite of_nat_succ, Math_max_of_nat.
  - reflexivity.
Qed.

Lemma foldl_sustainedStep (M : num) (data : list HeartRateData) :
  forall st : nat * nat,
    foldl (sustainedStep (Math_round (M * Fin 0.6)) (Math_round (M * Fin 0.7)))
      (of_nat (fst st), of_nat (snd st)) data
    = (of_nat (fst (foldl (runStep (inAerobicWindow M)) st data)),
       of_nat (snd (foldl (runStep (inAerobicWindow M)) st data))).
Proof.
  induction data as [| d data IH]; intros st; [reflexivity |].
  cbn [foldl]. rewrite sustainedStep_runStep. apply IH.
Qed.

Lemma sustainedAerobicOf_run (M : num) (data : list HeartRateData) :
  sustainedAerobicOf data M
  = percentage (fst (foldl (runStep (inAerobicWindow M)) (0%nat, 0%nat) data))
      (length data).
Proof.
  unfold sustainedAerobicOf, percentage. cbv zeta.
  change (Fin 0, Fin 0) with (of_nat (fst (0%nat, 0%nat)), of_nat (snd (0%nat, 0%nat))).
  now rewrite foldl_sustainedStep.
Qed.

End SustainedFacts.

(** *** Variance and score *)

Section VariabilityFacts.
Local Open Scope Q_scope.

Lemma foldl_Qplus_Qsum (qs : list Q) (a : Q) :
  foldl (fun acc x => acc + x) a qs == a + Qsum qs.
Proof.
  revert a. induction qs as [| q qs IH]; intros a.
  - unfold Qsum. cbn [foldl foldr]. ring.
  - cbn [foldl]. rewrite IH. unfold Qsum. cbn [foldr]. ring.
Qed.

Lemma foldl_squares_Qsum (m m' : Q) (qs : list Q) (a : Q) :
  m == m' ->
  foldl (fun acc x => acc + (x - m) * (x - m)) a qs
  == a + Qsum ((fun x => (x - m') * (x - m')) <$> qs).
Proof.
  intros Hm. revert a. induction qs as [| q qs IH]; intros a.
  - unfold Qsum. cbn [foldl fmap list_fmap foldr]. ring.
  - cbn [foldl]. rewrite IH. unfold Qsum. cbn [fmap list_fmap foldr].
    rewrite Hm. ring.
Qed.

Lemma sum_Fin (qs : list Q) :
  sum (Fin <$> qs) = Fin (foldl (fun acc x => acc + x) 0 qs).
Proof.
  unfold sum. generalize 0 at 1 2 as a.
  induction qs as [| q qs IH]; intros a; [reflexivity |].
  cbn [fmap list_fmap foldl add]. apply IH.
Qed.

Lemma squares_Fin (m : Q) (qs : list Q) :
  foldl (fun sum hr => (sum + Math_pow2 (hr - Fin m))%num) (Fin 0) (Fin <$> qs)
  = Fin (foldl (fun acc x => acc + (x - m) * (x - m)) 0 qs).
Proof.
  generalize 0 at 1 2 as a.
  induction qs as [| q qs IH]; intros a; [reflexivity |].
  cbn [fmap list_fmap foldl]. apply IH.
Qed.

Lemma Qsum_nonneg (qs : list Q) : Forall (fun q => 0 <= q) qs -> 0 <= Qsum qs.
Proof.
  induction 1 as [| q qs Hq _ IH]; unfold Qsum in *; cbn [foldr]; lra.
Qed.

Lemma Qsum_zero (qs : list Q) : Forall (fun q => q == 0) qs -> Qsum qs == 0.
Proof.
  induction 1 as [| q qs Hq _ IH]; unfold Qsum in *; cbn [foldr]; lra.
Qed.

Lemma Qsum_const (c : Q) (qs : list Q) :
  Forall (fun q => q == c) qs ->
  Qsum qs == inject_Z (Z.of_nat (length qs)) * c.
Proof.
  induction 1 as [| q qs Hq _ IH].
  - unfold Qsum. cbn [foldr length Z.of_nat]. change (inject_Z 0) with 0. ring.
  - unfold Qsum in *. cbn [foldr length]. rewrite IH, Hq.
    rewrite Nat2Z.inj_succ. unfold Z.succ. rewrite inject_Z_plus.
    change (inject_Z 1) with 1. ring.
Qed.

Lemma popVariance_nonneg (qs : list Q) : 0 <= popVariance qs.
Proof.
  unfold popVariance. cbv zeta.
  destruct qs as [| q qs].
  - apply Qle_bool_iff. reflexivity.
  - apply Qle_shift_div_l.
    + apply inject_Z_of_nat_pos. cbn; lia.
    + rewrite Qmult_0_l. apply Qsum_nonneg.
      apply Forall_fmap, Forall_forall. intros x _. cbn.
      set (y := x - _). nra.
Qed.

Lemma popVariance_const (c : Q) (qs : list Q) :
  qs <> [] -> Forall (fun q => q == c) qs -> popVariance qs == 0.
Proof.
  intros Hne Hc. unfold popVariance. cbv zeta.
  pose proof (inject_Z_of_nat_pos (length qs) (nonempty_length_pos qs Hne)) as Hn.
  set (n := inject_Z (Z.of_nat (length qs))) in *.
  assert (Hmean : Qsum qs / n == c).
  { rewrite (Qsum_const c qs Hc). fold n. field. lra. }
  assert (Hz : Qsum ((fun x => (x - Qsum qs / n) * (x - Qsum qs / n)) <$> qs) == 0).
  { apply Qsum_zero. apply Forall_fmap.
    eapply Forall_impl; [exact Hc |]. cbn. intros x Hx.
    rewrite Hmean, Hx. ring. }
  rewrite Hz. field. lra.
Qed.

(** The value the code computes for finite non-null readings. *)
Lemma hrVariabilityOf_Fin (qs : list Q) :
  (2 <= length qs)%nat ->
  exists v : Q,
    hrVariabilityOf (Fin <$> qs) = Some (Math_round_sqrt (Fin v))
    /\ v == popVariance qs.
Proof.
  intros Hlen. unfold hrVariabilityOf. rewrite length_fmap.
  assert (Hlt : (1 <? length qs)%nat = true) by (apply Nat.ltb_lt; lia).
  rewrite Hlt. cbv zeta.
  pose proof (inject_Z_of_nat_pos (length qs) ltac:(lia)) as Hn.
  rewrite sum_Fin. unfold of_nat, of_Z. rewrite div_Fin by lra.
  rewrite squares_Fin. rewrite div_Fin by lra.
  eexists. split; [reflexivity |].
  unfold popVariance. cbv zeta.
  set (n := inject_Z (Z.of_nat (length qs))) in *.
  assert (Hm : foldl (fun acc x => acc + x) 0 qs / n == Qsum qs / n).
  { rewrite foldl_Qplus_Qsum. field. lra. }
  rewrite (foldl_squares_Qsum _ _ qs 0 Hm). field. lra.
Qed.

Lemma Math_round_sqrt_proper (v w : Q) :
  v == w -> Math_round_sqrt (Fin v) = Math_round_sqrt (Fin w).
Proof.
  intros H. cbn [Math_round_sqrt].
  assert (Hb : Qle_bool 0 v = Qle_bool 0 w).
  { destruct (Qle_bool 0 w) eqn:E.
    - apply Qle_bool_iff. apply Qle_bool_iff in E. lra.
    - apply not_true_iff_false. apply not_true_iff_false in E.
      rewrite Qle_bool_iff in *. lra. }
  rewrite Hb. assert (Hf : Qfloor (4 * v) = Qfloor (4 * w)) by now rewrite H.
  now rewrite Hf.
Qed.

End VariabilityFacts.

Section ScoreFacts.
Local Open Scope Q_scope.

Lemma finiteIn_of_Z (lo hi : Z) (z : Z) :
  (lo <= z <= hi)%Z -> finiteIn (inject_Z lo) (inject_Z hi) (of_Z z).
Proof.
  intros [H1 H2]. exists (inject_Z z). split; [reflexivity |].
  now rewrite <- !Zle_Qle.
Qed.

Lemma Math_min_cap (q : Q) :
  0 <= q -> finiteIn 0 100 (Math_min (Fin q) (Fin 100)).
Proof.
  intros Hq. unfold Math_min. cbn [leb].
  destruct (Qle_bool q 100) eqn:E.
  - apply Qle_bool_iff in E. exists q. auto.
  - exists 100. repeat split; lra.
Qed.

Lemma durationScoreOf_range (d : Q) :
  0 <= d -> finiteIn 0 100 (durationScoreOf (Fin d)).
Proof.
  intros Hd. unfold durationScoreOf. rewrite div_Fin by lra. cbn [mul].
  apply Math_min_cap.
  assert (0 <= d / 3600) by (apply Qle_shift_div_l; lra). lra.
Qed.

(** [Math.min((count / Math.max(n / per, 1)) * 100, 100)]. *)
Lemma rateScore_range (count n : nat) (per : Q) :
  0 < per ->
  finiteIn 0 100
    (Math_min ((of_nat count / Math_max (of_nat n / Fin per) (Fin 1)) * Fin 100)%num
       (Fin 100)).
Proof.
  intros Hper. unfold of_nat, of_Z. rewrite div_Fin by lra.
  assert (Hden : exists dm, Math_max (Fin (inject_Z (Z.of_nat n) / per)) (Fin 1) = Fin dm
                            /\ 1 <= dm).
  { unfold Math_max. cbn [leb].
    destruct (Qle_bool (inject_Z (Z.of_nat n) / per) 1) eqn:E.
    - exists 1. split; [reflexivity | lra].
    - apply not_true_iff_false in E. rewrite Qle_bool_iff in E.
      eexists. split; [reflexivity | lra]. }
  destruct Hden as (dm & -> & Hdm).
  rewrite div_Fin by lra. cbn [mul]. apply Math_min_cap.
  assert (0 <= inject_Z (Z.of_nat count)).
  { change 0 with (inject_Z 0). rewrite <- Zle_Qle. lia. }
  assert (0 <= inject_Z (Z.of_nat count) / dm)
    by (apply Qle_shift_div_l; lra).
  lra.
Qed.

Lemma variabilityScore_range (hv : option num) :
  (hv = None \/ exists k : Z, hv = Some (of_Z k) /\ (0 <= k)%Z) ->
  finiteIn 0 100
    (if_truthy hv (fun v => Math_min ((v / Fin 30) * Fin 100)%num (Fin 100))
       (Fin 50)).
Proof.
  intros [-> | (k & -> & Hk)].
  - exists 50. repeat split; lra.
  - cbn [if_truthy]. destruct (truthy (of_Z k)).
    + unfold of_Z. rewrite div_Fin by lra. cbn [mul]. apply Math_min_cap.
      assert (0 <= inject_Z k) by (change 0 with (inject_Z 0); now rewrite <- Zle_Qle).
      assert (0 <= inject_Z k / 30) by (apply Qle_shift_div_l; lra). lra.
    + exists 50. repeat split; lra.
Qed.

Lemma sustainedOrZero_range (su : option num) :
  (exists p : Z, su = Some (of_Z p) /\ (0 <= p <= 100)%Z) ->
  finiteIn 0 100 (if_truthy su (fun v => v) (Fin 0)).
Proof.
  intros (p & -> & Hp). cbn [if_truthy]. destruct (truthy (of_Z p)).
  - apply (finiteIn_of_Z 0 100). exact Hp.
  - exists 0. repeat split; lra.
Qed.

Lemma round_score (x : Q) :
  0 <= x -> x <= 100.3 ->
  exists s : Z, Math_round (Fin x) = of_Z s /\ (0 <= s <= 100)%Z.
Proof.
  intros H0 H1. cbn [Math_round]. eexists. split; [reflexivity |]. split.
  - rewrite <- (round_half_up_Z 0) at 1. apply round_half_up_mono.
    change (inject_Z 0) with 0. exact H0.
  - apply round_half_up_le_below. change (inject_Z (100 + 1)) with 101. lra.
Qed.

(** The weighted sum of every workout type stays within 0..100 when its
    ingredients are in range. *)
Lemma scoreOf_range (T : WorkoutType) (n : nat) (avg mx : num)
    (tz : gmap string num) (ws : WorkoutSpecific) (D : num) :
  finiteIn 0 100 avg -> finiteIn 0 100 mx ->
  finiteIn 0 101 (to_number (tz !! "anaerobic") + to_number (tz !! "max"))%num ->
  finiteIn 0 100 (to_number (tz !! "aerobic")) ->
  (hrVariability ws = None
   \/ exists k : Z, hrVariability ws = Some (of_Z k) /\ (0 <= k)%Z) ->
  (exists ps : nat, peakSpikes ws = Some (of_nat ps)) ->
  (exists p : Z, sustainedAerobic ws = Some (of_Z p) /\ (0 <= p <= 100)%Z) ->
  (exists t : nat, zoneTransitions ws = Some (of_nat t)) ->
  finiteIn 0 100 (durationScoreOf D) ->
  exists s : Z, scoreOf T n avg mx tz ws D = of_Z s /\ (0 <= s <= 100)%Z.
Proof.
  intros (qa & -> & Ha0 & Ha1) (qm & -> & Hm0 & Hm1) (qh & Hh & Hh0 & Hh1)
         (qe & He & He0 & He1) Hhv (ps & Hps) Hsu (t & Ht) (qd & Hd & Hd0 & Hd1).
  destruct (variabilityScore_range _ Hhv) as (qv & Hv & Hv0 & Hv1).
  destruct (sustainedOrZero_range _ Hsu) as (qs & Hs & Hs0 & Hs1).
  destruct (rateScore_range ps n 10 ltac:(lra)) as (qp & Hp & Hp0 & Hp1).
  destruct (rateScore_range t n 5 ltac:(lra)) as (qt & Hqt & Ht0 & Ht1).
  unfold scoreOf. cbv zeta. rewrite Hh, He, Hd, Hv, Hs, Hps, Ht.
  cbn [to_number]. rewrite Hp, Hqt.
  destruct T; cbn [mul add]; apply round_score; lra.
Qed.

End ScoreFacts.

Section ScoreIngredients.

Lemma toPercentages_lookup (data : list HeartRateData) (zones : Zones)
    (key : string) :
  key ∈ zoneKeys ->
  toPercentages (of_nat (length data)) (zoneCounts data zones) !! key
  = Some (percentage (samplesIn zones key data) (length data)).
Proof.
  intros Hin. unfold toPercentages.
  now rewrite lookup_fmap, zoneCounts_lookup by exact Hin.
Qed.

Lemma average_and_max_of_valid (M : Q) (data : list HeartRateData) :
  (1 <= M)%Q -> data <> [] -> Forall (validReading M) data ->
  finiteIn 0 100 (sum (intensities data (Fin M))
                  / of_nat (length (intensities data (Fin M))))
  /\ finiteIn 0 100 (Math_max_spread (intensities data (Fin M))).
Proof.
  intros HM Hne Hvalid.
  destruct (intensities_of_valid M data HM Hvalid) as (ints & His & Hlen & Hall).
  rewrite His.
  destruct ints as [| i ints]; [destruct data; [congruence | discriminate] |].
  destruct (Math_max_spread_of_Z i ints) as (m & Hm & Hin & Hle).
  rewrite Hm, sum_of_Z, length_fmap.
  pose proof (inject_Z_of_nat_pos (length (i :: ints)) ltac:(cbn; lia)) as Hn.
  pose proof (sumZ_bounds (i :: ints) 0 100 Hall) as Hsum.
  split.
  - unfold of_nat, of_Z. rewrite div_Fin by lra.
    eexists. split; [reflexivity |].
    set (n := Z.of_nat (length (i :: ints))) in *.
    split.
    + apply Qle_shift_div_l; [exact Hn |].
      rewrite Qmult_0_l. change 0%Q with (inject_Z 0). rewrite <- Zle_Qle. lia.
    + apply Qle_shift_div_r; [exact Hn |].
      change 100%Q with (inject_Z 100).
      rewrite <- inject_Z_mult, <- Zle_Qle. lia.
  - apply (finiteIn_of_Z 0 100). rewrite Forall_forall in Hall. now apply Hall.
Qed.

Lemma validHRs_of_valid (M : Q) (data : list HeartRateData) :
  Forall (validReading M) data -> exists qs : list Q, validHRs data = Fin <$> qs.
Proof.
  induction 1 as [| d data Hd _ (qs & Hqs)]; [now exists [] |].
  unfold validHRs in *. cbn [omap list_omap].
  destruct Hd as [-> | (q & -> & _)].
  - exists qs. exact Hqs.
  - exists (q :: qs). now rewrite Hqs.
Qed.

Lemma hrVariabilityOf_of_valid (qs : list Q) :
  hrVariabilityOf (Fin <$> qs) = None
  \/ exists k : Z, hrVariabilityOf (Fin <$> qs) = Some (of_Z k) /\ (0 <= k)%Z.
Proof.
  destruct (le_lt_dec 2 (length qs)) as [Hlen | Hlen].
  - right. destruct (hrVariabilityOf_Fin qs Hlen) as (v & Hv & Heq).
    destruct (Math_round_sqrt_spec (popVariance qs) (popVariance_nonneg qs))
      as (k & Hk & Hk0 & _).
    exists k. now rewrite Hv, (Math_round_sqrt_proper v _ Heq), Hk.
  - left. unfold hrVariabilityOf. rewrite length_fmap.
    assert (H : (1 <? length qs)%nat = false) by (apply Nat.ltb_ge; lia).
    now rewrite H.
Qed.

Lemma highIntensity_range (data : list HeartRateData) (zones : Zones) :
  data <> [] ->
  let tz := toPercentages (of_nat (length data)) (zoneCounts data zones) in
  finiteIn 0 101 (to_number (tz !! "anaerobic") + to_number (tz !! "max"))
  /\ finiteIn 0 100 (to_number (tz !! "aerobic")).
Proof.
  intros Hne tz. subst tz.
  rewrite !toPercentages_lookup by (unfold zoneKeys; set_solver).
  cbn [to_number].
  pose proof (nonempty_length_pos data Hne) as Hn.
  pose proof (samplesIn_total zones data) as Htot.
  pose proof (countedHRs_length_le data) as Hle.
  destruct (percentage_range (samplesIn zones "aerobic" data) (length data)
              (samplesIn_le _ _ _) Hn) as (p3 & -> & R3 & _).
  destruct (percentage_range (samplesIn zones "anaerobic" data) (length data)
              (samplesIn_le _ _ _) Hn) as (p4 & -> & R4 & U4 & _).
  destruct (percentage_range (samplesIn zones "max" data) (length data)
              (samplesIn_le _ _ _) Hn) as (p5 & -> & R5 & U5 & _).
  split; [| apply (finiteIn_of_Z 0 100); exact R3].
  rewrite add_of_Z. apply (finiteIn_of_Z 0 101).
  split; [lia |].
  pose proof (inject_Z_of_nat_pos (length data) Hn) as Hnq.
  set (n := inject_Z (Z.of_nat (length data))) in *.
  set (c4 := inject_Z (Z.of_nat (samplesIn zones "anaerobic" data))) in *.
  set (c5 := inject_Z (Z.of_nat (samplesIn zones "max" data))) in *.
  assert (Hc : (c4 + c5 <= n)%Q).
  { subst c4 c5 n. rewrite <- inject_Z_plus, <- Zle_Qle. lia. }
  assert (Hsum : (c4 / n * 100 + c5 / n * 100 == (c4 + c5) / n * 100)%Q)
    by (field; lra).
  assert (Hr : ((c4 + c5) / n <= 1)%Q).
  { apply Qle_shift_div_r; [exact Hnq | lra]. }
  assert (Hq : (inject_Z (p4 + p5) < inject_Z 102)%Q).
  { rewrite inject_Z_plus. change (inject_Z 102) with 102%Q. lra. }
  rewrite <- Zlt_Qlt in Hq. lia.
Qed.

End ScoreIngredients.

(** *** Sums and maxima under reordering *)

Section OrderFacts.

Lemma Math_round_integral (x : num) : integral (Math_round x).
Proof. destruct x; cbn [Math_round]; constructor. Qed.

Lemma intensities_integral (data : list HeartRateData) (M : num) :
  Forall integral (intensities data M).
Proof.
  unfold intensities. apply Forall_fmap, Forall_forall. intros d _.
  unfold compose, if_truthy. destruct (heartRate d) as [hr |];
    [| apply (integral_Z 0)].
  destruct (truthy hr) eqn:Ht; [| apply (integral_Z 0)].
  unfold getEffortLevel.
  repeat match goal with
         | |- context [if ?b then _ else _] => destruct b
         end; cbn [intensity]; apply Math_round_integral.
Qed.

Lemma add_integral (a b : num) : integral a -> integral b -> integral (a + b).
Proof.
  intros [x | | |] [y | | |]; rewrite ?add_of_Z; try constructor;
    cbn; constructor.
Qed.

Lemma add_swap_integral (acc a b : num) :
  integral acc -> integral a -> integral b ->
  acc + a + b = acc + b + a.
Proof.
  intros [x | | |] [y | | |] [z | | |]; try reflexivity;
    rewrite ?add_of_Z; try reflexivity.
  f_equal. lia.
Qed.

Lemma foldl_add_permutation (l l' : list num) :
  l ≡ₚ l' ->
  forall acc : num,
    integral acc -> Forall integral l -> foldl add acc l = foldl add acc l'.
Proof.
  induction 1 as [| x l l' Hp IH | x y l | l l' l'' Hp1 IH1 Hp2 IH2];
    intros acc Hacc Hall.
  - reflexivity.
  - apply Forall_cons in Hall as [Hx Hall]. cbn [foldl].
    apply IH; [now apply add_integral | exact Hall].
  - apply Forall_cons in Hall as [Hy Hall].
    apply Forall_cons in Hall as [Hx Hall]. cbn [foldl].
    now rewrite (add_swap_integral acc y x).
  - rewrite IH1 by assumption. apply IH2; [exact Hacc |].
    now rewrite <- Hp1.
Qed.

Lemma Math_max_integral (a b : num) :
  integral a -> integral b -> integral (Math_max a b).
Proof.
  intros [x | | |] [y | | |]; rewrite ?Math_max_of_Z; try constructor;
    cbn; constructor.
Qed.

Lemma Math_max_Z_special (x : Z) :
  Math_max (of_Z x) PInf = PInf /\ Math_max PInf (of_Z x) = PInf
  /\ Math_max (of_Z x) NInf = of_Z x /\ Math_max NInf (of_Z x) = of_Z x
  /\ Math_max (of_Z x) NaN = NaN /\ Math_max NaN (of_Z x) = NaN.
Proof. repeat split. Qed.

Lemma Math_max_swap_integral (a b r : num) :
  integral a -> integral b -> integral r ->
  Math_max a (Math_max b r) = Math_max b (Math_max a r).
Proof.
  intros [x | | |] [y | | |] [z | | |];
    repeat first
      [ rewrite Math_max_of_Z
      | rewrite (proj1 (Math_max_Z_special _))
      | rewrite (proj1 (proj2 (Math_max_Z_special _)))
      | rewrite (proj1 (proj2 (proj2 (Math_max_Z_special _))))
      | rewrite (proj1 (proj2 (proj2 (proj2 (Math_max_Z_special _)))))
      | rewrite (proj1 (proj2 (proj2 (proj2 (proj2 (Math_max_Z_special _))))))
      | rewrite (proj2 (proj2 (proj2 (proj2 (proj2 (Math_max_Z_special _))))))
      | progress change (Math_max PInf PInf) with PInf
      | progress change (Math_max PInf NInf) with PInf
      | progress change (Math_max NInf PInf) with PInf
      | progress change (Math_max NInf NInf) with NInf
      | progress change (Math_max PInf NaN) with NaN
      | progress change (Math_max NInf NaN) with NaN
      | progress change (Math_max NaN PInf) with NaN
      | progress change (Math_max NaN NInf) with NaN
      | progress change (Math_max NaN NaN) with NaN ];
    try reflexivity.
  all: f_equal; lia.
Qed.

Lemma Math_max_spread_integral (l : list num) :
  Forall integral l -> integral (Math_max_spread l).
Proof.
  induction 1 as [| x l Hx _ IH]; [constructor |].
  now apply Math_max_integral.
Qed.

Lemma Math_max_spread_permutation (l l' : list num) :
  l ≡ₚ l' -> Forall integral l -> Math_max_spread l = Math_max_spread l'.
Proof.
  unfold Math_max_spread.
  induction 1 as [| x l l' Hp IH | x y l | l l' l'' Hp1 IH1 Hp2 IH2];
    intros Hall.
  - reflexivity.
  - apply Forall_cons in Hall as [Hx Hall]. cbn [foldr]. now rewrite IH.
  - apply Forall_cons in Hall as [Hy Hall].
    apply Forall_cons in Hall as [Hx Hall]. cbn [foldr].
    apply Math_max_swap_integral; try assumption.
    now apply Math_max_spread_integral.
  - rewrite IH1 by assumption. apply IH2. now rewrite <- Hp1.
Qed.

Lemma filter_length_permutation {A : Type} (p : A -> bool) (l l' : list A) :
  l ≡ₚ l' -> length (List.filter p l) = length (List.filter p l').
Proof.
  induction 1 as [| x l l' Hp IH | x y l | l l' l'' Hp1 IH1 Hp2 IH2].
  - reflexivity.
  - cbn [List.filter]. destruct (p x); cbn [length]; now rewrite IH.
  - cbn [List.filter]. destruct (p x), (p y); reflexivity.
  - congruence.
Qed.

Lemma zoneCounts_permutation (data data' : list HeartRateData) (zones : Zones) :
  data ≡ₚ data' -> zoneCounts data zones = zoneCounts data' zones.
Proof.
  intros Hp. apply map_eq. intros key.
  destruct (decide (key ∈ zoneKeys)) as [Hin | Hout].
  - rewrite !zoneCounts_lookup by exact Hin. do 2 f_equal.
    unfold samplesIn. now apply filter_length_permutation.
  - now rewrite !zoneCounts_lookup_other.
Qed.

End OrderFacts.

(** *** The classifier's scale *)

Section ScaleFacts.
Local Open Scope Q_scope.

Lemma description_of_zone (hr M : num) :
  let r := getEffortLevel hr M in
  (zone r = "Recovery" -> description r = "Very Light")
  /\ (zone r = "Fat Burn" -> description r = "Light")
  /\ (zone r = "Aerobic" -> description r = "Moderate")
  /\ (zone r = "Anaerobic" -> description r = "Hard")
  /\ (zone r = "Max" -> description r = "Maximum").
Proof.
  unfold getEffortLevel. cbv zeta.
  repeat match goal with
         | |- context [if ?b then _ else _] => destruct b
         end; cbn [zone description]; repeat split; congruence.
Qed.

Lemma bandScale_top (base : Z) (lo hi : Q) :
  lo < hi -> bandScale base lo hi hi = (base + 20)%Z.
Proof.
  intros H. unfold bandScale.
  assert (E : inject_Z base + (hi - lo) / (hi - lo) * 20 == inject_Z (base + 20)).
  { rewrite inject_Z_plus. change (inject_Z 20) with 20. field. lra. }
  unfold round_half_up. rewrite E. fold (round_half_up (inject_Z (base + 20))).
  apply round_half_up_Z.
Qed.

Lemma edge_top_lt (M : Q) : 4 <= M -> edge M 0.85 < M.
Proof.
  intros HM. unfold edge.
  pose proof (Qfloor_le (M * 0.85 + 0.5)) as H. unfold round_half_up. lra.
Qed.

End ScaleFacts.

(** Range of the intensity in each band that [hr] can lie in. *)
Ltac scale_ranges M hr Hpos :=
  try pose proof (recovery_range (edge M 0.5%Q) hr
                    ltac:(lra) ltac:(lra) Hpos);
  try pose proof (bandScale_range 20 (edge M 0.5%Q) (edge M 0.6%Q) hr
                    ltac:(lra) ltac:(lra) ltac:(lra));
  try pose proof (bandScale_range 40 (edge M 0.6%Q) (edge M 0.7%Q) hr
                    ltac:(lra) ltac:(lra) ltac:(lra));
  try pose proof (bandScale_range 60 (edge M 0.7%Q) (edge M 0.85%Q) hr
                    ltac:(lra) ltac:(lra) ltac:(lra));
  try pose proof (bandScale_range 80 (edge M 0.85%Q) M hr
                    ltac:(lra) ltac:(lra) ltac:(lra)).

Section WindowFacts.

Lemma percentage_all (n : nat) : (0 < n)%nat -> percentage n n = Fin 100.
Proof.
  intros Hn. unfold percentage, of_nat, of_Z.
  pose proof (inject_Z_of_nat_pos n Hn) as Hq.
  rewrite div_Fin by lra. cbn [mul Math_round].
  assert (E : (inject_Z (Z.of_nat n) / inject_Z (Z.of_nat n) * 100
               == inject_Z 100)%Q).
  { change (inject_Z 100) with 100%Q. field. lra. }
  unfold round_half_up. rewrite E.
  fold (round_half_up (inject_Z 100)). now rewrite round_half_up_Z.
Qed.

Lemma percentage_none (n : nat) : (0 < n)%nat -> percentage 0 n = Fin 0.
Proof.
  intros Hn. unfold percentage, of_nat, of_Z.
  pose proof (inject_Z_of_nat_pos n Hn) as Hq.
  rewrite div_Fin by lra. cbn [mul Math_round].
  assert (E : (inject_Z (Z.of_nat 0) / inject_Z (Z.of_nat n) * 100
               == inject_Z 0)%Q).
  { change (inject_Z (Z.of_nat 0)) with 0%Q. change (inject_Z 0) with 0%Q.
    field. lra. }
  unfold round_half_up. rewrite E.
  fold (round_half_up (inject_Z 0)). now rewrite round_half_up_Z.
Qed.

Lemma longestRun_all {A : Type} (p : A -> bool) (l : list A) (run : nat) :
  longestRun p l run -> Forall (fun a => p a = true) l -> run = length l.
Proof.
  intros [(l1 & b & l2 & -> & <- & _) Hmax] Hall.
  specialize (Hmax [] _ [] ltac:(now rewrite app_nil_r) Hall).
  rewrite !length_app in *. lia.
Qed.

Lemma samplesIn_all (zones : Zones) (key : string) (data : list HeartRateData) :
  Forall (fun d => bucketOf zones d = Some key) data ->
  samplesIn zones key data = length data.
Proof.
  induction 1 as [| d data Hd _ IH]; [reflexivity |].
  rewrite samplesIn_cons, IH, Hd, bool_decide_eq_true_2 by reflexivity.
  reflexivity.
Qed.

Lemma samplesIn_none (zones : Zones) (key : string) (data : list HeartRateData) :
  Forall (fun d => bucketOf zones d <> Some key) data ->
  samplesIn zones key data = 0%nat.
Proof.
  induction 1 as [| d data Hd _ IH]; [reflexivity |].
  rewrite samplesIn_cons, IH, bool_decide_eq_false_2 by exact Hd.
  reflexivity.
Qed.

(** A reading exactly on the lower edge of the aerobic band. *)
Lemma aerobic_lower_edge (M : Q) (d : HeartRateData) :
  (10 <= M)%Q ->
  heartRate d = Some (Band.min (aerobic (calculateHeartRateZones (Fin M)))) ->
  inAerobicWindow (Fin M) d = true
  /\ bucketOf (calculateHeartRateZones (Fin M)) d = Some "fatBurn".
Proof.
  intros HM Hd.
  assert (HM1 : (1 <= M)%Q) by lra.
  pose proof (edge_half_positive M HM1) as Hpos.
  destruct (edges_ordered M ltac:(lra)) as (O1 & O2 & O3).
  destruct (edges_strict M HM) as (S1 & S2 & S3).
  cbn [calculateHeartRateZones aerobic Band.min mul Math_round] in Hd.
  change (of_Z (round_half_up (M * 0.6))) with (Fin (edge M 0.6)) in Hd.
  unfold inAerobicWindow, bucketOf. rewrite Hd. cbn [if_truthy mul Math_round].
  rewrite truthy_Fin by lra.
  change (of_Z (round_half_up (M * 0.6))) with (Fin (edge M 0.6)).
  change (of_Z (round_half_up (M * 0.7))) with (Fin (edge M 0.7)).
  split.
  - unfold geb. apply andb_true_intro. split; apply leb_Fin_true; lra.
  - f_equal.
    destruct (classification_finite M (edge M 0.6) HM1)
      as [(A & _) | [(_ & _ & (_ & K) & _)
         | [(_ & A & _) | [(_ & A & _) | (_ & A & _)]]]];
      try (exfalso; lra).
    exact K.
Qed.

End WindowFacts.

(** ** Facts about the monitor and the screens *)

Section MonitorFacts.
Context {C : Type}.
Import HeartRateMonitor.

Lemma perform_deliveries (calls : list (Call C)) :
  forall (m : HeartRateMonitor.t C) (log : list (C * HeartRateData))
         (current : option C),
    monitorHolds current m ->
    exists current' : option C,
      monitorHolds current' (fst (foldl perform (m, log) calls))
      /\ snd (foldl perform (m, log) calls) = log ++ deliveries current calls.
Proof.
  induction calls as [| call calls IH]; intros m log current Hm.
  - exists current. cbn. now rewrite app_nil_r.
  - destruct Hm as (Hcb & Hmode & Hint). cbn [foldl].
    destruct call as [onUpdate | hr now |]; cbn [perform fst snd deliveries].
    + apply IH. unfold startMonitoring, isAvailable. cbn.
      split; [reflexivity |]. split; [| exact Hint].
      now rewrite bool_decide_eq_true_2 by eauto.
    + unfold addManualReading. rewrite Hcb, Hmode.
      destruct current as [callback |].
      * rewrite bool_decide_eq_true_2 by eauto. cbn [option_list].
        destruct (IH m (log ++ [(callback,
                    {| HeartRateService.heartRate := Some (Math_round hr);
                       timestamp := now |})]) (Some callback))
          as (current' & Hm' & Hlog).
        { split; [exact Hcb |]. split; [exact Hmode | exact Hint]. }
        exists current'. split; [exact Hm' |].
        cbn [fst snd] in *. rewrite Hlog. now rewrite <- app_assoc.
      * apply IH. split; [exact Hcb |]. split; [exact Hmode | exact Hint].
    + apply IH. unfold stopMonitoring. cbn. rewrite Hint.
      split; [reflexivity |]. split; [| reflexivity].
      now rewrite bool_decide_eq_false_2 by (intros [? ?]; discriminate).
Qed.

End MonitorFacts.

Section StartFacts.
Import JsMath.

(** The range test of the two fields. *)
Lemma range_test_passed (x : num) (lo hi : Q) :
  isNaN x || (x <? Fin lo) || (x >? Fin hi) = false ->
  exists q : Q, x = Fin q /\ (lo <= q)%Q /\ (q <= hi)%Q.
Proof.
  intros H. apply orb_false_iff in H as [H Hhi].
  apply orb_false_iff in H as [Hnan Hlo].
  destruct x as [q | | |]; try discriminate.
  exists q. split; [reflexivity |].
  unfold gtb in Hhi. cbn [ltb] in Hlo, Hhi.
  apply negb_false_iff in Hlo, Hhi.
  apply Qle_bool_iff in Hlo, Hhi. now split.
Qed.

Lemma truthy_string_spec (s : string) :
  truthy_string s = true <-> s <> "".
Proof.
  unfold truthy_string. rewrite negb_true_iff. split.
  - intros H ->. discriminate.
  - intros H. apply String.eqb_neq. exact H.
Qed.

(** From maxHeartRate 10 on, every band of the zone table is non-empty. *)
Lemma bands_nonempty (M : Q) :
  (10 <= M)%Q ->
  Forall (fun b => (Band.min b <? Band.max b) = true)
         (bandsOf (calculateHeartRateZones (Fin M))).
Proof.
  intros HM.
  pose proof (edge_half_positive M ltac:(lra)) as H0.
  destruct (edges_strict M HM) as (H1 & H2 & H3).
  pose proof (edge_top_lt M ltac:(lra)) as H4.
  unfold bandsOf, calculateHeartRateZones.
  cbn [recovery fatBurn aerobic anaerobic HeartRateService.max mul Math_round].
  fold (edge M 0.5) (edge M 0.6) (edge M 0.7) (edge M 0.85).
  repeat constructor; cbn [Band.min Band.max]; now apply ltb_Fin_true.
Qed.

End StartFacts.

Section EndFacts.
Import JsMath.

Lemma validHRs_withReading (history : list HeartRateData) :
  omap heartRate (withReading history) = validHRs history.
Proof.
  unfold validHRs, withReading.
  induction history as [| d history IH]; [reflexivity |].
  cbn [List.filter omap list_omap]. destruct (heartRate d) as [hr |] eqn:E.
  - cbn [omap list_omap]. rewrite E. now f_equal.
  - exact IH.
Qed.

Lemma length_withReading (history : list HeartRateData) :
  length (withReading history) = length (validHRs history).
Proof.
  unfold validHRs, withReading.
  induction history as [| d history IH]; [reflexivity |].
  cbn [List.filter omap list_omap]. destruct (heartRate d) as [hr |].
  - cbn [length]. now f_equal.
  - exact IH.
Qed.

(** A sample without reading is in no zone's count. *)
Lemma samplesIn_withReading (zones : Zones) (key : string)
    (history : list HeartRateData) :
  samplesIn zones key (withReading history) = samplesIn zones key history.
Proof.
  unfold withReading.
  induction history as [| d history IH]; [reflexivity |].
  cbn [List.filter]. destruct (heartRate d) as [hr |] eqn:E.
  - rewrite !samplesIn_cons. now rewrite IH.
  - rewrite samplesIn_cons, IH.
    rewrite bool_decide_eq_false_2; [reflexivity |].
    unfold bucketOf. rewrite E. discriminate.
Qed.

Lemma Math_min_of_Z (a b : Z) : Math_min (of_Z a) (of_Z b) = of_Z (Z.min a b).
Proof.
  unfold Math_min, of_Z. cbn [leb].
  destruct (Qle_bool (inject_Z a) (inject_Z b)) eqn:E.
  - apply Qle_bool_iff in E. rewrite <- Zle_Qle in E. now rewrite Z.min_l.
  - apply not_true_iff_false in E. rewrite Qle_bool_iff, <- Zle_Qle in E.
    rewrite Z.min_r by lia. reflexivity.
Qed.

Lemma Math_min_spread_of_Z (z : Z) (zs : list Z) :
  exists m : Z,
    Math_min_spread (of_Z <$> (z :: zs)) = of_Z m
    /\ m ∈ z :: zs
    /\ Forall (fun x => m <= x)%Z (z :: zs).
Proof.
  revert z. induction zs as [| y zs IH]; intros z.
  - exists z. split; [reflexivity |]. split; [left |].
    constructor; [lia | constructor].
  - destruct (IH y) as (m & Hm & Hin & Hall).
    change (Math_min_spread (of_Z <$> z :: y :: zs))
      with (Math_min (of_Z z) (Math_min_spread (of_Z <$> y :: zs))).
    rewrite Hm, Math_min_of_Z. exists (Z.min z m).
    split; [reflexivity |]. split.
    + destruct (Z.min_spec z m) as [[_ ->] | [_ ->]]; [left | now right].
    + constructor; [lia |].
      eapply Forall_impl; [exact Hall |]. cbn. intros x Hx. lia.
Qed.

(** The rounded mean of integers lies between two bounds of them. *)
Lemma rounded_mean_between (zs : list Z) (lo hi : Z) :
  zs <> [] ->
  Forall (fun z => lo <= z <= hi)%Z zs ->
  exists avg : Z,
    Math_round (sum (of_Z <$> zs) / of_nat (length (of_Z <$> zs))) = of_Z avg
    /\ (lo <= avg <= hi)%Z.
Proof.
  intros Hne Hall.
  rewrite sum_of_Z, length_fmap.
  pose proof (inject_Z_of_nat_pos (length zs) (nonempty_length_pos zs Hne)) as Hn.
  unfold of_nat, of_Z. rewrite div_Fin by lra. cbn [Math_round].
  eexists. split; [reflexivity |].
  pose proof (sumZ_bounds zs lo hi Hall) as [H1 H2].
  rewrite Zle_Qle, inject_Z_mult in H1, H2.
  apply round_half_up_between.
  - apply Qle_shift_div_l; [exact Hn | exact H1].
  - apply Qle_shift_div_r; [exact Hn | exact H2].
Qed.

End EndFacts.

Section ScreenFacts.
Import ActiveWorkoutState.
Variable parseInt : string -> num.
Variable toString : num -> string.

Lemma startWorkout_quiet (now0 now1 now2 : num) :
  quiet (startWorkout toString now1 now2 (initial now0)).
Proof. repeat split. Qed.

Lemma react_quiet (s : State) (e : Event) :
  quiet s -> quiet (react parseInt s e).
Proof.
  intros (Hh & Hr & Hm & Hs & Ha). unfold react.
  destruct e; cbn [offered]; rewrite ?Hm, ?Hs; repeat split; assumption.
Qed.

Lemma mounted_quiet (now0 now1 now2 : num) (events : list Event) :
  quiet (mounted parseInt toString now0 now1 now2 events).
Proof.
  unfold mounted.
  generalize (startWorkout_quiet now0 now1 now2).
  generalize (startWorkout toString now1 now2 (initial now0)).
  induction events as [| e events IH]; intros s Hs; [exact Hs |].
  cbn [foldl]. apply IH. now apply react_quiet.
Qed.

End ScreenFacts.

(** ** Facts for the percentages, unguarded arguments and the deviation *)

Section PercentageFacts.

Lemma classifiedIn_cons (zones : Zones) (key : string) (hr : num)
    (hrs : list num) :
  classifiedIn zones key (hr :: hrs)
  = ((if bool_decide (currentZoneOf zones hr = key) then 1 else 0)
     + classifiedIn zones key hrs)%nat.
Proof.
  unfold classifiedIn. cbn [List.filter].
  destruct (bool_decide (currentZoneOf zones hr = key)); reflexivity.
Qed.

(** The aggregator's count is the claim's count over the readings that are
    neither missing nor falsy. *)
Lemma samplesIn_classifiedIn (zones : Zones) (key : string)
    (data : list HeartRateData) :
  samplesIn zones key data = classifiedIn zones key (countedHRs data).
Proof.
  induction data as [| d data IH]; [reflexivity |].
  rewrite samplesIn_cons, IH.
  destruct (sample_counted_or_skipped d) as [(hr & Hhr & Ht) | Hskip].
  - rewrite (countedHRs_cons_counted d data hr Hhr Ht), classifiedIn_cons.
    f_equal. unfold bucketOf, if_truthy. rewrite Hhr, Ht.
    repeat case_bool_decide; congruence.
  - rewrite (countedHRs_cons_skip d data Hskip).
    rewrite bool_decide_eq_false_2; [reflexivity |].
    unfold bucketOf, if_truthy. unfold truthy_opt in Hskip.
    destruct (heartRate d) as [hr |]; [rewrite Hskip |]; discriminate.
Qed.

(** Without a reading of 0 or NaN the counted readings are the non-null
    ones. *)
Lemma countedHRs_validHRs (data : list HeartRateData) :
  Forall (fun d => heartRate d = None \/ truthy_opt (heartRate d) = true) data ->
  countedHRs data = validHRs data.
Proof.
  induction 1 as [| d data Hd _ IH]; [reflexivity |].
  unfold countedHRs, validHRs in *. cbn [omap list_omap].
  destruct Hd as [Hd | Hd].
  - rewrite Hd. cbn [if_truthy]. exact IH.
  - unfold truthy_opt in Hd. destruct (heartRate d) as [hr |]; [| discriminate].
    cbn [if_truthy]. rewrite Hd. now f_equal.
Qed.

(** A percentage is a nearest integer of [100 * count / total]. *)
Lemma percentage_nearest (c n : nat) :
  (c <= n)%nat -> (0 < n)%nat ->
  exists p : Z,
    percentage c n = of_Z p /\ (0 <= p <= 100)%Z
    /\ (inject_Z p - 0.5
        <= inject_Z (Z.of_nat c) / inject_Z (Z.of_nat n) * 100)%Q
    /\ (inject_Z (Z.of_nat c) / inject_Z (Z.of_nat n) * 100
        <= inject_Z p + 0.5)%Q.
Proof.
  intros Hc Hn.
  destruct (percentage_range c n Hc Hn) as (p & Hp & Hrange & Hup & Hlow).
  exists p. repeat split; try assumption; try lia; lra.
Qed.

Lemma classifiedIn_le (zones : Zones) (key : string) (data : list HeartRateData) :
  (classifiedIn zones key (countedHRs data) <= length data)%nat.
Proof. rewrite <- samplesIn_classifiedIn. apply samplesIn_le. Qed.

End PercentageFacts.

Section UnguardedFacts.

Lemma round_half_up_nonpos (x : Q) : (x <= 0)%Q -> (round_half_up x <= 0)%Z.
Proof.
  intros H. unfold round_half_up.
  change 0%Z with (Qfloor 0.5). apply Qfloor_resp_le. lra.
Qed.

(** With a maxHeartRate of 0 or less no band edge is positive. *)
Lemma above_nonpositive_edge (M f q : Q) :
  (M <= 0)%Q -> (0 <= f)%Q -> (0 < q)%Q ->
  (Fin q <=? Math_round (Fin M * Fin f)) = false.
Proof.
  intros HM Hf Hq. cbn [mul Math_round]. apply leb_Fin_false.
  pose proof (round_half_up_nonpos (M * f) ltac:(nra)) as H.
  rewrite Zle_Qle in H. change (inject_Z 0) with 0%Q in H. lra.
Qed.

Lemma truthy_positive (q : Q) : (0 < q)%Q -> truthy (Fin q) = true.
Proof.
  intros Hq. cbn [truthy]. rewrite Qzero_b_false; [reflexivity | lra].
Qed.

Lemma positive_reading_in_max (M : Q) (d : HeartRateData) :
  (M <= 0)%Q -> positiveReading d ->
  bucketOf (calculateHeartRateZones (Fin M)) d = Some "max"
  /\ inAerobicWindow (Fin M) d = false
  /\ if_truthy (heartRate d)
       (fun hr => hr >? Math_round (Fin M * Fin 0.85)) false = true
  /\ (exists hr : num,
         heartRate d = Some hr /\ zone (getEffortLevel hr (Fin M)) = "Max").
Proof.
  intros HM (q & Hd & Hq).
  pose proof (above_nonpositive_edge M 0.5 q HM ltac:(lra) Hq) as E1.
  pose proof (above_nonpositive_edge M 0.6 q HM ltac:(lra) Hq) as E2.
  pose proof (above_nonpositive_edge M 0.7 q HM ltac:(lra) Hq) as E3.
  pose proof (above_nonpositive_edge M 0.85 q HM ltac:(lra) Hq) as E4.
  pose proof (truthy_positive q Hq) as Ht.
  repeat split.
  - unfold bucketOf, if_truthy, currentZoneOf. rewrite Hd, Ht.
    cbn [calculateHeartRateZones recovery fatBurn aerobic anaerobic Band.max].
    now rewrite E1, E2, E3, E4.
  - unfold inAerobicWindow, if_truthy. rewrite Hd, Ht, E3.
    apply andb_false_r.
  - unfold if_truthy. rewrite Hd, Ht. unfold gtb.
    cbn [mul Math_round] in *. apply ltb_Fin_true.
    apply leb_Fin_false in E4. exact E4.
  - exists (Fin q). split; [exact Hd |].
    unfold getEffortLevel.
    cbn [calculateHeartRateZones recovery fatBurn aerobic anaerobic Band.max].
    now rewrite E1, E2, E3, E4.
Qed.

Lemma filter_all {A : Type} (p : A -> bool) (l : list A) :
  Forall (fun a => p a = true) l -> List.filter p l = l.
Proof.
  induction 1 as [| a l Ha _ IH]; [reflexivity |].
  cbn [List.filter]. now rewrite Ha, IH.
Qed.

Lemma foldl_runStep_none {A : Type} (p : A -> bool) (l : list A) :
  Forall (fun a => p a = false) l ->
  foldl (runStep p) (0%nat, 0%nat) l = (0%nat, 0%nat).
Proof.
  induction 1 as [| a l Ha _ IH]; [reflexivity |].
  cbn [foldl]. unfold runStep at 2. now rewrite Ha.
Qed.

Lemma countedHRs_from (data : list HeartRateData) (hr : num) :
  hr ∈ countedHRs data ->
  exists d : HeartRateData, d ∈ data /\ heartRate d = Some hr /\ truthy hr = true.
Proof.
  unfold countedHRs. intros H.
  apply list_elem_of_omap in H as (d & Hin & Hd).
  exists d. split; [exact Hin |].
  unfold if_truthy in Hd. destruct (heartRate d) as [x |]; [| discriminate].
  destruct (truthy x) eqn:E; [| discriminate].
  injection Hd as ->. now split.
Qed.

End UnguardedFacts.

Section DeviationFacts.

(** The rounded square root, to within one. *)
Lemma Math_round_sqrt_within_one (q : Q) :
  (0 <= q)%Q ->
  exists k : Z,
    Math_round_sqrt (Fin q) = of_Z k
    /\ (0 <= k)%Z
    /\ (k = 0%Z \/ (inject_Z ((k - 1) * (k - 1)) < q)%Q)
    /\ (q < inject_Z ((k + 1) * (k + 1)))%Q.
Proof.
  intros Hq.
  destruct (Math_round_sqrt_spec q Hq) as (k & Hk & Hk0 & Hlow & Hup).
  exists k. split; [exact Hk |]. split; [exact Hk0 |]. split.
  - destruct Hlow as [-> | Hlow]; [now left |].
    destruct (Z.eq_dec k 0%Z) as [-> | Hne]; [now left |]. right.
    assert (H4 : (inject_Z (4 * ((k - 1) * (k - 1)))
                  < inject_Z ((2 * k - 1) * (2 * k - 1)))%Q).
    { rewrite <- Zlt_Qlt. nia. }
    rewrite (inject_Z_mult 4) in H4. change (inject_Z 4) with 4%Q in H4. lra.
  - assert (H4 : (inject_Z ((2 * k + 1) * (2 * k + 1))
                  < inject_Z (4 * ((k + 1) * (k + 1))))%Q).
    { rewrite <- Zlt_Qlt. nia. }
    rewrite (inject_Z_mult 4) in H4. change (inject_Z 4) with 4%Q in H4. lra.
Qed.

Lemma of_Z_fmap (zs : list Z) : of_Z <$> zs = Fin <$> (inject_Z <$> zs).
Proof. now rewrite <- list_fmap_compose. Qed.

End DeviationFacts.

(** ** Properties *)

(** C1, as the code behaves: for maxHeartRate 200 the single sample of
    100 bpm lies on the upper edge of the recovery band, so it is classified
    'Recovery' with intensity 20; the aggregate has averageIntensity 20,
    maxIntensity 20, timeInZones recovery 100 and every other zone 0,
    score round(7 + 6 + 0 + 0.25) = 13 and quality 'Poor'. *)
Theorem scenario_A_single_sample :
  zone (getEffortLevel (Fin 100) (Fin 200)) = "Recovery"
  /\ intensity (getEffortLevel (Fin 100) (Fin 200)) = Fin 20
  /\ averageIntensity scenarioA = Fin 20
  /\ maxIntensity scenarioA = Fin 20
  /\ timeInZones scenarioA = zoneTable 100 0 0 0 0
  /\ score scenarioA = Fin 13
  /\ quality scenarioA = Poor.
Proof. repeat apply conj; vm_compute; reflexivity. Qed.

(** C1 as stated (fatBurn 100, score 19, sample in the fatBurn band) does not
    hold of the code. *)
Lemma scenario_A_as_stated_fails :
  ~ (averageIntensity scenarioA = Fin 20
     /\ maxIntensity scenarioA = Fin 20
     /\ timeInZones scenarioA = zoneTable 0 100 0 0 0
     /\ score scenarioA = Fin 19
     /\ quality scenarioA = Poor
     /\ zone (getEffortLevel (Fin 100) (Fin 200)) = "Fat Burn").
Proof.
  intros (_ & _ & _ & Hscore & _ & _).
  vm_compute in Hscore. discriminate Hscore.
Qed.

(** C2, as the code behaves: for every maxHeartRate of at least 1, a sample
    on the upper edge of the recovery band is classified 'Recovery', and a
    sample on the upper edge of the fatBurn, aerobic or anaerobic band is
    classified into that band, the lower of the two that share the edge,
    provided the band is not empty (its min is below its max); from
    maxHeartRate 10 on no band is empty.  Classifier and zone-occupancy
    count agree. *)
Theorem boundary_sample_in_lower_zone :
  forall M : Q,
    (1 <= M)%Q ->
    let zones := calculateHeartRateZones (Fin M) in
    inLowerZone M (Band.max (recovery zones)) "Recovery" "recovery"
    /\ ((Band.min (fatBurn zones) <? Band.max (fatBurn zones)) = true ->
        inLowerZone M (Band.max (fatBurn zones)) "Fat Burn" "fatBurn")
    /\ ((Band.min (aerobic zones) <? Band.max (aerobic zones)) = true ->
        inLowerZone M (Band.max (aerobic zones)) "Aerobic" "aerobic")
    /\ ((Band.min (anaerobic zones) <? Band.max (anaerobic zones)) = true ->
        inLowerZone M (Band.max (anaerobic zones)) "Anaerobic" "anaerobic")
    /\ ((10 <= M)%Q ->
        (Band.min (fatBurn zones) <? Band.max (fatBurn zones)) = true
        /\ (Band.min (aerobic zones) <? Band.max (aerobic zones)) = true
        /\ (Band.min (anaerobic zones) <? Band.max (anaerobic zones)) = true).
Proof.
  intros M HM zones. subst zones.
  cbn [calculateHeartRateZones recovery fatBurn aerobic anaerobic
       Band.min Band.max mul Math_round].
  change (of_Z (round_half_up (M * 0.5))) with (Fin (edge M 0.5)).
  change (of_Z (round_half_up (M * 0.6))) with (Fin (edge M 0.6)).
  change (of_Z (round_half_up (M * 0.7))) with (Fin (edge M 0.7)).
  change (of_Z (round_half_up (M * 0.85))) with (Fin (edge M 0.85)).
  pose proof (edge_half_positive M HM) as Hpos.
  destruct (edges_ordered M ltac:(lra)) as (O1 & O2 & O3).
  split; [| split; [| split; [| split]]].
  - destruct (classification_finite M (edge M 0.5) HM)
      as [(_ & (Z & K) & _) | [(A & _) | [(A & _) | [(A & _) | (A & _)]]]];
      try (exfalso; lra).
    now apply inLowerZone_intro.
  - intros Hne. apply ltb_Fin_true in Hne.
    destruct (classification_finite M (edge M 0.6) HM)
      as [(A & _) | [(_ & _ & (Z & K) & _)
         | [(_ & A & _) | [(_ & A & _) | (_ & A & _)]]]];
      try (exfalso; lra).
    apply inLowerZone_intro; [lra | assumption | assumption].
  - intros Hne. apply ltb_Fin_true in Hne.
    destruct (classification_finite M (edge M 0.7) HM)
      as [(A & _) | [(_ & A & _) | [(_ & _ & _ & (Z & K) & _)
         | [(_ & _ & A & _) | (_ & _ & A & _)]]]];
      try (exfalso; lra).
    apply inLowerZone_intro; [lra | assumption | assumption].
  - intros Hne. apply ltb_Fin_true in Hne.
    destruct (classification_finite M (edge M 0.85) HM)
      as [(A & _) | [(_ & A & _) | [(_ & _ & A & _)
         | [(_ & _ & _ & _ & (Z & K) & _) | (_ & _ & _ & A & _)]]]];
      try (exfalso; lra).
    apply inLowerZone_intro; [lra | assumption | assumption].
  - intros H10. destruct (edges_strict M H10) as (S1 & S2 & S3).
    repeat split; apply ltb_Fin_true; assumption.
Qed.

(** Witness of [boundary_sample_in_lower_zone] at maxHeartRate 200, whose
    shared edges are 100, 120, 140 and 170. *)
Lemma boundary_sample_in_lower_zone_witness :
  (1 <= 200)%Q
  /\ inLowerZone 200 (Fin 100) "Recovery" "recovery"
  /\ inLowerZone 200 (Fin 120) "Fat Burn" "fatBurn"
  /\ inLowerZone 200 (Fin 140) "Aerobic" "aerobic"
  /\ inLowerZone 200 (Fin 170) "Anaerobic" "anaerobic".
Proof.
  assert (H1 : (1 <= 200)%Q) by (vm_compute; discriminate).
  split; [exact H1 |].
  destruct (boundary_sample_in_lower_zone 200 H1) as (R & F & A & N & _).
  split; [exact R |].
  split; [apply F; vm_compute; reflexivity |].
  split; [apply A; vm_compute; reflexivity |].
  apply N; vm_compute; reflexivity.
Defined.

(** C2 as stated does not hold for every positive maxHeartRate: with
    maxHeartRate 5 the fatBurn band is empty (3..3), so 3 bpm, the edge
    shared by fatBurn and aerobic, is classified 'Recovery' by the
    classifier and counted under 'recovery' by the aggregator. *)
Lemma boundary_of_empty_band_goes_lower_still :
  Band.max (fatBurn (calculateHeartRateZones (Fin 5))) = Fin 3
  /\ Band.min (aerobic (calculateHeartRateZones (Fin 5))) = Fin 3
  /\ zone (getEffortLevel (Fin 3) (Fin 5)) = "Recovery"
  /\ ~ inLowerZone 5 (Fin 3) "Fat Burn" "fatBurn"
  /\ countZone (calculateHeartRateZones (Fin 5)) (zoneTable 0 0 0 0 0) (sample 3)
     = zoneTable 1 0 0 0 0.
Proof.
  split; [vm_compute; reflexivity |].
  split; [vm_compute; reflexivity |].
  split; [vm_compute; reflexivity |].
  split; [| vm_compute; reflexivity].
  intros [Hzone _]. vm_compute in Hzone. discriminate Hzone.
Qed.

(** C3: on the empty sample sequence the aggregator returns the canonical
    empty result, without a workoutSpecific block, whatever maxHeartRate,
    duration and workout type are. *)
Theorem empty_samples_canonical_result :
  forall (maxHeartRate duration : num) (workoutType : WorkoutType),
    calculateWorkoutQuality [] maxHeartRate duration workoutType
    = {| averageIntensity := Fin 0;
         maxIntensity := Fin 0;
         timeInZones := ∅;
         quality := Poor;
         score := Fin 0;
         workoutSpecific := None |}.
Proof. intros. reflexivity. Qed.

(** C4, as the code behaves: the alternating 60/190 sequence at
    maxHeartRate 200 with type 'HIIT' has zoneTransitions 9, and its score is
    round(15 + 25 + 23.25 + 10.5) = 74, quality 'Good', in either order of
    the two values and for every duration. *)
Theorem scenario_B_alternating :
  forall duration : num,
    (workoutSpecific (scenarioB 60 190 duration) ≫= zoneTransitions) = Some (Fin 9)
    /\ score (scenarioB 60 190 duration) = Fin 74
    /\ quality (scenarioB 60 190 duration) = Good
    /\ (workoutSpecific (scenarioB 190 60 duration) ≫= zoneTransitions) = Some (Fin 9)
    /\ score (scenarioB 190 60 duration) = Fin 74
    /\ quality (scenarioB 190 60 duration) = Good.
Proof. intros duration. repeat apply conj; vm_compute; reflexivity. Qed.

(** C4 as stated (score at least 80, quality 'Excellent') does not hold of
    the code. *)
Lemma scenario_B_as_stated_fails :
  ~ ((workoutSpecific (scenarioB 60 190 (Fin 0)) ≫= zoneTransitions) = Some (Fin 9)
     /\ (score (scenarioB 60 190 (Fin 0)) >=? Fin 80) = true
     /\ quality (scenarioB 60 190 (Fin 0)) = Excellent).
Proof.
  intros (_ & Hscore & _). vm_compute in Hscore. discriminate Hscore.
Qed.

(** C5, as the code behaves: for every non-empty sample sequence, each of
    the five zone percentages is an integer between 0 and 100 nearest to
    count / total * 100, where total counts all samples and count the
    readings the zone table puts in that zone among those that are neither
    missing nor falsy (0, NaN); a sample with a missing or falsy reading
    changes no bucket.  Without a reading of 0 or NaN these are the non-null
    readings.  In scenario C (one missing reading at any position among nine
    readings of 150 bpm, maxHeartRate 200) the percentages are anaerobic 90
    and 0 elsewhere, so they sum to 90 and no zone reaches 100, and
    hrVariability, taken over the nine readings, is 0.  The readings behind
    hrVariability leave out a missing one and keep a 0: 140, null, 160 have
    hrVariability 10 and 140, 0, 160 have 71. *)
Theorem zone_percentages_over_all_samples :
  (forall (data : list HeartRateData) (M D : num) (T : WorkoutType),
      data <> [] ->
      let zones := calculateHeartRateZones M in
      (forall key : string,
          key ∈ zoneKeys ->
          exists p : Z,
            timeInZones (calculateWorkoutQuality data M D T) !! key
            = Some (of_Z p)
            /\ (0 <= p <= 100)%Z
            /\ (inject_Z p - 0.5
                <= inject_Z (Z.of_nat (classifiedIn zones key (countedHRs data)))
                   / inject_Z (Z.of_nat (length data)) * 100)%Q
            /\ (inject_Z (Z.of_nat (classifiedIn zones key (countedHRs data)))
                / inject_Z (Z.of_nat (length data)) * 100
                <= inject_Z p + 0.5)%Q)
      /\ (Forall (fun d => heartRate d = None
                           \/ truthy_opt (heartRate d) = true) data ->
          countedHRs data = validHRs data)
      /\ (forall (d : HeartRateData) (tz : gmap string num),
            truthy_opt (heartRate d) = false ->
            countZone zones tz d = tz /\ bucketOf zones d = None))
  /\ (forall (k : nat) (D : num) (T : WorkoutType),
        (k <= 9)%nat ->
        let tz := timeInZones (scenarioC k D T) in
        tz !! "recovery" = Some (Fin 0)
        /\ tz !! "fatBurn" = Some (Fin 0)
        /\ tz !! "aerobic" = Some (Fin 0)
        /\ tz !! "anaerobic" = Some (Fin 90)
        /\ tz !! "max" = Some (Fin 0)
        /\ sum ((fun key => to_number (tz !! key)) <$> zoneKeys) = Fin 90
        /\ (workoutSpecific (scenarioC k D T) ≫= hrVariability) = Some (Fin 0))
  /\ (forall (D : num) (T : WorkoutType),
        (workoutSpecific
           (calculateWorkoutQuality [sample 140; nullSample; sample 160]
              (Fin 200) D T) ≫= hrVariability) = Some (Fin 10)
        /\ (workoutSpecific
              (calculateWorkoutQuality [sample 140; sample 0; sample 160]
                 (Fin 200) D T) ≫= hrVariability) = Some (Fin 71)).
Proof.
  split; [| split].
  - intros data M D T Hne zones. split; [| split].
    + intros key Hin.
      rewrite (timeInZones_lookup data M D T key Hne Hin).
      fold zones. rewrite samplesIn_classifiedIn.
      destruct (percentage_nearest
                  (classifiedIn zones key (countedHRs data)) (length data)
                  (classifiedIn_le zones key data)
                  (nonempty_length_pos data Hne))
        as (p & Hp & Hrange & Hlow & Hup).
      exists p. rewrite Hp. repeat split; try assumption; lia.
    + apply countedHRs_validHRs.
    + intros d tz Hskip. unfold countZone, bucketOf, if_truthy.
      unfold truthy_opt in Hskip.
      destruct (heartRate d) as [hr |]; [rewrite Hskip |]; split; reflexivity.
  - intros k D T Hk.
    do 10 (destruct k as [| k];
           [repeat apply conj; vm_compute; reflexivity |]).
    lia.
  - intros D T. split; vm_compute; reflexivity.
Qed.

(** Witness of the general part of [zone_percentages_over_all_samples]: of
    a missing reading, a reading of 0 and one of 150 bpm only the last is
    counted, and the anaerobic percentage is nearest to 100 / 3. *)
Lemma zone_percentages_over_all_samples_witness :
  exists p : Z,
    timeInZones (calculateWorkoutQuality [nullSample; sample 0; sample 150]
                   (Fin 200) (Fin 60) Other) !! "anaerobic" = Some (of_Z p)
    /\ (0 <= p <= 100)%Z
    /\ (inject_Z p - 0.5 <= 1 / 3 * 100)%Q
    /\ (1 / 3 * 100 <= inject_Z p + 0.5)%Q.
Proof.
  apply (proj1 (proj1 zone_percentages_over_all_samples
                  [nullSample; sample 0; sample 150] (Fin 200) (Fin 60) Other
                  ltac:(discriminate)) "anaerobic").
  unfold zoneKeys. repeat constructor.
Defined.

(** C5 as stated does not hold of the code: the readings 0 and 190 at
    maxHeartRate 200 are both non-null and the classifier puts 0 in
    'Recovery', so the claim's recovery count is 1 of 2 and its percentage
    50, while the code reports recovery 0. *)
Lemma zero_reading_is_counted_in_no_zone :
  zone (getEffortLevel (Fin 0) (Fin 200)) = "Recovery"
  /\ validHRs [sample 0; sample 190] = [Fin 0; Fin 190]
  /\ classifiedIn (calculateHeartRateZones (Fin 200)) "recovery"
       (validHRs [sample 0; sample 190]) = 1%nat
  /\ timeInZones (calculateWorkoutQuality [sample 0; sample 190]
                    (Fin 200) (Fin 60) Other) !! "recovery" = Some (Fin 0)
  /\ ~ (exists p : Z,
          timeInZones (calculateWorkoutQuality [sample 0; sample 190]
                         (Fin 200) (Fin 60) Other) !! "recovery"
          = Some (of_Z p)
          /\ (inject_Z (Z.of_nat
                          (classifiedIn (calculateHeartRateZones (Fin 200))
                             "recovery" (validHRs [sample 0; sample 190])))
              / inject_Z (Z.of_nat (length [sample 0; sample 190])) * 100
              <= inject_Z p + 0.5)%Q).
Proof.
  repeat apply conj; try (vm_compute; reflexivity).
  intros (p & Hp & Hlow).
  assert (Hval : timeInZones (calculateWorkoutQuality [sample 0; sample 190]
                    (Fin 200) (Fin 60) Other) !! "recovery" = Some (of_Z 0))
    by (vm_compute; reflexivity).
  rewrite Hval in Hp. injection Hp as Hp.
  assert (Hp0 : p = 0%Z).
  { unfold inject_Z in Hp. congruence. }
  subst p. vm_compute in Hlow. apply Hlow. reflexivity.
Qed.

(** C6: for every positive (integer) maxHeartRate M and heart rates
    0 <= hr1 <= hr2 <= M, integer or not, the classifier's intensities are
    integers in [0,100] and the intensity of hr1 is at most that of hr2. *)
Theorem intensity_range_and_monotone :
  forall (M : Z) (hr1 hr2 : Q),
    (0 < M)%Z -> (0 <= hr1)%Q -> (hr1 <= hr2)%Q -> (hr2 <= inject_Z M)%Q ->
    exists i1 i2 : Z,
      intensity (getEffortLevel (Fin hr1) (of_Z M)) = of_Z i1
      /\ intensity (getEffortLevel (Fin hr2) (of_Z M)) = of_Z i2
      /\ (0 <= i1 <= 100)%Z /\ (0 <= i2 <= 100)%Z /\ (i1 <= i2)%Z.
Proof.
  intros M hr1 hr2 HM H0 H12 H2M.
  apply intensity_monotone_rational; try assumption.
  change 1%Q with (inject_Z 1). rewrite <- Zle_Qle. lia.
Qed.

(** Witness of [intensity_range_and_monotone] at maxHeartRate 200 for the
    readings 100 and 150. *)
Lemma intensity_range_and_monotone_witness :
  (0 < 200)%Z /\ (0 <= 100)%Q /\ (100 <= 150)%Q /\ (150 <= inject_Z 200)%Q
  /\ exists i1 i2 : Z,
       intensity (getEffortLevel (Fin 100) (of_Z 200)) = of_Z i1
       /\ intensity (getEffortLevel (Fin 150) (of_Z 200)) = of_Z i2
       /\ (0 <= i1 <= 100)%Z /\ (0 <= i2 <= 100)%Z /\ (i1 <= i2)%Z.
Proof.
  assert (H1 : (0 < 200)%Z) by lia.
  assert (H2 : (0 <= 100)%Q) by (vm_compute; discriminate).
  assert (H3 : (100 <= 150)%Q) by (vm_compute; discriminate).
  assert (H4 : (150 <= inject_Z 200)%Q) by (vm_compute; discriminate).
  repeat (split; [assumption |]).
  exact (intensity_range_and_monotone 200 100 150 H1 H2 H3 H4).
Defined.

(** C7, evaluated where the code leaves the documented range: a reading of
    230 bpm against maxHeartRate 200 falls in the catch-all 'Max' band and
    its intensity is round(80 + 60/30 * 20) = 120, above the 0..100 that the
    EffortReading and the source's own comment promise; 249 bpm against
    maxHeartRate 100 gives 299. *)
Theorem intensity_above_maxHeartRate_exceeds_100 :
  zone (getEffortLevel (Fin 230) (Fin 200)) = "Max"
  /\ intensity (getEffortLevel (Fin 230) (Fin 200)) = Fin 120
  /\ (intensity (getEffortLevel (Fin 230) (Fin 200)) <=? Fin 100) = false
  /\ intensity (getEffortLevel (Fin 249) (Fin 100)) = Fin 299.
Proof. repeat apply conj; vm_compute; reflexivity. Qed.

(** C8, as the code behaves: the zone-transition scan skips every sample
    whose heart rate is missing or falsy (null, 0, NaN) and leaves its state
    untouched; on every other sample the previous-zone pointer moves to that
    sample's zone.  For a non-empty sequence zoneTransitions is the number
    of adjacent pairs, in the subsequence of the samples not skipped, whose
    zones differ. *)
Theorem zoneTransitions_counts_zone_changes :
  forall (data : list HeartRateData) (M D : num) (T : WorkoutType),
    data <> [] ->
    let zones := calculateHeartRateZones M in
    (workoutSpecific (calculateWorkoutQuality data M D T) ≫= zoneTransitions)
    = Some (of_nat (zoneChanges (currentZoneOf zones <$> countedHRs data)))
    /\ (forall (st : num * string) (d : HeartRateData),
          truthy_opt (heartRate d) = false -> transitionStep zones st d = st)
    /\ (forall (st : num * string) (d : HeartRateData) (hr : num),
          heartRate d = Some hr -> truthy hr = true ->
          snd (transitionStep zones st d) = currentZoneOf zones hr).
Proof.
  intros data M D T Hne zones. split; [| split].
  - unfold calculateWorkoutQuality. rewrite nonempty_length_eqb by exact Hne.
    cbn [workoutSpecific mbind option_bind zoneTransitions].
    now rewrite zoneTransitionsOf_zoneChanges.
  - intros st d Hskip. now apply transitionStep_skip.
  - intros [n p] d hr Hhr Ht. unfold transitionStep, if_truthy.
    now rewrite Hhr, Ht.
Qed.

(** Witness of [zoneTransitions_counts_zone_changes]: recovery, a missing
    reading, max, max, recovery makes two changes. *)
Lemma zoneTransitions_counts_zone_changes_witness :
  [sample 60; nullSample; sample 190; sample 190; sample 60] <> []
  /\ (workoutSpecific
        (calculateWorkoutQuality
           [sample 60; nullSample; sample 190; sample 190; sample 60]
           (Fin 200) (Fin 60) HIIT) ≫= zoneTransitions)
     = Some (Fin 2).
Proof.
  split; [discriminate |].
  exact (proj1 (zoneTransitions_counts_zone_changes
                  [sample 60; nullSample; sample 190; sample 190; sample 60]
                  (Fin 200) (Fin 60) HIIT ltac:(discriminate))).
Defined.

(** C8 as stated does not hold of the code: a reading of 0 is not null, and
    as a valid sample it would be classified 'recovery', yet the scan skips
    it.  For the readings 0, 190 at maxHeartRate 200 the valid subsequence
    has one zone change and the code reports zoneTransitions 0. *)
Lemma zero_reading_is_skipped_by_transition_scan :
  validHRs [sample 0; sample 190] = [Fin 0; Fin 190]
  /\ (currentZoneOf (calculateHeartRateZones (Fin 200))
        <$> validHRs [sample 0; sample 190]) = ["recovery"; "max"]
  /\ zoneChanges (currentZoneOf (calculateHeartRateZones (Fin 200))
                    <$> validHRs [sample 0; sample 190]) = 1%nat
  /\ (workoutSpecific
        (calculateWorkoutQuality [sample 0; sample 190] (Fin 200) (Fin 60) HIIT)
        ≫= zoneTransitions) = Some (Fin 0)
  /\ (workoutSpecific
        (calculateWorkoutQuality [sample 0; sample 190] (Fin 200) (Fin 60) HIIT)
        ≫= zoneTransitions)
     <> Some (of_nat (zoneChanges
                        (currentZoneOf (calculateHeartRateZones (Fin 200))
                           <$> validHRs [sample 0; sample 190]))).
Proof.
  repeat apply conj; try (vm_compute; reflexivity).
  vm_compute. discriminate.
Qed.

(** C9, as the code behaves: a non-positive maxHeartRate and a negative
    duration are not rejected but computed with.  For a maxHeartRate of 0 or
    less and a non-empty sequence of positive readings, every reading is
    classified 'Max' and counted in the max bucket: timeInZones is max 100
    and 0 elsewhere, peakSpikes is the number of samples, sustainedAerobic
    and zoneTransitions are 0.  The duration, negative or not, enters
    nothing but the score and the quality label. *)
Theorem invalid_arguments_are_computed_with :
  (forall (M : Q) (data : list HeartRateData) (D : num) (T : WorkoutType),
      (M <= 0)%Q -> data <> [] -> Forall positiveReading data ->
      let r := calculateWorkoutQuality data (Fin M) D T in
      Forall (fun d => exists hr : num,
                  heartRate d = Some hr
                  /\ zone (getEffortLevel hr (Fin M)) = "Max") data
      /\ timeInZones r !! "recovery" = Some (Fin 0)
      /\ timeInZones r !! "fatBurn" = Some (Fin 0)
      /\ timeInZones r !! "aerobic" = Some (Fin 0)
      /\ timeInZones r !! "anaerobic" = Some (Fin 0)
      /\ timeInZones r !! "max" = Some (Fin 100)
      /\ (workoutSpecific r ≫= peakSpikes) = Some (of_nat (length data))
      /\ (workoutSpecific r ≫= sustainedAerobic) = Some (Fin 0)
      /\ (workoutSpecific r ≫= zoneTransitions) = Some (Fin 0))
  /\ (forall (data : list HeartRateData) (M D D' : num) (T : WorkoutType),
        let r := calculateWorkoutQuality data M D T in
        let r' := calculateWorkoutQuality data M D' T in
        averageIntensity r = averageIntensity r'
        /\ maxIntensity r = maxIntensity r'
        /\ timeInZones r = timeInZones r'
        /\ workoutSpecific r = workoutSpecific r').
Proof.
  split.
  - intros M data D T HM Hne Hpos r. subst r.
    pose proof (nonempty_length_pos data Hne) as Hn.
    set (zones := calculateHeartRateZones (Fin M)).
    assert (Hmax : Forall (fun d => bucketOf zones d = Some "max") data).
    { eapply Forall_impl; [exact Hpos |]. intros d Hd.
      now apply (positive_reading_in_max M d HM Hd). }
    assert (Hother : forall key : string,
               key <> "max" ->
               Forall (fun d => bucketOf zones d <> Some key) data).
    { intros key Hkey. eapply Forall_impl; [exact Hmax |].
      cbn. intros d -> [= <-]. now apply Hkey. }
    split.
    { eapply Forall_impl; [exact Hpos |]. intros d Hd.
      now apply (positive_reading_in_max M d HM Hd). }
    repeat split.
    + rewrite timeInZones_lookup by (try assumption; unfold zoneKeys; repeat constructor).
      fold zones. now rewrite samplesIn_none, percentage_none by auto.
    + rewrite timeInZones_lookup by (try assumption; unfold zoneKeys; repeat constructor).
      fold zones. now rewrite samplesIn_none, percentage_none by auto.
    + rewrite timeInZones_lookup by (try assumption; unfold zoneKeys; repeat constructor).
      fold zones. now rewrite samplesIn_none, percentage_none by auto.
    + rewrite timeInZones_lookup by (try assumption; unfold zoneKeys; repeat constructor).
      fold zones. now rewrite samplesIn_none, percentage_none by auto.
    + rewrite timeInZones_lookup by (try assumption; unfold zoneKeys; repeat constructor).
      fold zones. now rewrite samplesIn_all, percentage_all.
    + unfold calculateWorkoutQuality. rewrite nonempty_length_eqb by exact Hne.
      cbn [workoutSpecific mbind option_bind peakSpikes].
      unfold peakSpikesOf. cbv zeta. rewrite filter_all; [reflexivity |].
      eapply Forall_impl; [exact Hpos |]. intros d Hd.
      now apply (positive_reading_in_max M d HM Hd).
    + unfold calculateWorkoutQuality. rewrite nonempty_length_eqb by exact Hne.
      cbn [workoutSpecific mbind option_bind sustainedAerobic].
      rewrite sustainedAerobicOf_run, foldl_runStep_none.
      * cbn [fst]. now rewrite percentage_none.
      * eapply Forall_impl; [exact Hpos |]. intros d Hd.
        now apply (positive_reading_in_max M d HM Hd).
    + unfold calculateWorkoutQuality. rewrite nonempty_length_eqb by exact Hne.
      cbn [workoutSpecific mbind option_bind zoneTransitions].
      rewrite zoneTransitionsOf_zoneChanges. fold zones.
      assert (Hz : forall z : string,
                 z ∈ currentZoneOf zones <$> countedHRs data -> z = "max").
      { intros z Hz. apply list_elem_of_fmap in Hz as (hr & -> & Hhr).
        apply countedHRs_from in Hhr as (d & Hin & Hd & Ht).
        rewrite Forall_forall in Hmax. specialize (Hmax d Hin).
        unfold bucketOf, if_truthy in Hmax. rewrite Hd, Ht in Hmax.
        now injection Hmax. }
      assert (H0 : zoneChanges (currentZoneOf zones <$> countedHRs data) = 0%nat).
      { apply zoneChanges_zero. intros z1 z2 H1 H2.
        now rewrite (Hz z1 H1), (Hz z2 H2). }
      now rewrite H0.
  - intros data M D D' T r r'. subst r r'. unfold calculateWorkoutQuality.
    destruct (length data =? 0)%nat; repeat split.
Qed.

(** Witness of [invalid_arguments_are_computed_with]: maxHeartRate -10 and
    a duration of -60 s with readings of 100 and 150 bpm. *)
Lemma invalid_arguments_are_computed_with_witness :
  timeInZones (calculateWorkoutQuality [sample 100; sample 150]
                 (Fin (-10)) (Fin (-60)) Cardio) !! "max" = Some (Fin 100)
  /\ (workoutSpecific (calculateWorkoutQuality [sample 100; sample 150]
                         (Fin (-10)) (Fin (-60)) Cardio) ≫= peakSpikes)
     = Some (of_nat 2).
Proof.
  destruct (proj1 invalid_arguments_are_computed_with (-10)%Q
              [sample 100; sample 150] (Fin (-60)) Cardio)
    as (_ & _ & _ & _ & _ & Hmax & Hpeak & _).
  - vm_compute. discriminate.
  - discriminate.
  - constructor; [| constructor; [| constructor]].
    + exists (inject_Z 100). split; [reflexivity | reflexivity].
    + exists (inject_Z 150). split; [reflexivity | reflexivity].
  - split; [exact Hmax | exact Hpeak].
Defined.

(** C9 as stated does not hold of the code, which has no guard and no
    throw: with maxHeartRate 0 (non-positive) it returns a result with
    timeInZones max 100, an infinite score and quality 'Excellent', and with
    a duration of -60 s (negative) a result with score 13 and quality
    'Poor'. *)
Lemma invalid_arguments_are_not_rejected :
  (Fin 0 <=? Fin 0) = true
  /\ timeInZones (calculateWorkoutQuality [sample 100] (Fin 0) (Fin 60) Other)
     = zoneTable 0 0 0 0 100
  /\ score (calculateWorkoutQuality [sample 100] (Fin 0) (Fin 60) Other) = PInf
  /\ quality (calculateWorkoutQuality [sample 100] (Fin 0) (Fin 60) Other)
     = Excellent
  /\ (Fin (-60) <? Fin 0) = true
  /\ timeInZones (calculateWorkoutQuality [sample 100] (Fin 200) (Fin (-60)) Other)
     = zoneTable 100 0 0 0 0
  /\ score (calculateWorkoutQuality [sample 100] (Fin 200) (Fin (-60)) Other)
     = Fin 13
  /\ quality (calculateWorkoutQuality [sample 100] (Fin 200) (Fin (-60)) Other)
     = Poor.
Proof. repeat apply conj; vm_compute; reflexivity. Qed.

(** C10: a sample whose heart rate is exactly 0 is treated like a missing
    reading by the intensity series, the zone occupancy, peakSpikes, the
    sustained-aerobic run and the zone-transition scan: replacing every such
    sample by a null sample changes none of averageIntensity, maxIntensity,
    timeInZones, peakSpikes, sustainedAerobic and zoneTransitions.  The
    valid-sample set behind hrVariability still contains the 0: the readings
    0, 100 have hrVariability 50, while null, 100 have none. *)
Theorem zero_reading_treated_as_null :
  forall (data : list HeartRateData) (M D : num) (T : WorkoutType),
    let r := calculateWorkoutQuality data M D T in
    let r0 := calculateWorkoutQuality (zeroAsNull <$> data) M D T in
    (averageIntensity r = averageIntensity r0
     /\ maxIntensity r = maxIntensity r0
     /\ timeInZones r = timeInZones r0
     /\ (workoutSpecific r ≫= peakSpikes) = (workoutSpecific r0 ≫= peakSpikes)
     /\ (workoutSpecific r ≫= sustainedAerobic)
        = (workoutSpecific r0 ≫= sustainedAerobic)
     /\ (workoutSpecific r ≫= zoneTransitions)
        = (workoutSpecific r0 ≫= zoneTransitions))
    /\ (forall (d : HeartRateData) (q : Q),
          d ∈ data -> heartRate d = Some (Fin q) -> (q == 0)%Q ->
          Fin q ∈ validHRs data
          /\ intensities [d] M = [Fin 0]
          /\ (forall (zones : Zones) (tz : gmap string num),
                countZone zones tz d = tz)
          /\ peakSpikesOf [d] M = Fin 0
          /\ (forall (aerobicMin aerobicMax : num) (st : num * num),
                sustainedStep aerobicMin aerobicMax st d = (fst st, Fin 0))
          /\ (forall (zones : Zones) (st : num * string),
                transitionStep zones st d = st))
    /\ (workoutSpecific
          (calculateWorkoutQuality [sample 0; sample 100] M D T) ≫= hrVariability)
       = Some (Fin 50)
    /\ (workoutSpecific
          (calculateWorkoutQuality (zeroAsNull <$> [sample 0; sample 100]) M D T)
          ≫= hrVariability)
       = None.
Proof.
  intros data M D T r r0. subst r r0. split; [| split; [| split]].
  - unfold calculateWorkoutQuality. rewrite length_fmap.
    destruct (length data =? 0)%nat; [repeat split |].
    cbn [averageIntensity maxIntensity timeInZones workoutSpecific
         mbind option_bind peakSpikes sustainedAerobic zoneTransitions].
    rewrite intensities_zeroAsNull, zoneCounts_zeroAsNull,
      peakSpikesOf_zeroAsNull, sustainedAerobicOf_zeroAsNull,
      zoneTransitionsOf_zeroAsNull.
    repeat split.
  - intros d q Hin Hhr Hq. apply Qzero_b_true in Hq.
    split; [now apply (validHRs_keeps data d) |].
    split; [| split; [| split; [| split]]].
    + unfold intensities. cbn [fmap list_fmap]. unfold if_truthy.
      rewrite Hhr. cbn [truthy]. now rewrite Hq.
    + intros zones tz. unfold countZone, if_truthy.
      rewrite Hhr. cbn [truthy]. now rewrite Hq.
    + unfold peakSpikesOf. cbv zeta. cbn [List.filter]. unfold if_truthy.
      rewrite Hhr. cbn [truthy]. now rewrite Hq.
    + intros aerobicMin aerobicMax [mx cur]. unfold sustainedStep, if_truthy.
      rewrite Hhr. cbn [truthy]. now rewrite Hq.
    + intros zones st. apply transitionStep_skip.
      rewrite Hhr. cbn [truthy_opt truthy]. now rewrite Hq.
  - vm_compute. reflexivity.
  - vm_compute. reflexivity.
Qed.

(** ** Further properties of the code *)

(** X1: for a non-negative integer maxHeartRate M the five bands tile 0..M:
    recovery starts at 0, each band starts where the one below ends, the
    max band ends at M, every edge is an integer, and no band has its min
    above its max. *)
Theorem zones_tile_the_range :
  forall M : Z,
    (0 <= M)%Z ->
    let zones := calculateHeartRateZones (of_Z M) in
    exists e1 e2 e3 e4 : Z,
      zones
      = {| recovery := {| Band.min := Fin 0; Band.max := of_Z e1 |};
           fatBurn := {| Band.min := of_Z e1; Band.max := of_Z e2 |};
           aerobic := {| Band.min := of_Z e2; Band.max := of_Z e3 |};
           anaerobic := {| Band.min := of_Z e3; Band.max := of_Z e4 |};
           max := {| Band.min := of_Z e4; Band.max := of_Z M |} |}
      /\ (0 <= e1 <= e2)%Z /\ (e2 <= e3 <= e4)%Z /\ (e4 <= M)%Z.
Proof.
  intros M HM zones. subst zones.
  assert (HMq : (0 <= inject_Z M)%Q).
  { change 0%Q with (inject_Z 0). now rewrite <- Zle_Qle. }
  destruct (edges_ordered (inject_Z M) HMq) as (O1 & O2 & O3).
  pose proof (edge_top_le M HM) as Otop.
  pose proof (edge_nonneg (inject_Z M) 0.5 HMq ltac:(lra)) as O0.
  unfold edge in *. change 0%Q with (inject_Z 0) in O0.
  rewrite <- Zle_Qle in O0, O1, O2, O3, Otop.
  eexists _, _, _, _. split; [reflexivity |]. lia.
Qed.

Lemma zones_tile_the_range_witness :
  exists e1 e2 e3 e4 : Z,
    calculateHeartRateZones (of_Z 185)
    = {| recovery := {| Band.min := Fin 0; Band.max := of_Z e1 |};
         fatBurn := {| Band.min := of_Z e1; Band.max := of_Z e2 |};
         aerobic := {| Band.min := of_Z e2; Band.max := of_Z e3 |};
         anaerobic := {| Band.min := of_Z e3; Band.max := of_Z e4 |};
         max := {| Band.min := of_Z e4; Band.max := of_Z 185 |} |}
    /\ (0 <= e1 <= e2)%Z /\ (e2 <= e3 <= e4)%Z /\ (e4 <= 185)%Z.
Proof. apply (zones_tile_the_range 185). lia. Defined.

(** X2: for a maxHeartRate of at least 1 and a heart rate between 0 and
    maxHeartRate, the classifier returns one of five rows: the description
    belongs to the zone, and the intensity is an integer on the zone's own
    stretch of the scale (Recovery 0..20, Fat Burn 20..40, Aerobic 40..60,
    Anaerobic 60..80, Max 80..100).  From maxHeartRate 4 on, heart rate 0
    reads intensity 0 in Recovery and heart rate maxHeartRate reads
    intensity 100 in Max. *)
Theorem effort_reading_on_zone_scale :
  forall M hr : Q,
    (1 <= M)%Q -> (0 <= hr)%Q -> (hr <= M)%Q ->
    let r := getEffortLevel (Fin hr) (Fin M) in
    (exists (i lo hi : Z),
        intensity r = of_Z i
        /\ (zone r, description r, lo, hi) ∈ effortRows
        /\ (lo <= i <= hi)%Z)
    /\ ((4 <= M)%Q ->
        getEffortLevel (Fin 0) (Fin M)
        = {| zone := "Recovery"; intensity := of_Z 0; description := "Very Light" |}
        /\ getEffortLevel (Fin M) (Fin M)
           = {| zone := "Max"; intensity := of_Z 100; description := "Maximum" |}).
Proof.
  intros M hr HM H0 HhrM r. subst r.
  pose proof (edge_half_positive M HM) as Hpos.
  split.
  - destruct (description_of_zone (Fin hr) (Fin M)) as (D1 & D2 & D3 & D4 & D5).
    destruct (classification_finite M hr HM)
      as [(A1 & (Z1 & _) & I1) | [(A1 & A2 & (Z1 & _) & I1)
         | [(A1 & A2 & A3 & (Z1 & _) & I1)
         | [(A1 & A2 & A3 & A4 & (Z1 & _) & I1)
         | (A1 & A2 & A3 & A4 & (Z1 & _) & I1)]]]];
      try specialize (I1 HhrM);
      rewrite I1; scale_ranges M hr Hpos; unfold effortRows.
    + exists (round_half_up (hr / edge M 0.5 * 20)), 0%Z, 20%Z.
      split; [reflexivity |]. split; [| assumption].
      rewrite (D1 Z1), Z1. repeat constructor.
    + exists (bandScale 20 (edge M 0.5) (edge M 0.6) hr), 20%Z, 40%Z.
      split; [reflexivity |]. split; [| assumption].
      rewrite (D2 Z1), Z1. repeat constructor.
    + exists (bandScale 40 (edge M 0.6) (edge M 0.7) hr), 40%Z, 60%Z.
      split; [reflexivity |]. split; [| assumption].
      rewrite (D3 Z1), Z1. repeat constructor.
    + exists (bandScale 60 (edge M 0.7) (edge M 0.85) hr), 60%Z, 80%Z.
      split; [reflexivity |]. split; [| assumption].
      rewrite (D4 Z1), Z1. repeat constructor.
    + exists (bandScale 80 (edge M 0.85) M hr), 80%Z, 100%Z.
      split; [reflexivity |]. split; [| assumption].
      rewrite (D5 Z1), Z1. repeat constructor.
  - intros H4. split.
    + unfold getEffortLevel.
      cbn [calculateHeartRateZones recovery Band.max mul Math_round].
      change (of_Z (round_half_up (M * 0.5))) with (Fin (edge M 0.5)).
      assert (E : (Fin 0 <=? Fin (edge M 0.5)) = true)
        by (apply leb_Fin_true; lra).
      rewrite E, recovery_intensity by exact Hpos. do 2 f_equal.
      assert (Ez : (0 / edge M 0.5 * 20 == inject_Z 0)%Q).
      { change (inject_Z 0) with 0%Q. field. lra. }
      unfold round_half_up. rewrite Ez. apply round_half_up_Z.
    + pose proof (edge_top_lt M H4) as Htop.
      destruct (edges_ordered M ltac:(lra)) as (O1 & O2 & O3).
      destruct (description_of_zone (Fin M) (Fin M)) as (_ & _ & _ & _ & D5).
      destruct (classification_finite M M HM)
        as [(A1 & _) | [(_ & A1 & _) | [(_ & _ & A1 & _)
           | [(_ & _ & _ & A1 & _) | (_ & _ & _ & _ & (Z1 & _) & I1)]]]];
        try (exfalso; lra).
      specialize (I1 ltac:(lra)). rewrite bandScale_top in I1 by exact Htop.
      pose proof (D5 Z1) as De.
      destruct (getEffortLevel (Fin M) (Fin M)) as [z i de].
      cbn [zone intensity description] in *. now subst.
Qed.

Lemma effort_reading_on_zone_scale_witness :
  (exists (i lo hi : Z),
      intensity (getEffortLevel (Fin 150) (Fin 200)) = of_Z i
      /\ (zone (getEffortLevel (Fin 150) (Fin 200)),
          description (getEffortLevel (Fin 150) (Fin 200)), lo, hi) ∈ effortRows
      /\ (lo <= i <= hi)%Z)
  /\ ((4 <= 200)%Q ->
      getEffortLevel (Fin 0) (Fin 200)
      = {| zone := "Recovery"; intensity := of_Z 0; description := "Very Light" |}
      /\ getEffortLevel (Fin 200) (Fin 200)
         = {| zone := "Max"; intensity := of_Z 100; description := "Maximum" |}).
Proof.
  apply (effort_reading_on_zone_scale 200 150); lra.
Defined.

(** X3: the aggregator never reads a timestamp: two sample sequences with the
    same heart rates in the same order give the same WorkoutQuality. *)
Theorem timestamps_are_ignored :
  forall (data1 data2 : list HeartRateData) (M D : num) (T : WorkoutType),
    heartRate <$> data1 = heartRate <$> data2 ->
    calculateWorkoutQuality data1 M D T = calculateWorkoutQuality data2 M D T.
Proof.
  intros data1 data2 M D T Heq.
  rewrite <- (calculateWorkoutQuality_withoutTime data1).
  rewrite <- (calculateWorkoutQuality_withoutTime data2).
  f_equal.
  change withoutTime
    with ((fun hr => {| heartRate := hr; timestamp := Fin 0 |}) ∘ heartRate).
  rewrite !list_fmap_compose. now rewrite Heq.
Qed.

Lemma timestamps_are_ignored_witness :
  calculateWorkoutQuality
    [{| heartRate := Some (of_Z 100); timestamp := of_Z 1000 |};
     {| heartRate := None; timestamp := of_Z 2000 |};
     {| heartRate := Some (of_Z 150); timestamp := of_Z 3000 |}]
    (Fin 200) (Fin 60) Cardio
  = calculateWorkoutQuality [sample 100; nullSample; sample 150]
      (Fin 200) (Fin 60) Cardio.
Proof. apply timestamps_are_ignored. reflexivity. Defined.

(** X4: for every non-empty sample sequence and every maxHeartRate,
    timeInZones has exactly the five zone keys, and each value is an integer
    percentage between 0 and 100. *)
Theorem timeInZones_five_percentages :
  forall (data : list HeartRateData) (M D : num) (T : WorkoutType) (key : string),
    data <> [] ->
    (key ∈ zoneKeys ->
     exists p : Z,
       timeInZones (calculateWorkoutQuality data M D T) !! key = Some (of_Z p)
       /\ (0 <= p <= 100)%Z)
    /\ (key ∉ zoneKeys ->
        timeInZones (calculateWorkoutQuality data M D T) !! key = None).
Proof.
  intros data M D T key Hne. split.
  - intros Hin.
    rewrite (timeInZones_lookup data M D T key Hne Hin).
    destruct (percentage_range
                (samplesIn (calculateHeartRateZones M) key data) (length data))
      as (p & Hp & Hrange & _).
    + apply samplesIn_le.
    + now apply nonempty_length_pos.
    + exists p. now rewrite Hp.
  - intros Hout. now apply timeInZones_lookup_other.
Qed.

Lemma timeInZones_five_percentages_witness :
  (("aerobic" : string) ∈ zoneKeys ->
   exists p : Z,
     timeInZones (calculateWorkoutQuality [sample 100; sample 130; sample 135]
                    (Fin 200) (Fin 60) Other) !! "aerobic" = Some (of_Z p)
     /\ (0 <= p <= 100)%Z)
  /\ (("aerobic" : string) ∉ zoneKeys ->
      timeInZones (calculateWorkoutQuality [sample 100; sample 130; sample 135]
                     (Fin 200) (Fin 60) Other) !! "aerobic" = None).
Proof.
  apply (timeInZones_five_percentages [sample 100; sample 130; sample 135]).
  discriminate.
Defined.

(** X5: the five percentages of a non-empty sample sequence never sum to more
    than 102, and to at least 98 when no sample is skipped (every heart
    rate is non-null and truthy): each one is rounded on its own. *)
Theorem percentages_sum_within_two_of_100 :
  forall (data : list HeartRateData) (M D : num) (T : WorkoutType),
    data <> [] ->
    exists p1 p2 p3 p4 p5 : Z,
      timeInZones (calculateWorkoutQuality data M D T)
      = zoneTable p1 p2 p3 p4 p5
      /\ (p1 + p2 + p3 + p4 + p5 <= 102)%Z
      /\ (Forall (fun d => truthy_opt (heartRate d) = true) data ->
          (98 <= p1 + p2 + p3 + p4 + p5)%Z).
Proof.
  intros data M D T Hne.
  set (zones := calculateHeartRateZones M).
  pose proof (nonempty_length_pos data Hne) as Hn.
  pose proof (samplesIn_total zones data) as Htot.
  pose proof (countedHRs_length_le data) as Hle.
  destruct (percentage_range (samplesIn zones "recovery" data) (length data)
              (samplesIn_le _ _ _) Hn) as (p1 & E1 & _ & U1 & L1).
  destruct (percentage_range (samplesIn zones "fatBurn" data) (length data)
              (samplesIn_le _ _ _) Hn) as (p2 & E2 & _ & U2 & L2).
  destruct (percentage_range (samplesIn zones "aerobic" data) (length data)
              (samplesIn_le _ _ _) Hn) as (p3 & E3 & _ & U3 & L3).
  destruct (percentage_range (samplesIn zones "anaerobic" data) (length data)
              (samplesIn_le _ _ _) Hn) as (p4 & E4 & _ & U4 & L4).
  destruct (percentage_range (samplesIn zones "max" data) (length data)
              (samplesIn_le _ _ _) Hn) as (p5 & E5 & _ & U5 & L5).
  exists p1, p2, p3, p4, p5.
  pose proof (inject_Z_of_nat_pos (length data) Hn) as Hnq.
  set (n := inject_Z (Z.of_nat (length data))) in *.
  set (c1 := inject_Z (Z.of_nat (samplesIn zones "recovery" data))) in *.
  set (c2 := inject_Z (Z.of_nat (samplesIn zones "fatBurn" data))) in *.
  set (c3 := inject_Z (Z.of_nat (samplesIn zones "aerobic" data))) in *.
  set (c4 := inject_Z (Z.of_nat (samplesIn zones "anaerobic" data))) in *.
  set (c5 := inject_Z (Z.of_nat (samplesIn zones "max" data))) in *.
  assert (Hsum : (c1 / n * 100 + c2 / n * 100 + c3 / n * 100 + c4 / n * 100
                  + c5 / n * 100
                  == inject_Z (Z.of_nat (length (countedHRs data))) / n * 100)%Q).
  { rewrite <- Htot. subst c1 c2 c3 c4 c5.
    rewrite !Nat2Z.inj_add, !inject_Z_plus. field. lra. }
  assert (Hm0 : (0 <= inject_Z (Z.of_nat (length (countedHRs data))))%Q).
  { change 0%Q with (inject_Z 0). rewrite <- Zle_Qle. lia. }
  assert (Hmn : (inject_Z (Z.of_nat (length (countedHRs data))) <= n)%Q).
  { subst n. rewrite <- Zle_Qle. lia. }
  destruct (ratio_bounds _ _ Hm0 Hmn Hnq) as [_ Hr1].
  split; [| split].
  - apply map_eq. intros key.
    destruct (decide (key ∈ zoneKeys)) as [Hin | Hout].
    + rewrite (timeInZones_lookup data M D T key Hne Hin). fold zones.
      unfold zoneKeys in Hin. unfold zoneTable.
      repeat (apply elem_of_cons in Hin as [-> | Hin];
              [repeat (rewrite lookup_insert_ne by discriminate);
               rewrite lookup_insert_eq; congruence |]).
      now apply elem_of_nil in Hin.
    + rewrite (timeInZones_lookup_other data M D T key Hne Hout).
      unfold zoneKeys in Hout. unfold zoneTable.
      repeat (rewrite lookup_insert_ne by set_solver).
      now rewrite lookup_empty.
  - assert (Hq : (inject_Z (p1 + p2 + p3 + p4 + p5) < inject_Z 103)%Q).
    { rewrite !inject_Z_plus. change (inject_Z 103) with 103%Q. lra. }
    rewrite <- Zlt_Qlt in Hq. lia.
  - intros Hall. rewrite (countedHRs_all data Hall) in Hsum. fold n in Hsum.
    assert (Hone : (n / n == 1)%Q) by (field; lra).
    assert (Hq : (inject_Z 97 < inject_Z (p1 + p2 + p3 + p4 + p5))%Q).
    { rewrite !inject_Z_plus. change (inject_Z 97) with 97%Q.
      rewrite Hone in Hsum. lra. }
    rewrite <- Zlt_Qlt in Hq. lia.
Qed.

Lemma percentages_sum_within_two_of_100_witness :
  (exists p1 p2 p3 p4 p5 : Z,
      timeInZones (calculateWorkoutQuality
                     [sample 60; sample 110; sample 130; sample 150;
                      sample 190; sample 190; sample 190; sample 190]
                     (Fin 200) (Fin 60) Other)
      = zoneTable p1 p2 p3 p4 p5
      /\ (p1 + p2 + p3 + p4 + p5 <= 102)%Z
      /\ (Forall (fun d => truthy_opt (heartRate d) = true)
            [sample 60; sample 110; sample 130; sample 150;
             sample 190; sample 190; sample 190; sample 190] ->
          (98 <= p1 + p2 + p3 + p4 + p5)%Z))
  /\ timeInZones (calculateWorkoutQuality
                    [sample 60; sample 110; sample 130; sample 150;
                     sample 190; sample 190; sample 190; sample 190]
                    (Fin 200) (Fin 60) Other)
     = zoneTable 13 13 13 13 50.
Proof.
  split.
  - apply percentages_sum_within_two_of_100. discriminate.
  - vm_compute. reflexivity.
Defined.

(** X6: for a maxHeartRate of at least 1 and a non-empty sequence of valid
    readings (missing, or between 0 and maxHeartRate), the reported
    averageIntensity and maxIntensity are integers between 0 and 100, the
    average never exceeds the maximum, and maxIntensity is the intensity of
    one of the samples. *)
Theorem intensity_aggregates_in_range :
  forall (M : Q) (data : list HeartRateData) (D : num) (T : WorkoutType),
    (1 <= M)%Q -> data <> [] -> Forall (validReading M) data ->
    let r := calculateWorkoutQuality data (Fin M) D T in
    exists avg mx : Z,
      averageIntensity r = of_Z avg
      /\ maxIntensity r = of_Z mx
      /\ (0 <= avg <= mx)%Z /\ (mx <= 100)%Z
      /\ of_Z mx ∈ intensities data (Fin M).
Proof.
  intros M data D T HM Hne Hvalid r.
  destruct (intensities_of_valid M data HM Hvalid) as (ints & His & Hlen & Hall).
  subst r. unfold calculateWorkoutQuality.
  rewrite nonempty_length_eqb by exact Hne.
  cbn [averageIntensity maxIntensity]. rewrite His.
  destruct ints as [| i ints]; [destruct data; [congruence | discriminate] |].
  destruct (Math_max_spread_of_Z i ints) as (m & Hm & Hin & Hle).
  rewrite Hm, sum_of_Z, length_fmap.
  pose proof (inject_Z_of_nat_pos (length (i :: ints)) ltac:(cbn; lia)) as Hn.
  unfold of_nat, of_Z at 1 2. rewrite div_Fin by lra. cbn [Math_round].
  exists (round_half_up (inject_Z (sumZ (i :: ints))
                         / inject_Z (Z.of_nat (length (i :: ints))))), m.
  split; [reflexivity |]. split; [reflexivity |].
  assert (Hm100 : (0 <= m <= 100)%Z).
  { rewrite Forall_forall in Hall. now apply Hall. }
  assert (Hbelow : Forall (fun x => 0 <= x <= m)%Z (i :: ints)).
  { rewrite Forall_forall in Hall, Hle. apply Forall_forall.
    intros x Hx. specialize (Hall x Hx). specialize (Hle x Hx). lia. }
  pose proof (sumZ_bounds (i :: ints) 0 m Hbelow) as Hsum.
  set (n := Z.of_nat (length (i :: ints))) in *.
  set (S := sumZ (i :: ints)) in *.
  assert (Havg : (0 <= inject_Z S / inject_Z n
                  /\ inject_Z S / inject_Z n <= inject_Z m)%Q).
  { split.
    - apply Qle_shift_div_l; [exact Hn |].
      rewrite Qmult_0_l. change 0%Q with (inject_Z 0). rewrite <- Zle_Qle. lia.
    - apply Qle_shift_div_r; [exact Hn |].
      rewrite <- inject_Z_mult, <- Zle_Qle. lia. }
  split; [| split; [lia |]].
  - apply round_half_up_between; [change (inject_Z 0) with 0%Q |]; tauto.
  - rewrite list_elem_of_fmap. eauto.
Qed.

Lemma intensity_aggregates_in_range_witness :
  exists avg mx : Z,
    averageIntensity (calculateWorkoutQuality [sample 100; nullSample; sample 150]
                        (Fin 200) (Fin 60) Other) = of_Z avg
    /\ maxIntensity (calculateWorkoutQuality [sample 100; nullSample; sample 150]
                       (Fin 200) (Fin 60) Other) = of_Z mx
    /\ (0 <= avg <= mx)%Z /\ (mx <= 100)%Z
    /\ of_Z mx ∈ intensities [sample 100; nullSample; sample 150] (Fin 200).
Proof.
  apply (intensity_aggregates_in_range 200
           [sample 100; nullSample; sample 150] (Fin 60) Other).
  - lra.
  - discriminate.
  - constructor; [| constructor; [| constructor; [| constructor]]].
    + right. exists (inject_Z 100). split; [reflexivity |].
      split; vm_compute; discriminate.
    + now left.
    + right. exists (inject_Z 150). split; [reflexivity |].
      split; vm_compute; discriminate.
Defined.

(** X7: for a maxHeartRate of at least 1 and valid readings (missing, or
    between 0 and maxHeartRate) the order of the samples does not matter for
    averageIntensity, maxIntensity, timeInZones and peakSpikes: two
    sequences that are permutations of each other agree on them.  The
    intensities are then integers between 0 and 100, whose sum is the same
    in whatever order it is taken.  (sustainedAerobic and zoneTransitions do
    depend on the order.) *)
Theorem sample_order_is_irrelevant_for_totals :
  forall (M : Q) (data data' : list HeartRateData) (D : num) (T : WorkoutType),
    (1 <= M)%Q -> Forall (validReading M) data -> data ≡ₚ data' ->
    let r := calculateWorkoutQuality data (Fin M) D T in
    let r' := calculateWorkoutQuality data' (Fin M) D T in
    (exists ints : list Z,
        intensities data (Fin M) = of_Z <$> ints
        /\ Forall (fun i => 0 <= i <= 100)%Z ints)
    /\ averageIntensity r = averageIntensity r'
    /\ maxIntensity r = maxIntensity r'
    /\ timeInZones r = timeInZones r'
    /\ (workoutSpecific r ≫= peakSpikes) = (workoutSpecific r' ≫= peakSpikes).
Proof.
  intros M data data' D T HM Hvalid Hp r r'. subst r r'.
  split.
  { destruct (intensities_of_valid M data HM Hvalid) as (ints & His & _ & Hall).
    now exists ints. }
  unfold calculateWorkoutQuality.
  rewrite <- (Permutation_length Hp).
  destruct (length data =? 0)%nat; [repeat split |].
  cbn [averageIntensity maxIntensity timeInZones workoutSpecific
       mbind option_bind peakSpikes].
  assert (Hint : intensities data (Fin M) ≡ₚ intensities data' (Fin M)).
  { unfold intensities. now apply fmap_Permutation. }
  pose proof (intensities_integral data (Fin M)) as Hall.
  unfold sum.
  rewrite <- (foldl_add_permutation _ _ Hint (Fin 0) (integral_Z 0) Hall).
  rewrite <- (Math_max_spread_permutation _ _ Hint Hall).
  rewrite <- (Permutation_length Hint).
  rewrite <- (zoneCounts_permutation data data' _ Hp).
  repeat split.
  unfold peakSpikesOf. cbv zeta. do 2 f_equal.
  now apply filter_length_permutation.
Qed.

Lemma sample_order_is_irrelevant_for_totals_witness :
  averageIntensity (calculateWorkoutQuality [sample 190; sample 60; sample 130]
                      (Fin 200) (Fin 60) Other)
  = averageIntensity (calculateWorkoutQuality [sample 60; sample 190; sample 130]
                        (Fin 200) (Fin 60) Other)
  /\ timeInZones (calculateWorkoutQuality [sample 190; sample 60; sample 130]
                    (Fin 200) (Fin 60) Other)
     = timeInZones (calculateWorkoutQuality [sample 60; sample 190; sample 130]
                      (Fin 200) (Fin 60) Other).
Proof.
  destruct (sample_order_is_irrelevant_for_totals 200
              [sample 190; sample 60; sample 130]
              [sample 60; sample 190; sample 130] (Fin 60) Other)
    as (_ & Havg & _ & Htz & _).
  - lra.
  - constructor; [| constructor; [| constructor; [| constructor]]].
    + right. exists (inject_Z 190). split; [reflexivity |].
      split; vm_compute; discriminate.
    + right. exists (inject_Z 60). split; [reflexivity |].
      split; vm_compute; discriminate.
    + right. exists (inject_Z 130). split; [reflexivity |].
      split; vm_compute; discriminate.
  - apply perm_swap.
  - split; [exact Havg | exact Htz].
Defined.

(** X8: for a non-negative maxHeartRate, peakSpikes is the number of samples
    counted in the max zone, so timeInZones.max is peakSpikes as a rounded
    percentage of the sample count. *)
Theorem peakSpikes_counts_the_max_zone :
  forall (M : Q) (data : list HeartRateData) (D : num) (T : WorkoutType),
    (0 <= M)%Q -> data <> [] ->
    let r := calculateWorkoutQuality data (Fin M) D T in
    exists spikes : nat,
      (workoutSpecific r ≫= peakSpikes) = Some (of_nat spikes)
      /\ spikes = samplesIn (calculateHeartRateZones (Fin M)) "max" data
      /\ timeInZones r !! "max" = Some (percentage spikes (length data))
      /\ (spikes <= length data)%nat.
Proof.
  intros M data D T HM Hne r.
  exists (samplesIn (calculateHeartRateZones (Fin M)) "max" data).
  split; [| split; [reflexivity | split]].
  - subst r. unfold calculateWorkoutQuality.
    rewrite nonempty_length_eqb by exact Hne.
    cbn [workoutSpecific mbind option_bind peakSpikes].
    unfold peakSpikesOf, samplesIn. cbv zeta. do 3 f_equal.
    apply List.filter_ext. intros d. now apply max_bucket_is_peak.
  - subst r. apply timeInZones_lookup; [exact Hne |].
    unfold zoneKeys. set_solver.
  - apply samplesIn_le.
Qed.

Lemma peakSpikes_counts_the_max_zone_witness :
  exists spikes : nat,
    (workoutSpecific (calculateWorkoutQuality
                        [sample 190; sample 100; sample 175]
                        (Fin 200) (Fin 60) Weightlifting) ≫= peakSpikes)
    = Some (of_nat spikes)
    /\ spikes = samplesIn (calculateHeartRateZones (Fin 200)) "max"
                  [sample 190; sample 100; sample 175]
    /\ timeInZones (calculateWorkoutQuality
                      [sample 190; sample 100; sample 175]
                      (Fin 200) (Fin 60) Weightlifting) !! "max"
       = Some (percentage spikes (length [sample 190; sample 100; sample 175]))
    /\ (spikes <= length [sample 190; sample 100; sample 175])%nat.
Proof.
  apply (peakSpikes_counts_the_max_zone 200
           [sample 190; sample 100; sample 175] (Fin 60) Weightlifting).
  - lra.
  - discriminate.
Defined.

(** X9: for a non-empty sequence zoneTransitions is a count of at most the
    number of counted samples minus one, and it is 0 exactly when all
    counted samples fall in one zone. *)
Theorem zoneTransitions_bound_and_zero :
  forall (data : list HeartRateData) (M D : num) (T : WorkoutType),
    data <> [] ->
    let zones := calculateHeartRateZones M in
    exists t : nat,
      (workoutSpecific (calculateWorkoutQuality data M D T) ≫= zoneTransitions)
      = Some (of_nat t)
      /\ (t <= length (countedHRs data) - 1)%nat
      /\ (t = 0%nat <->
          forall hr1 hr2 : num,
            hr1 ∈ countedHRs data -> hr2 ∈ countedHRs data ->
            currentZoneOf zones hr1 = currentZoneOf zones hr2).
Proof.
  intros data M D T Hne zones.
  exists (zoneChanges (currentZoneOf zones <$> countedHRs data)).
  split; [| split].
  - unfold calculateWorkoutQuality. rewrite nonempty_length_eqb by exact Hne.
    cbn [workoutSpecific mbind option_bind zoneTransitions].
    now rewrite zoneTransitionsOf_zoneChanges.
  - pose proof (zoneChanges_bound (currentZoneOf zones <$> countedHRs data)) as H.
    now rewrite length_fmap in H.
  - rewrite zoneChanges_zero. split.
    + intros H hr1 hr2 H1 H2.
      apply H; apply list_elem_of_fmap; eauto.
    + intros H z1 z2 H1 H2.
      apply list_elem_of_fmap in H1 as (hr1 & -> & H1).
      apply list_elem_of_fmap in H2 as (hr2 & -> & H2).
      now apply H.
Qed.

Lemma zoneTransitions_bound_and_zero_witness :
  exists t : nat,
    (workoutSpecific (calculateWorkoutQuality [sample 60; sample 190; sample 60]
                        (Fin 200) (Fin 60) HIIT) ≫= zoneTransitions)
    = Some (of_nat t)
    /\ (t <= length (countedHRs [sample 60; sample 190; sample 60]) - 1)%nat
    /\ (t = 0%nat <->
        forall hr1 hr2 : num,
          hr1 ∈ countedHRs [sample 60; sample 190; sample 60] ->
          hr2 ∈ countedHRs [sample 60; sample 190; sample 60] ->
          currentZoneOf (calculateHeartRateZones (Fin 200)) hr1
          = currentZoneOf (calculateHeartRateZones (Fin 200)) hr2).
Proof.
  apply (zoneTransitions_bound_and_zero [sample 60; sample 190; sample 60]
           (Fin 200) (Fin 60) HIIT).
  discriminate.
Defined.

(** X10: for every non-empty sequence and every maxHeartRate, sustainedAerobic
    is round(run / n * 100), an integer between 0 and 100, where run is the
    length of the longest block of consecutive samples whose heart rate is
    truthy and lies in [round(0.6 M), round(0.7 M)], both ends included, and
    n counts all samples. *)
Theorem sustainedAerobic_is_longest_run :
  forall (data : list HeartRateData) (M D : num) (T : WorkoutType),
    data <> [] ->
    exists (run : nat) (p : Z),
      (workoutSpecific (calculateWorkoutQuality data M D T) ≫= sustainedAerobic)
      = Some (percentage run (length data))
      /\ longestRun (inAerobicWindow M) data run
      /\ percentage run (length data) = of_Z p /\ (0 <= p <= 100)%Z.
Proof.
  intros data M D T Hne.
  destruct (foldl_runStep_longestRun (inAerobicWindow M) data) as [Hrun Hle].
  set (run := fst (foldl (runStep (inAerobicWindow M)) (0%nat, 0%nat) data)) in *.
  destruct (percentage_range run (length data) Hle (nonempty_length_pos data Hne))
    as (p & Hp & Hrange & _).
  exists run, p.
  split; [| split; [exact Hrun | split; [exact Hp | exact Hrange]]].
  unfold calculateWorkoutQuality. rewrite nonempty_length_eqb by exact Hne.
  cbn [workoutSpecific mbind option_bind sustainedAerobic].
  now rewrite sustainedAerobicOf_run.
Qed.

Lemma sustainedAerobic_is_longest_run_witness :
  exists (run : nat) (p : Z),
    (workoutSpecific (calculateWorkoutQuality
                        [sample 130; sample 135; sample 100; sample 130]
                        (Fin 200) (Fin 60) Running) ≫= sustainedAerobic)
    = Some (percentage run 4)
    /\ longestRun (inAerobicWindow (Fin 200))
         [sample 130; sample 135; sample 100; sample 130] run
    /\ percentage run 4 = of_Z p /\ (0 <= p <= 100)%Z.
Proof.
  apply (sustainedAerobic_is_longest_run
           [sample 130; sample 135; sample 100; sample 130]
           (Fin 200) (Fin 60) Running).
  discriminate.
Defined.

(** X11: the sustained-aerobic window includes its lower edge round(0.6 M),
    which the zone table gives to fatBurn.  From maxHeartRate 10 on, a
    non-empty sequence of readings all equal to that edge has timeInZones
    fatBurn 100 and aerobic 0, yet sustainedAerobic 100. *)
Theorem sustained_window_includes_fatBurn_edge :
  forall (M : Q) (data : list HeartRateData) (D : num) (T : WorkoutType),
    (10 <= M)%Q -> data <> [] ->
    Forall (fun d => heartRate d
                     = Some (Band.min (aerobic (calculateHeartRateZones (Fin M)))))
      data ->
    let r := calculateWorkoutQuality data (Fin M) D T in
    timeInZones r !! "fatBurn" = Some (Fin 100)
    /\ timeInZones r !! "aerobic" = Some (Fin 0)
    /\ (workoutSpecific r ≫= sustainedAerobic) = Some (Fin 100).
Proof.
  intros M data D T HM Hne Hall r. subst r.
  pose proof (nonempty_length_pos data Hne) as Hn.
  assert (Hwin : Forall (fun d => inAerobicWindow (Fin M) d = true) data).
  { eapply Forall_impl; [exact Hall |]. intros d Hd.
    now apply (aerobic_lower_edge M d HM Hd). }
  assert (Hfat : Forall (fun d => bucketOf (calculateHeartRateZones (Fin M)) d
                                  = Some "fatBurn") data).
  { eapply Forall_impl; [exact Hall |]. intros d Hd.
    now apply (aerobic_lower_edge M d HM Hd). }
  assert (Hnot : Forall (fun d => bucketOf (calculateHeartRateZones (Fin M)) d
                                  <> Some "aerobic") data).
  { eapply Forall_impl; [exact Hfat |]. cbn. intros d ->. discriminate. }
  split; [| split].
  - rewrite timeInZones_lookup by (try assumption; unfold zoneKeys; set_solver).
    now rewrite samplesIn_all, percentage_all.
  - rewrite timeInZones_lookup by (try assumption; unfold zoneKeys; set_solver).
    now rewrite samplesIn_none, percentage_none.
  - destruct (foldl_runStep_longestRun (inAerobicWindow (Fin M)) data) as [Hrun _].
    unfold calculateWorkoutQuality. rewrite nonempty_length_eqb by exact Hne.
    cbn [workoutSpecific mbind option_bind sustainedAerobic].
    rewrite sustainedAerobicOf_run.
    rewrite (longestRun_all _ _ _ Hrun Hwin). now rewrite percentage_all.
Qed.

Lemma sustained_window_includes_fatBurn_edge_witness :
  timeInZones (calculateWorkoutQuality [sample 120; sample 120]
                 (Fin 200) (Fin 60) Cardio) !! "fatBurn" = Some (Fin 100)
  /\ timeInZones (calculateWorkoutQuality [sample 120; sample 120]
                    (Fin 200) (Fin 60) Cardio) !! "aerobic" = Some (Fin 0)
  /\ (workoutSpecific (calculateWorkoutQuality [sample 120; sample 120]
                         (Fin 200) (Fin 60) Cardio) ≫= sustainedAerobic)
     = Some (Fin 100).
Proof.
  apply (sustained_window_includes_fatBurn_edge 200
           [sample 120; sample 120] (Fin 60) Cardio).
  - lra.
  - discriminate.
  - repeat constructor.
Defined.

(** X12: hrVariability is absent exactly when fewer than two readings are
    non-null.  For two or more integer readings between 0 and 1000 it is an
    integer k >= 0 within one of the population standard deviation:
    variance < (k + 1)^2, and (k - 1)^2 < variance unless k = 0; it is 0
    when all readings are equal.  The statement leaves open which way a tie
    of the square root is rounded. *)
Theorem hrVariability_is_rounded_deviation :
  forall (data : list HeartRateData) (M D : num) (T : WorkoutType),
    data <> [] ->
    let hv := workoutSpecific (calculateWorkoutQuality data M D T) ≫= hrVariability in
    (hv = None <-> (length (validHRs data) <= 1)%nat)
    /\ (forall zs : list Z,
          validHRs data = of_Z <$> zs -> (2 <= length zs)%nat ->
          Forall (fun z => 0 <= z <= 1000)%Z zs ->
          exists k : Z,
            hv = Some (of_Z k) /\ (0 <= k)%Z
            /\ (k = 0%Z
                \/ (inject_Z ((k - 1) * (k - 1))
                    < popVariance (inject_Z <$> zs))%Q)
            /\ (popVariance (inject_Z <$> zs) < inject_Z ((k + 1) * (k + 1)))%Q
            /\ (forall c : Z, Forall (fun z => z = c) zs -> k = 0%Z)).
Proof.
  intros data M D T Hne hv.
  assert (Hhv : hv = hrVariabilityOf (validHRs data)).
  { subst hv. unfold calculateWorkoutQuality.
    now rewrite nonempty_length_eqb by exact Hne. }
  rewrite Hhv. split.
  - unfold hrVariabilityOf.
    destruct (1 <? length (validHRs data))%nat eqn:E.
    + apply Nat.ltb_lt in E. split; [discriminate | lia].
    + apply Nat.ltb_ge in E. split; [intros _; exact E | reflexivity].
  - intros zs Hzs Hlen _. rewrite Hzs, of_Z_fmap.
    set (qs := inject_Z <$> zs).
    assert (Hlenq : (2 <= length qs)%nat) by (subst qs; now rewrite length_fmap).
    destruct (hrVariabilityOf_Fin qs Hlenq) as (v & Hv & Heq).
    rewrite Hv, (Math_round_sqrt_proper v (popVariance qs) Heq).
    destruct (Math_round_sqrt_spec (popVariance qs) (popVariance_nonneg qs))
      as (k & Hk & Hk0 & Hlow & Hup).
    destruct (Math_round_sqrt_within_one (popVariance qs) (popVariance_nonneg qs))
      as (k' & Hk' & _ & Hlow' & Hup').
    assert (k' = k) as ->.
    { rewrite Hk in Hk'. unfold of_Z in Hk'. injection Hk' as Hk'.
      unfold inject_Z in Hk'. congruence. }
    exists k. rewrite Hk. repeat split; try assumption.
    intros c Hc.
    assert (Hz : (popVariance qs == 0)%Q).
    { apply (popVariance_const (inject_Z c)).
      - destruct zs; [cbn in Hlen; lia | discriminate].
      - subst qs. apply Forall_fmap. eapply Forall_impl; [exact Hc |].
        cbn. intros z ->. reflexivity. }
    destruct Hlow as [-> | Hlow]; [reflexivity |].
    rewrite Hz in Hlow. change (4 * 0)%Q with (inject_Z 0) in Hlow.
    rewrite <- Zle_Qle in Hlow. nia.
Qed.

Lemma hrVariability_is_rounded_deviation_witness :
  exists k : Z,
    (workoutSpecific (calculateWorkoutQuality [sample 100; nullSample; sample 110]
                        (Fin 200) (Fin 60) Weightlifting) ≫= hrVariability)
    = Some (of_Z k)
    /\ (0 <= k)%Z
    /\ (popVariance [inject_Z 100; inject_Z 110] < inject_Z ((k + 1) * (k + 1)))%Q.
Proof.
  destruct (proj2 (hrVariability_is_rounded_deviation
                     [sample 100; nullSample; sample 110]
                     (Fin 200) (Fin 60) Weightlifting ltac:(discriminate))
              [100; 110]%Z)
    as (k & Hk & Hk0 & _ & Hup & _).
  - reflexivity.
  - cbn. lia.
  - constructor; [lia | constructor; [lia | constructor]].
  - exists k. split; [exact Hk |]. split; [exact Hk0 | exact Hup].
Defined.

(** X14: for a maxHeartRate of at least 1, a non-negative duration and a
    non-empty sequence of valid readings (missing, or between 0 and
    maxHeartRate), the score of every workout type is an integer between 0
    and 100. *)
Theorem score_in_range_for_valid_input :
  forall (M d : Q) (data : list HeartRateData) (T : WorkoutType),
    (1 <= M)%Q -> (0 <= d)%Q -> data <> [] -> Forall (validReading M) data ->
    exists s : Z,
      score (calculateWorkoutQuality data (Fin M) (Fin d) T) = of_Z s
      /\ (0 <= s <= 100)%Z.
Proof.
  intros M d data T HM Hd Hne Hvalid.
  unfold calculateWorkoutQuality. rewrite nonempty_length_eqb by exact Hne.
  cbn [score].
  destruct (average_and_max_of_valid M data HM Hne Hvalid) as [Havg Hmx].
  destruct (highIntensity_range data (calculateHeartRateZones (Fin M)) Hne)
    as [Hhigh Haer].
  destruct (validHRs_of_valid M data Hvalid) as (qs & Hqs).
  destruct (foldl_runStep_longestRun (inAerobicWindow (Fin M)) data) as [_ Hrun].
  destruct (percentage_range _ (length data) Hrun (nonempty_length_pos data Hne))
    as (p & Hp & Hprange & _).
  apply scoreOf_range; cbn [hrVariability peakSpikes sustainedAerobic zoneTransitions];
    try assumption.
  - rewrite Hqs. apply hrVariabilityOf_of_valid.
  - unfold peakSpikesOf. cbv zeta. eauto.
  - exists p. rewrite sustainedAerobicOf_run, Hp. auto.
  - rewrite zoneTransitionsOf_zoneChanges. eauto.
  - now apply durationScoreOf_range.
Qed.

Lemma score_in_range_for_valid_input_witness :
  exists s : Z,
    score (calculateWorkoutQuality [sample 100; nullSample; sample 150]
             (Fin 200) (Fin 1800) Cardio) = of_Z s
    /\ (0 <= s <= 100)%Z.
Proof.
  apply (score_in_range_for_valid_input 200 1800
           [sample 100; nullSample; sample 150] Cardio).
  - lra.
  - lra.
  - discriminate.
  - constructor; [| constructor; [| constructor; [| constructor]]].
    + right. exists (inject_Z 100). split; [reflexivity |].
      split; vm_compute; discriminate.
    + now left.
    + right. exists (inject_Z 150). split; [reflexivity |].
      split; vm_compute; discriminate.
Defined.

(** X15: whatever methods are called on a new HeartRateMonitor, in whatever
    order and each awaited before the next, a manual reading reaches a
    callback exactly when a start came before it with no stop in between;
    it goes to the callback of the latest start, with the heart rate
    rounded.  The fields stay in step:
    manualMode is set exactly while a callback is registered, and
    intervalId stays null. *)
Theorem monitor_delivers_between_start_and_stop :
  forall (C : Type) (calls : list (HeartRateMonitor.Call C)),
    let final := HeartRateMonitor.run calls in
    snd final = HeartRateMonitor.deliveries None calls
    /\ HeartRateMonitor.isManualMode (fst final)
       = bool_decide (is_Some (HeartRateMonitor.onHeartRateUpdate (fst final)))
    /\ HeartRateMonitor.intervalId (fst final) = None
    /\ (forall d, d ∈ snd final ->
        exists hr : num, heartRate (snd d) = Some hr /\ integral hr).
Proof.
  intros C calls final. subst final. unfold HeartRateMonitor.run.
  destruct (perform_deliveries calls HeartRateMonitor.create [] None)
    as (current & (Hcb & Hmode & Hint) & Hlog).
  { split; [reflexivity |]. split; reflexivity. }
  split; [exact Hlog |]. split; [| split; [exact Hint |]].
  - unfold HeartRateMonitor.isManualMode. now rewrite Hmode, Hcb.
  - rewrite Hlog. cbn [app]. clear.
    generalize (@None C) as current.
    induction calls as [| [onUpdate | hr now |] calls IH]; intros current d Hd;
      cbn [HeartRateMonitor.deliveries] in Hd.
    + now apply elem_of_nil in Hd.
    + eauto.
    + destruct current as [callback |]; [| eauto].
      apply elem_of_cons in Hd as [-> | Hd]; [| eauto].
      cbn. eexists. split; [reflexivity | apply Math_round_integral].
    + eauto.
Qed.

(** X16: the start button leads to the workout screen only with a usable
    maxHeartRate: a number between 100 and 220.  A non-empty max heart rate
    field decides alone: its value is passed on and no age, whatever the age
    field says.  With that field empty the age must lie between 10 and 120,
    and the value passed is the integer 220 - age rounded, between 100 and
    210.  In both cases each of the five bands of the zone table of that
    maxHeartRate is non-empty. *)
Theorem start_passes_usable_maxHeartRate :
  forall (parseInt : string -> num) (setItemFails : string -> bool)
         (age maxHeartRate : string) (workoutType : WorkoutType)
         (settings : list (string * string))
         (params : StartWorkoutScreen.RouteParams),
    StartWorkoutScreen.handleStartWorkout parseInt setItemFails
      age maxHeartRate workoutType
    = StartWorkoutScreen.Navigate settings params ->
    StartWorkoutScreen.workoutType params = workoutType
    /\ exists M : Q,
         StartWorkoutScreen.maxHeartRate params = Fin M
         /\ (100 <= M)%Q /\ (M <= 220)%Q
         /\ (maxHeartRate <> "" ->
             parseInt maxHeartRate = Fin M
             /\ StartWorkoutScreen.age params = None)
         /\ (maxHeartRate = "" ->
             exists a : Q,
               parseInt age = Fin a
               /\ StartWorkoutScreen.age params = Some (Fin a)
               /\ (10 <= a)%Q /\ (a <= 120)%Q
               /\ M = inject_Z (round_half_up (220 - a))
               /\ (M <= 210)%Q)
         /\ Forall (fun b => (Band.min b <? Band.max b) = true)
                   (bandsOf (calculateHeartRateZones (Fin M))).
Proof.
  intros parseInt setItemFails age maxHeartRate workoutType settings params.
  unfold StartWorkoutScreen.handleStartWorkout.
  destruct (JsMath.truthy_string maxHeartRate) eqn:Hmax.
  - destruct (_ || _ || _) eqn:Htest; [discriminate |].
    intros [= _ <-]. cbn. split; [reflexivity |].
    destruct (range_test_passed _ _ _ Htest) as (M & HM & Hlo & Hhi).
    exists M. rewrite HM.
    split; [reflexivity |]. split; [exact Hlo |]. split; [exact Hhi |].
    split; [now intros _ |].
    split; [| apply bands_nonempty; lra].
    intros ->. discriminate.
  - destruct (JsMath.truthy_string age) eqn:Hage; [| discriminate].
    destruct (_ || _ || _) eqn:Htest; [discriminate |].
    intros [= _ <-]. cbn [StartWorkoutScreen.workoutType
                          StartWorkoutScreen.maxHeartRate StartWorkoutScreen.age].
    split; [reflexivity |].
    destruct (range_test_passed _ _ _ Htest) as (a & Ha & Hlo & Hhi).
    rewrite Ha. unfold StartWorkoutScreen.calculateMaxHeartRate.
    cbn [sub neg add Math_round]. unfold of_Z.
    pose proof (round_half_up_between (220 + - a) 100 210) as Hr.
    change (inject_Z 100) with 100%Q in Hr.
    change (inject_Z 210) with 210%Q in Hr.
    destruct Hr as [Hr1 Hr2]; [lra | lra |].
    rewrite Zle_Qle in Hr1, Hr2.
    change (inject_Z 100) with 100%Q in Hr1.
    change (inject_Z 210) with 210%Q in Hr2.
    exists (inject_Z (round_half_up (220 + - a))).
    split; [reflexivity |]. split; [exact Hr1 |]. split; [lra |].
    split.
    { intros Hne. apply truthy_string_spec in Hne. congruence. }
    split; [| apply bands_nonempty; lra].
    intros _. exists a. repeat split; try assumption.
Qed.

Lemma start_passes_usable_maxHeartRate_witness :
  exists M : Q,
    (100 <= M)%Q /\ (M <= 220)%Q
    /\ Forall (fun b => (Band.min b <? Band.max b) = true)
              (bandsOf (calculateHeartRateZones (Fin M))).
Proof.
  destruct (start_passes_usable_maxHeartRate
              (fun s => if String.eqb s "35" then of_Z 35 else NaN)
              (fun _ => false) "35" "" Cycling
              [(StartWorkoutScreen.AGE_KEY, "35")]
              {| StartWorkoutScreen.age := Some (of_Z 35);
                 StartWorkoutScreen.maxHeartRate := of_Z 185;
                 StartWorkoutScreen.workoutType := Cycling |}
              eq_refl)
    as (_ & M & _ & Hlo & Hhi & _ & _ & Hbands).
  exists M. split; [exact Hlo |]. split; [exact Hhi | exact Hbands].
Defined.

(** X17: the workout object built when a workout ends.  The history is
    stored as it is, samples without reading included, and the duration is
    the whole number of seconds between start and end.  Without any reading
    the average, the maximum, the minimum and the effort level are all left
    unset.  Otherwise the effort level is the aggregator's result on the
    samples that carry a reading, with that duration.  With integer readings
    between 0 and 1000 (the monitor rounds, the manual entry parses an
    integer) minimum and maximum are readings, every reading lies between
    them, and the stored average is an integer between them. *)
Theorem ended_workout_statistics :
  forall (workoutId : string) (workoutType : WorkoutType)
         (maxHeartRate startTime endTime : num)
         (history : list HeartRateData),
    let w := ActiveWorkoutScreen.handleEndWorkout workoutId workoutType
               maxHeartRate startTime history endTime in
    WorkoutStorage.heartRateData w = history
    /\ WorkoutStorage.duration w
       = Some (JsMath.Math_floor ((endTime - startTime) / Fin 1000))
    /\ length (withReading history) = length (validHRs history)
    /\ (validHRs history = [] ->
        WorkoutStorage.averageHeartRate w = None
        /\ WorkoutStorage.maxHeartRate w = None
        /\ WorkoutStorage.minHeartRate w = None
        /\ WorkoutStorage.effortLevel w = None)
    /\ (validHRs history <> [] ->
        WorkoutStorage.effortLevel w
        = Some (calculateWorkoutQuality (withReading history) maxHeartRate
                  (JsMath.Math_floor ((endTime - startTime) / Fin 1000))
                  workoutType))
    /\ (forall (z : Z) (zs : list Z),
        validHRs history = of_Z <$> (z :: zs) ->
        Forall (fun x => 0 <= x <= 1000)%Z (z :: zs) ->
        exists lo avg hi : Z,
          WorkoutStorage.minHeartRate w = Some (of_Z lo)
          /\ WorkoutStorage.averageHeartRate w = Some (of_Z avg)
          /\ WorkoutStorage.maxHeartRate w = Some (of_Z hi)
          /\ lo ∈ z :: zs /\ hi ∈ z :: zs
          /\ Forall (fun x => lo <= x <= hi)%Z (z :: zs)
          /\ (lo <= avg <= hi)%Z).
Proof.
  intros workoutId workoutType maxHeartRate startTime endTime history w.
  subst w. unfold ActiveWorkoutScreen.handleEndWorkout.
  fold (withReading history).
  cbn [WorkoutStorage.heartRateData WorkoutStorage.averageHeartRate
       WorkoutStorage.maxHeartRate WorkoutStorage.minHeartRate
       WorkoutStorage.effortLevel WorkoutStorage.duration].
  rewrite validHRs_withReading, length_withReading.
  split; [reflexivity |]. split; [reflexivity |]. split; [reflexivity |].
  split; [| split].
  - intros ->. now cbn.
  - intros Hne.
    assert (Hlen : (0 <? length (validHRs history))%nat = true).
    { apply Nat.ltb_lt. now apply nonempty_length_pos. }
    now rewrite Hlen.
  - intros z zs -> _.
    destruct (Math_min_spread_of_Z z zs) as (lo & Hlo & Hloin & Hloall).
    destruct (Math_max_spread_of_Z z zs) as (hi & Hhi & Hhiin & Hhiall).
    assert (Hall : Forall (fun x => lo <= x <= hi)%Z (z :: zs)).
    { apply Forall_forall. intros x Hx.
      rewrite Forall_forall in Hloall, Hhiall.
      split; [now apply Hloall | now apply Hhiall]. }
    destruct (rounded_mean_between (z :: zs) lo hi ltac:(discriminate) Hall)
      as (avg & Havg & Hrange).
    exists lo, avg, hi.
    change (0 <? length (of_Z <$> z :: zs))%nat with true. cbv iota.
    change (foldl (fun sum hr => sum + hr) (Fin 0) (of_Z <$> z :: zs))
      with (sum (of_Z <$> z :: zs)).
    rewrite Hlo, Hhi, Havg.
    repeat split; try assumption; lia.
Qed.

(** X19: the screen never records a heart rate.  The monitor's isAvailable
    returns false, so the mount effect returns before it starts the monitor
    or enters manual mode; the button that opens the manual entry is then
    never rendered.  Whatever events follow, the history stays empty, and
    the workout built at the end has no sample, no average, maximum or
    minimum heart rate and no effort level. *)
Theorem screen_never_records_a_reading :
  forall (parseInt : string -> num) (toString : num -> string)
         (now0 now1 now2 : num) (events : list ActiveWorkoutState.Event)
         (maxHeartRate : num) (workoutType : WorkoutType) (endTime : num),
    let s := ActiveWorkoutState.mounted parseInt toString now0 now1 now2 events in
    let w := ActiveWorkoutState.endWorkout maxHeartRate workoutType endTime s in
    ActiveWorkoutState.heartRateHistory s = []
    /\ ActiveWorkoutState.heartRate s = None
    /\ ActiveWorkoutState.isManualMode s = false
    /\ ActiveWorkoutState.showManualEntry s = false
    /\ ActiveWorkoutState.alerts s = ["Heart Rate Sensor Not Available"]
    /\ WorkoutStorage.heartRateData w = []
    /\ WorkoutStorage.averageHeartRate w = None
    /\ WorkoutStorage.maxHeartRate w = None
    /\ WorkoutStorage.minHeartRate w = None
    /\ WorkoutStorage.effortLevel w = None.
Proof.
  intros parseInt toString now0 now1 now2 events maxHeartRate workoutType
         endTime s w.
  destruct (mounted_quiet parseInt toString now0 now1 now2 events)
    as (Hh & Hr & Hm & Hs & Ha).
  fold s in Hh, Hr, Hm, Hs, Ha.
  repeat (split; [assumption |]).
  subst w. unfold ActiveWorkoutState.endWorkout. rewrite Hh.
  repeat split.
Qed.
